(** * Complexity analyzer of agentic-tools-mcp: a shallow embedding

    The development follows the analyzer tool of the repository
    (the [analyze_task_complexity] tool): the scorer
    [calculateComplexityScore], the classifier [analyzeTaskComplexity],
    the suggestion generator [generateTaskBreakdownSuggestions], the
    side effect [autoCreateSubtasksFromSuggestions], the renderer
    [generateComplexityAnalysisReport] and the tool's [handler].

    Conventions of the embedding.
    - A JavaScript [number] is an exact rational ([Q]).  The values the
      analyzer reads come from JSON storage, so they are finite; rounding
      of doubles is not modelled.  Truthiness of a number is "not zero".
    - A JavaScript string is a [string] of Rocq (one character per code
      unit, ASCII case mapping for [toLowerCase]).
    - An optional field is an [option]; [x || d] is [orDefault x d].
    - Storage and the clock are outside the analyzer: effectful code is a
      program tree ([Prog]) whose nodes are the requests made to them. *)

From Stdlib Require Import String Ascii List Bool ZArith QArith Qminmax Qround Qabs.
From Stdlib Require Import Lia DecimalString.
From Stdlib Require Import Lqa Permutation Sorted.
Import ListNotations.

Open Scope string_scope.
Open Scope Q_scope.

(** ** Strings of the host language *)

Module Js.

(** [String.prototype.toLowerCase] on the ASCII range. *)
Definition lowerAscii (c : ascii) : ascii :=
  let n := nat_of_ascii c in
  if (Nat.leb 65 n && Nat.leb n 90)%bool then ascii_of_nat (n + 32) else c.

Fixpoint toLowerCase (s : string) : string :=
  match s with
  | EmptyString => EmptyString
  | String c s' => String (lowerAscii c) (toLowerCase s')
  end.

(** [s.includes(kw)]: [kw] occurs in [s] at some position. *)
Fixpoint includes (s kw : string) : bool :=
  String.prefix kw s
  || match s with
     | EmptyString => false
     | String _ s' => includes s' kw
     end.

(** [xs.join(sep)]. *)
Definition join (sep : string) (xs : list string) : string :=
  String.concat sep xs.

(** [xs.some(p)] and the count [xs.filter(p).length]. *)
Definition some {A} (p : A -> bool) (xs : list A) : bool := existsb p xs.

Definition countMatches {A} (p : A -> bool) (xs : list A) : nat :=
  List.length (filter p xs).

(** Template interpolation of an array length or a counter: a natural
    number is printed in decimal. *)
Definition natToString (n : nat) : string :=
  NilZero.string_of_uint (Nat.to_uint n).

(** The double quote, built from its code. *)
Definition dquote : string := String (ascii_of_nat 34) EmptyString.

(** The line feed of a template literal. *)
Definition nl : string := String (ascii_of_nat 10) EmptyString.

End Js.

(** ** Numbers of the host language *)

Abbreviation number := Q (only parsing).

(** [Number.prototype.toString] and [toFixed(1)] belong to the host, not to
    the analyzer: the embedding takes them as an interface. *)
Class NumberFormat := {
  numberToString : number -> string;
  toFixed1 : number -> string
}.

(** Truthiness of a number: every representation of zero is falsy. *)
Definition truthyNumber (q : number) : bool := negb (Qeq_bool q 0).

(** [x || d] for an optional number. *)
Definition orDefault (x : option number) (d : number) : number :=
  match x with
  | Some q => if truthyNumber q then q else d
  | None => d
  end.

(** [x > y] on numbers. *)
Definition gtb (x y : number) : bool := negb (Qle_bool x y).

(** [x >= y] on numbers. *)
Definition geb (x y : number) : bool := Qle_bool y x.

(** [Math.round]: the nearest integer, halves towards plus infinity. *)
Definition Math_round (x : number) : number :=
  inject_Z (Qfloor (x + (1 # 2))).

Definition Math_min (x y : number) : number := Qmin x y.
Definition Math_max (x y : number) : number := Qmax x y.

Definition ofNat (n : nat) : number := inject_Z (Z.of_nat n).

(** ** Data model *)

Record Task := mkTask {
  id : string;
  name : string;
  details : string;
  projectId : string;
  completed : bool;
  status : option string;
  priority : option number;
  complexity : option number;
  estimatedHours : option number;
  dependsOn : option (list string)
}.

Record CreateTaskInput := mkCreateTaskInput {
  ctName : string;
  ctDetails : string;
  ctProjectId : string;
  ctPriority : option number;
  ctComplexity : number;
  ctTags : list string;
  ctEstimatedHours : number
}.

(** [Task & { analysisScore; issues; suggestions }]. *)
Record AnalyzedTask := mkAnalyzedTask {
  task : Task;
  analysisScore : number;
  issues : list string;
  suggestions : list CreateTaskInput
}.

Record ComplexityAnalysisResult := mkResult {
  complexTasks : list AnalyzedTask;
  simpleTasksCount : Z;
  totalTasksAnalyzed : Z;
  averageComplexity : number
}.

Record ScoreResult := mkScore {
  score : number;
  scoreIssues : list string
}.

(** ** The scorer *)

Definition highComplexityKeywords : list string :=
  [ "architecture"; "system"; "integration"; "security"; "performance";
    "scalability"; "database"; "api"; "framework"; "refactor"; "migration" ].

Definition actionVerbs : list string :=
  [ "implement"; "create"; "build"; "develop"; "design"; "setup";
    "configure"; "test"; "deploy"; "document"; "research" ].

Definition highComplexityMatches (t : Task) : nat :=
  Js.countMatches (Js.includes (Js.toLowerCase (details t))) highComplexityKeywords.

Definition actionMatches (t : Task) : nat :=
  Js.countMatches (Js.includes (Js.toLowerCase (details t))) actionVerbs.

(** One [if (c) { score += k; issues.push(msg) }] of the scorer. *)
Definition bump (c : bool) (k : number) (msg : string)
    (acc : number * list string) : number * list string :=
  if c then (fst acc + k, (snd acc ++ [msg])%list) else acc.

Section Scorer.
Context {fmt : NumberFormat}.

Definition calculateComplexityScore (t : Task) : ScoreResult :=
  let s0 := (orDefault (complexity t) 5, @nil string) in
  let s1 := bump (Nat.ltb 50 (String.length (name t))) 1
              "Task name is very long, suggesting multiple concerns" s0 in
  let s2 := bump (Nat.ltb 2 (highComplexityMatches t)) 2
              ("Contains " ++ Js.natToString (highComplexityMatches t)
                 ++ " high-complexity keywords") s1 in
  let s3 := bump (Nat.ltb 3 (actionMatches t)) 1
              ("Contains " ++ Js.natToString (actionMatches t)
                 ++ " different action verbs, suggesting multiple tasks") s2 in
  let s4 := bump (Nat.ltb 500 (String.length (details t))) 1
              "Task description is very detailed, suggesting high complexity" s3 in
  let s5 := match estimatedHours t with
            | Some h =>
                bump (truthyNumber h && gtb h 20) 1
                  ("High time estimate (" ++ numberToString h
                     ++ " hours) suggests complexity") s4
            | None => s4
            end in
  let s6 := match dependsOn t with
            | Some ds =>
                bump (Nat.ltb 3 (List.length ds)) 1
                  ("Many dependencies (" ++ Js.natToString (List.length ds)
                     ++ ") suggest complex coordination") s5
            | None => s5
            end in
  {| score := Math_min 10 (fst s6); scoreIssues := snd s6 |}.

End Scorer.

(** ** The breakdown suggestion generator *)

Record PatternSuggestion := mkPatternSuggestion {
  psName : string;
  psDetails : string;
  psTags : list string
}.

Record BreakdownPattern := mkPattern {
  keywords : list string;
  suggestion : PatternSuggestion
}.

(** The five templates, in the order of the source's array literal. *)
Definition breakdownPatterns (t : Task) : list BreakdownPattern :=
  [ {| keywords := ["research"; "investigate"; "analyze"];
       suggestion :=
         {| psName := "Research and Analysis for " ++ name t;
            psDetails :=
              "Research requirements, analyze existing solutions, and document findings for: "
                ++ substring 0 200 (details t);
            psTags := ["research"; "analysis"] |} |};
    {| keywords := ["design"; "architecture"; "plan"];
       suggestion :=
         {| psName := "Design and Planning for " ++ name t;
            psDetails :=
              "Create detailed design and implementation plan for: "
                ++ substring 0 200 (details t);
            psTags := ["design"; "planning"] |} |};
    {| keywords := ["implement"; "develop"; "build"; "code"];
       suggestion :=
         {| psName := "Core Implementation for " ++ name t;
            psDetails :=
              "Implement the main functionality for: "
                ++ substring 0 200 (details t);
            psTags := ["implementation"; "development"] |} |};
    {| keywords := ["test"; "testing"; "validation"];
       suggestion :=
         {| psName := "Testing and Validation for " ++ name t;
            psDetails :=
              "Create and execute tests to validate: "
                ++ substring 0 200 (details t);
            psTags := ["testing"; "validation"] |} |};
    {| keywords := ["document"; "documentation"; "guide"];
       suggestion :=
         {| psName := "Documentation for " ++ name t;
            psDetails :=
              "Create comprehensive documentation for: "
                ++ substring 0 200 (details t);
            psTags := ["documentation"] |} |} ].

(** [pattern.keywords.some(keyword => details.includes(keyword))]. *)
Definition patternMatches (lowered : string) (p : BreakdownPattern) : bool :=
  Js.some (fun keyword => Js.includes lowered keyword) (keywords p).

(** The object pushed for a matching template. *)
Definition templateSuggestion (t : Task) (p : BreakdownPattern) : CreateTaskInput :=
  {| ctName := psName (suggestion p);
     ctDetails := psDetails (suggestion p);
     ctProjectId := projectId t;
     ctPriority := priority t;
     ctComplexity := Math_max 1 (orDefault (complexity t) 5 - 2);
     ctTags := psTags (suggestion p);
     ctEstimatedHours := Math_round (orDefault (estimatedHours t) 8 / 3) |}.

(** The body of [for (const pattern of breakdownPatterns)]. *)
Definition pushIfMatches (t : Task) (lowered : string)
    (acc : list CreateTaskInput) (p : BreakdownPattern) : list CreateTaskInput :=
  if patternMatches lowered p then (acc ++ [templateSuggestion t p])%list else acc.

(** The three objects pushed when no template matched. *)
Definition genericBreakdown (t : Task) : list CreateTaskInput :=
  let baseHours := orDefault (estimatedHours t) 16 / 3 in
  [ {| ctName := "Planning Phase: " ++ name t;
       ctDetails := "Plan and design approach for: " ++ substring 0 200 (details t);
       ctProjectId := projectId t;
       ctPriority := priority t;
       ctComplexity := Math_max 1 (orDefault (complexity t) 5 - 3);
       ctTags := ["planning"];
       ctEstimatedHours := Math_round baseHours |};
    {| ctName := "Implementation Phase: " ++ name t;
       ctDetails := "Implement core functionality for: " ++ substring 0 200 (details t);
       ctProjectId := projectId t;
       ctPriority := priority t;
       ctComplexity := Math_max 1 (orDefault (complexity t) 5 - 2);
       ctTags := ["implementation"];
       ctEstimatedHours := Math_round (baseHours * 2) |};
    {| ctName := "Testing Phase: " ++ name t;
       ctDetails := "Test and validate implementation for: " ++ substring 0 200 (details t);
       ctProjectId := projectId t;
       ctPriority := priority t;
       ctComplexity := Math_max 1 (orDefault (complexity t) 5 - 3);
       ctTags := ["testing"];
       ctEstimatedHours := Math_round baseHours |} ].

Definition generateTaskBreakdownSuggestions (t : Task) : list CreateTaskInput :=
  let lowered := Js.toLowerCase (details t) in
  let suggestions :=
    fold_left (pushIfMatches t lowered) (breakdownPatterns t) [] in
  if Nat.eqb (List.length suggestions) 0
  then (suggestions ++ genericBreakdown t)%list
  else suggestions.

(** ** The classifier *)

(** [task.completed || task.status === 'done']. *)
Definition isDone (t : Task) : bool :=
  completed t
  || match status t with
     | Some s => String.eqb s "done"
     | None => false
     end.

(** The three variables the loop of [analyzeTaskComplexity] updates. *)
Record LoopState := mkLoop {
  accComplex : list AnalyzedTask;
  totalComplexity : number;
  tasksWithComplexity : Z
}.

Section Classifier.
Context {fmt : NumberFormat}.

Definition analyzeStep (threshold : number) (suggestBreakdown : bool)
    (st : LoopState) (t : Task) : LoopState :=
  if isDone t then st
  else
    let analysisResult := calculateComplexityScore t in
    let total := totalComplexity st + score analysisResult in
    let count := (tasksWithComplexity st + 1)%Z in
    if geb (score analysisResult) threshold then
      let suggestions :=
        if suggestBreakdown then generateTaskBreakdownSuggestions t else [] in
      {| accComplex :=
           (accComplex st ++
              [ {| task := t;
                   analysisScore := score analysisResult;
                   issues := scoreIssues analysisResult;
                   suggestions := suggestions |} ])%list;
         totalComplexity := total;
         tasksWithComplexity := count |}
    else
      {| accComplex := accComplex st;
         totalComplexity := total;
         tasksWithComplexity := count |}.

Definition analyzeTaskComplexity (tasks : list Task) (threshold : number)
    (suggestBreakdown : bool) : ComplexityAnalysisResult :=
  let st :=
    fold_left (analyzeStep threshold suggestBreakdown) tasks
      {| accComplex := []; totalComplexity := 0; tasksWithComplexity := 0 |} in
  {| complexTasks := accComplex st;
     simpleTasksCount :=
       (tasksWithComplexity st - Z.of_nat (List.length (accComplex st)))%Z;
     totalTasksAnalyzed := tasksWithComplexity st;
     averageComplexity :=
       if Z.ltb 0 (tasksWithComplexity st)
       then totalComplexity st / inject_Z (tasksWithComplexity st)
       else 0 |}.

End Classifier.

(** ** Storage, the clock and programs over them *)

Record Project := mkProject { projId : string }.

(** The record handed to [storage.createSubtask]. *)
Record Subtask := mkSubtask {
  stId : string;
  stName : string;
  stDetails : string;
  stTaskId : string;
  stProjectId : string;
  stCompleted : bool;
  stCreatedAt : string;
  stUpdatedAt : string
}.

(** A thrown value: an [Error] with its message, or anything else. *)
Inductive Thrown : Type :=
| ThrownError (message : string)
| ThrownOther.

(** The storage operations the analyzer uses, indexed by what they
    resolve to. *)
Inductive StorageCall : Type -> Type :=
| GetTask (taskId : string) : StorageCall (option Task)
| GetTasks (pid : string) : StorageCall (list Task)
| GetProjects : StorageCall (list Project)
| CreateSubtask (s : Subtask) : StorageCall unit.

(** A program: it returns, throws, awaits a storage call (which resolves
    or rejects) or reads the clock ([new Date().toISOString()]). *)
Inductive Prog (A : Type) : Type :=
| Ret (a : A)
| Throw (e : Thrown)
| Await {X : Type} (c : StorageCall X) (k : Thrown + X -> Prog A)
| Now (k : string -> Prog A).

Arguments Ret {A} a.
Arguments Throw {A} e.
Arguments Await {A X} c k.
Arguments Now {A} k.

Fixpoint bind {A B} (p : Prog A) (f : A -> Prog B) : Prog B :=
  match p with
  | Ret a => f a
  | Throw e => Throw e
  | Await c k => Await c (fun r => bind (k r) f)
  | Now k => Now (fun d => bind (k d) f)
  end.

(** [try { p } catch (error) { h error }]. *)
Fixpoint tryCatch {A} (p : Prog A) (h : Thrown -> Prog A) : Prog A :=
  match p with
  | Ret a => Ret a
  | Throw e => h e
  | Await c k => Await c (fun r => tryCatch (k r) h)
  | Now k => Now (fun d => tryCatch (k d) h)
  end.

(** [await storage.op(...)]: a rejection is thrown at the await. *)
Definition await {X} (c : StorageCall X) : Prog X :=
  Await c (fun r => match r with inl e => Throw e | inr x => Ret x end).

Definition now : Prog string := Now (fun d => Ret d).

Declare Scope prog_scope.
Delimit Scope prog_scope with prog.
Notation "x <- p ;; q" := (bind p (fun x => q))
  (at level 61, p at next level, right associativity) : prog_scope.
Notation "p ;;; q" := (bind p (fun _ => q))
  (at level 61, right associativity) : prog_scope.

(** A request as it reaches storage. *)
Inductive Request : Type :=
| request {X : Type} (c : StorageCall X).

(** The environment: how storage answers and what the clock shows, over a
    state of its own. *)
Record World (St : Type) := mkWorld {
  answer : forall X, StorageCall X -> St -> (Thrown + X) * St;
  clock : St -> string * St
}.

Arguments answer {St} w {X} c s.
Arguments clock {St} w s.

Record Outcome (St A : Type) := mkOutcome {
  result : Thrown + A;
  final : St;
  trace : list Request
}.

Arguments mkOutcome {St A} result final trace.
Arguments result {St A} o.
Arguments final {St A} o.
Arguments trace {St A} o.

Definition logged {St A} (r : Request) (o : Outcome St A) : Outcome St A :=
  mkOutcome (result o) (final o) (r :: trace o).

Fixpoint run {St A} (w : World St) (p : Prog A) (s : St) : Outcome St A :=
  match p with
  | Ret a => mkOutcome (inr a) s []
  | Throw e => mkOutcome (inl e) s []
  | Await c k =>
      let '(r, s') := answer w c s in
      logged (request c) (run w (k r) s')
  | Now k =>
      let '(d, s') := clock w s in
      run w (k d) s'
  end.

(** The subtask records a trace asked storage to create, in order. *)
Definition createdOf (r : Request) : list Subtask :=
  match r with
  | request c =>
      match c with
      | CreateSubtask s => [s]
      | _ => []
      end
  end.

Definition createdSubtasks (tr : list Request) : list Subtask :=
  flat_map createdOf tr.

(** ** The auto-creation side effect *)

(** The inner loop, [for (const suggestion of task.suggestions)]. *)
Fixpoint createSubtasksFor (t : AnalyzedTask) (sgs : list CreateTaskInput)
    : Prog unit :=
  match sgs with
  | [] => Ret tt
  | sg :: rest =>
      (createdAt <- now ;;
       updatedAt <- now ;;
       await (CreateSubtask
                {| stId := EmptyString;
                   stName := ctName sg;
                   stDetails := ctDetails sg;
                   stTaskId := id (task t);
                   stProjectId := projectId (task t);
                   stCompleted := false;
                   stCreatedAt := createdAt;
                   stUpdatedAt := updatedAt |}) ;;;
       createSubtasksFor t rest)%prog
  end.

(** The outer loop, [for (const task of complexTasks)]. *)
Fixpoint autoCreateSubtasksFromSuggestions (cts : list AnalyzedTask) : Prog unit :=
  match cts with
  | [] => Ret tt
  | t :: rest =>
      (createSubtasksFor t (suggestions t) ;;;
       autoCreateSubtasksFromSuggestions rest)%prog
  end.

(** ** The report renderer *)

(** Interpolation of a counter held in a number variable. *)
Definition intToString (z : Z) : string :=
  NilZero.string_of_int (Z.to_int z).

Definition greatNews : string :=
  "✅ **Great news!** All tasks are within the complexity threshold. Your tasks are well-scoped and manageable.".

Definition attentionHeading : string :=
  "⚠️ **Complex Tasks Requiring Attention:**" ++ Js.nl ++ Js.nl.

Definition autoCreatedNote : string :=
  "✅ **Auto-created subtasks** for all complex tasks. Check your subtasks to see the breakdown."
    ++ Js.nl ++ Js.nl.

Definition guidanceHeading : string :=
  Js.nl ++ "👉 **Your Actions: Address Complex Tasks & Proceed**" ++ Js.nl ++ Js.nl.

Definition guidanceBreakDown : string :=
  "1.  **Break Down Complex Tasks:** For each complex task listed above, review the "
    ++ Js.dquote ++ "Suggested Breakdown." ++ Js.dquote ++ " "
    ++ "You can create these as subtasks using the `create_subtask` tool or simplify the main task using `update_task`."
    ++ Js.nl
    ++ "    *   Example for `create_subtask`: `create_subtask({ taskId: "
    ++ Js.dquote ++ "task_id_from_above" ++ Js.dquote ++ ", name: "
    ++ Js.dquote ++ "suggested_subtask_name" ++ Js.dquote ++ ", details: "
    ++ Js.dquote ++ "..." ++ Js.dquote ++ " })`" ++ Js.nl
    ++ "    *   Example for `update_task`: `update_task({ id: "
    ++ Js.dquote ++ "task_id_from_above" ++ Js.dquote ++ ", details: "
    ++ Js.dquote ++ "simplified_details" ++ Js.dquote
    ++ ", complexity: new_lower_complexity })`" ++ Js.nl ++ Js.nl.

Definition guidanceReview : string :=
  "1.  **Review Auto-Created Subtasks:** Subtasks have been automatically created based on the suggestions. "
    ++ "Review them using `list_subtasks` and refine them if necessary using `update_subtask`."
    ++ Js.nl
    ++ "    *   Example: `list_subtasks({ taskId: "
    ++ Js.dquote ++ "task_id_from_above" ++ Js.dquote ++ " })`" ++ Js.nl ++ Js.nl.

Definition guidanceReanalyze : string :=
  "2.  **Re-analyze (Optional):** After addressing the complexities, you can re-run this analysis for a specific task to confirm its new complexity score."
    ++ Js.nl
    ++ "    *   Example: `analyze_task_complexity({ taskId: "
    ++ Js.dquote ++ "task_id_from_above" ++ Js.dquote ++ " })`" ++ Js.nl ++ Js.nl.

Definition guidanceNextTask : string :=
  "3.  **Determine Next Task:** Once tasks are appropriately scoped, use the `get_next_task_recommendation` tool to decide what to work on next."
    ++ Js.nl
    ++ "    *   Example: `get_next_task_recommendation({ projectId: "
    ++ Js.dquote ++ "project_id_if_known_or_relevant" ++ Js.dquote ++ " })`"
    ++ Js.nl ++ Js.nl.

Definition proTip : string :=
  "💡 **Pro Tip:** Well-scoped tasks lead to better progress tracking and less overwhelming work sessions!".

(** The text of the final [else] branch of the renderer. *)
Definition nextStepPointer : string :=
  Js.nl ++ Js.nl
    ++ "👉 **Your Next Step:** You can proceed to determine your next task using `get_next_task_recommendation`."
    ++ Js.nl
    ++ "    *   Example: `get_next_task_recommendation({ projectId: "
    ++ Js.dquote ++ "project_id_if_known_or_relevant" ++ Js.dquote ++ " })`".

Section Renderer.
Context {fmt : NumberFormat}.

Definition reportSummary (results : ComplexityAnalysisResult) (threshold : number)
    : string :=
  "🔍 **Task Complexity Analysis Report**" ++ Js.nl ++ Js.nl
    ++ "📊 **Summary:**" ++ Js.nl
    ++ "• Total tasks analyzed: " ++ intToString (totalTasksAnalyzed results) ++ Js.nl
    ++ "• Complex tasks (≥" ++ numberToString threshold ++ "): "
    ++ Js.natToString (List.length (complexTasks results)) ++ Js.nl
    ++ "• Simple tasks (<" ++ numberToString threshold ++ "): "
    ++ intToString (simpleTasksCount results) ++ Js.nl
    ++ "• Average complexity: " ++ toFixed1 (averageComplexity results) ++ "/10"
    ++ Js.nl ++ Js.nl.

Definition suggestionLine (s : CreateTaskInput) : string :=
  "   • " ++ ctName s ++ " (Est: " ++ numberToString (ctEstimatedHours s) ++ "h)".

(** The text one iteration of [complexTasks.forEach] appends. *)
Definition taskBlock (index : nat) (t : AnalyzedTask) : string :=
  Js.natToString (index + 1) ++ ". **" ++ name (task t) ++ "** (Complexity: "
    ++ numberToString (analysisScore t) ++ "/10)" ++ Js.nl
    ++ "   📝 " ++ substring 0 100 (details (task t))
    ++ (if Nat.ltb 100 (String.length (details (task t))) then "..." else EmptyString)
    ++ Js.nl
    ++ "   ⚠️ Issues: " ++ Js.join ", " (issues t) ++ Js.nl
    ++ Js.nl
    ++ "   💡 **Suggested Breakdown:**" ++ Js.nl
    ++ Js.join Js.nl (map suggestionLine (suggestions t)) ++ Js.nl
    ++ Js.nl.

Fixpoint forEachTask (index : nat) (ts : list AnalyzedTask) (report : string)
    : string :=
  match ts with
  | [] => report
  | t :: rest => forEachTask (S index) rest (report ++ taskBlock index t)
  end.

Definition generateComplexityAnalysisReport (results : ComplexityAnalysisResult)
    (threshold : number) (autoCreated : bool) : string :=
  let report := reportSummary results threshold in
  if Nat.eqb (List.length (complexTasks results)) 0 then
    (* the early return *)
    report ++ greatNews
  else
    let report := report ++ attentionHeading in
    let report := forEachTask 0 (complexTasks results) report in
    let report := if autoCreated then report ++ autoCreatedNote else report in
    if Nat.ltb 0 (List.length (complexTasks results)) then
      let new_guidance := guidanceHeading in
      let new_guidance :=
        if negb autoCreated
        then new_guidance ++ guidanceBreakDown
        else new_guidance ++ guidanceReview in
      let new_guidance := new_guidance ++ guidanceReanalyze in
      let new_guidance := new_guidance ++ guidanceNextTask in
      let new_guidance := new_guidance ++ proTip in
      report ++ new_guidance
    else
      report ++ nextStepPointer.

End Renderer.

(** ** The tool handler *)

Record Args := mkArgs {
  taskId : option string;
  argProjectId : option string;
  complexityThreshold : number;
  suggestBreakdown : bool;
  autoCreateSubtasks : bool
}.

Record TextContent := mkText { type_ : string; text : string }.

Record ToolResponse := mkResponse {
  content : list TextContent;
  isError : option bool
}.

(** Truthiness of an optional string: present and not empty. *)
Definition truthyString (x : option string) : option string :=
  match x with
  | Some EmptyString => None
  | Some s => Some s
  | None => None
  end.

(** [error instanceof Error ? error.message : 'Unknown error']. *)
Definition errorMessage (e : Thrown) : string :=
  match e with
  | ThrownError message => message
  | ThrownOther => "Unknown error"
  end.

Definition notFoundResponse (tid : string) : ToolResponse :=
  {| content :=
       [ {| type_ := "text";
            text := "Error: Task with ID " ++ Js.dquote ++ tid ++ Js.dquote
                      ++ " not found." |} ];
     isError := Some true |}.

Definition noTasksResponse : ToolResponse :=
  {| content := [ {| type_ := "text"; text := "No tasks found for analysis." |} ];
     isError := None |}.

Definition caughtResponse (e : Thrown) : ToolResponse :=
  {| content :=
       [ {| type_ := "text";
            text := "Error analyzing task complexity: " ++ errorMessage e |} ];
     isError := Some true |}.

(** The loop over all projects: [tasksToAnalyze.push(...projectTasks)]. *)
Fixpoint collectProjectTasks (projects : list Project) (tasksToAnalyze : list Task)
    : Prog (list Task) :=
  match projects with
  | [] => Ret tasksToAnalyze
  | project :: rest =>
      (projectTasks <- await (GetTasks (projId project)) ;;
       collectProjectTasks rest (tasksToAnalyze ++ projectTasks)%list)%prog
  end.

Section Handler.
Context {fmt : NumberFormat}.

(** The handler once [tasksToAnalyze] is known: the empty check, the
    analysis, the optional auto-creation and the report. *)
Definition analyzeAndReport (args : Args) (tasksToAnalyze : list Task)
    : Prog ToolResponse :=
  if Nat.eqb (List.length tasksToAnalyze) 0 then Ret noTasksResponse
  else
    let analysisResults :=
      analyzeTaskComplexity tasksToAnalyze (complexityThreshold args)
        (suggestBreakdown args) in
    ((if autoCreateSubtasks args
          && Nat.ltb 0 (List.length (complexTasks analysisResults))
      then autoCreateSubtasksFromSuggestions (complexTasks analysisResults)
      else Ret tt) ;;;
     let report :=
       generateComplexityAnalysisReport analysisResults
         (complexityThreshold args) (autoCreateSubtasks args) in
     Ret {| content := [ {| type_ := "text"; text := report |} ];
            isError := None |})%prog.

(** The body of the [try] block. *)
Definition handlerBody (args : Args) : Prog ToolResponse :=
  match truthyString (taskId args) with
  | Some tid =>
      (found <- await (GetTask tid) ;;
       match found with
       | None => Ret (notFoundResponse tid)
       | Some t => analyzeAndReport args [t]
       end)%prog
  | None =>
      match truthyString (argProjectId args) with
      | Some pid =>
          (tasksToAnalyze <- await (GetTasks pid) ;;
           analyzeAndReport args tasksToAnalyze)%prog
      | None =>
          (projects <- await GetProjects ;;
           tasksToAnalyze <- collectProjectTasks projects [] ;;
           analyzeAndReport args tasksToAnalyze)%prog
      end
  end.

Definition handler (args : Args) : Prog ToolResponse :=
  tryCatch (handlerBody args) (fun error => Ret (caughtResponse error)).

End Handler.

(** ** A concrete host and a concrete storage, for evaluation *)

(** A number format that is exact on integers: [toString] prints the
    integer part in decimal, [toFixed(1)] rounds the magnitude to tenths. *)
Definition integerToString (q : number) : string := intToString (Qfloor q).

Definition tenthsToString (q : number) : string :=
  let n := Qfloor (Qabs q * 10 + (1 # 2)) in
  (if Qle_bool 0 q then EmptyString else "-")
    ++ intToString (n / 10) ++ "." ++ intToString (n mod 10).

Definition integerFormat : NumberFormat :=
  {| numberToString := integerToString; toFixed1 := tenthsToString |}.

(** An in-memory storage: reads never reject, [createSubtask] appends, and
    the clock counts its readings. *)
Record Store := mkStore {
  storedTasks : list Task;
  storedProjects : list Project;
  storedSubtasks : list Subtask;
  ticks : nat
}.

Definition memoryAnswer (X : Type) (c : StorageCall X) (s : Store)
    : (Thrown + X) * Store :=
  match c in StorageCall X return (Thrown + X) * Store with
  | GetTask tid =>
      (inr (find (fun t => String.eqb (id t) tid) (storedTasks s)), s)
  | GetTasks pid =>
      (inr (filter (fun t => String.eqb (projectId t) pid) (storedTasks s)), s)
  | GetProjects => (inr (storedProjects s), s)
  | CreateSubtask sub =>
      (inr tt,
       {| storedTasks := storedTasks s;
          storedProjects := storedProjects s;
          storedSubtasks := (storedSubtasks s ++ [sub])%list;
          ticks := ticks s |})
  end.

Definition memoryClock (s : Store) : string * Store :=
  ("T" ++ Js.natToString (ticks s),
   {| storedTasks := storedTasks s;
      storedProjects := storedProjects s;
      storedSubtasks := storedSubtasks s;
      ticks := S (ticks s) |}).

Definition memoryWorld : World Store :=
  {| answer := memoryAnswer; clock := memoryClock |}.

(** A storage whose every operation rejects with the same thrown value. *)
Definition rejectingAnswer (e : Thrown) (X : Type) (c : StorageCall X) (s : Store)
    : (Thrown + X) * Store := (inl e, s).

Definition rejectingWorld (e : Thrown) : World Store :=
  {| answer := rejectingAnswer e; clock := memoryClock |}.

(** ** The scoring rule in the words of the specification *)

Definition increment (triggered : bool) (k : number) : number :=
  if triggered then k else 0.

(** "estimatedHours is present and > 20". *)
Definition overTwentyHours (t : Task) : bool :=
  match estimatedHours t with
  | Some h => gtb h 20
  | None => false
  end.

(** "dependsOn is present with count > 3". *)
Definition overThreeDependencies (t : Task) : bool :=
  match dependsOn t with
  | Some ds => Nat.ltb 3 (List.length ds)
  | None => false
  end.

(** The increment for the high-complexity vocabulary. *)
Definition keywordIncrement (t : Task) : number :=
  increment (Nat.ltb 2 (highComplexityMatches t)) 2.

(** "sum of triggered increments". *)
Definition triggeredIncrements (t : Task) : number :=
  increment (Nat.ltb 50 (String.length (name t))) 1
  + keywordIncrement t
  + increment (Nat.ltb 3 (actionMatches t)) 1
  + increment (Nat.ltb 500 (String.length (details t))) 1
  + increment (overTwentyHours t) 1
  + increment (overThreeDependencies t) 1.

(** "base is the task's stored complexity if present, else 5". *)
Definition statedBase (t : Task) : number :=
  match complexity t with
  | Some c => c
  | None => 5
  end.

Definition statedScore (t : Task) : number :=
  Qmin 10 (statedBase t + triggeredIncrements t).

(** The base with a stored zero read as absent. *)
Definition amendedBase (t : Task) : number :=
  match complexity t with
  | Some c => if Qeq_bool c 0 then 5 else c
  | None => 5
  end.

Definition amendedScore (t : Task) : number :=
  Qmin 10 (amendedBase t + triggeredIncrements t).

(** ** Sample tasks *)

Definition plainTask (c h : option number) (d : string) : Task :=
  {| id := "t1"; name := "Sample"; details := d; projectId := "p1";
     completed := false; status := Some "pending"; priority := Some 5;
     complexity := c; estimatedHours := h; dependsOn := None |}.

(** A stored complexity below the documented range. *)
Definition negativeTask : Task := plainTask (Some (-5)) None "tidy up".

(** A stored complexity of zero. *)
Definition zeroTask : Task := plainTask (Some 0) None "tidy up".

(** Exactly three words of the high-complexity vocabulary. *)
Definition threeKeywordTask : Task :=
  plainTask None None "Move the API to the new Database after the Migration".

Fixpoint repeatString (n : nat) (s : string) : string :=
  match n with
  | O => EmptyString
  | S n' => s ++ repeatString n' s
  end.

(** Every heuristic of the scorer triggers on this task. *)
Definition busyTask : Task :=
  {| id := "t2";
     name := "Rework the whole platform and everything around it at once";
     details :=
       "Design the architecture, implement the api, build the database migration, "
         ++ "test and deploy the system. " ++ repeatString 42 "more detail ";
     projectId := "p1"; completed := false; status := None; priority := None;
     complexity := None; estimatedHours := Some 40;
     dependsOn := Some ["a"; "b"; "c"; "d"] |}.

(** ** The classification in the words of the specification *)

Section StatedClassification.
Context {fmt : NumberFormat}.

(** The computed score of a task. *)
Definition scoreOf (t : Task) : number := score (calculateComplexityScore t).

(** The tasks that remain once completed ones are left out. *)
Definition remainingTasks (tasks : list Task) : list Task :=
  filter (fun t => negb (isDone t)) tasks.

(** The entry of [complexTasks] a complex task gives. *)
Definition analyzed (suggestBreakdown : bool) (t : Task) : AnalyzedTask :=
  {| task := t;
     analysisScore := scoreOf t;
     issues := scoreIssues (calculateComplexityScore t);
     suggestions :=
       if suggestBreakdown then generateTaskBreakdownSuggestions t else [] |}.

Definition sumScores (ts : list Task) : number :=
  fold_right (fun t acc => scoreOf t + acc) 0 ts.

(** The arithmetic mean of the scores, 0 for no task. *)
Definition meanScore (ts : list Task) : number :=
  match ts with
  | [] => 0
  | _ :: _ => sumScores ts / ofNat (List.length ts)
  end.

End StatedClassification.

(** A task that scores exactly the default threshold 7 (base 5, +2 for the
    three keywords), a simple one, and two finished ones. *)
Definition sevenTask : Task :=
  plainTask None None "Move the API to the new Database after the Migration".

Definition simpleTask : Task := plainTask None None "tidy up".

Definition completedTask : Task :=
  {| id := "t3"; name := "Old work"; details := "api database migration system";
     projectId := "p1"; completed := true; status := Some "pending";
     priority := None; complexity := Some 9; estimatedHours := None;
     dependsOn := None |}.

Definition doneTask : Task :=
  {| id := "t4"; name := "Closed work"; details := "api database migration system";
     projectId := "p1"; completed := false; status := Some "done";
     priority := None; complexity := Some 9; estimatedHours := None;
     dependsOn := None |}.

(** ** The trigger keywords of the five templates, as the specification
    lists them *)

Definition triggerKeywords : list string :=
  [ "research"; "investigate"; "analyze";
    "design"; "architecture"; "plan";
    "implement"; "develop"; "build"; "code";
    "test"; "testing"; "validation";
    "document"; "documentation"; "guide" ].

(** The templates that match a task, in template order. *)
Definition matchedPatterns (t : Task) : list BreakdownPattern :=
  filter (patternMatches (Js.toLowerCase (details t))) (breakdownPatterns t).

(** A task whose details name both testing and implementation. *)
Definition testImplementationTask : Task :=
  plainTask (Some 8) (Some 12) "test this implementation".

(** A result with no complex task: one simple task under threshold 7. *)
Definition allClearResult : ComplexityAnalysisResult :=
  analyzeTaskComplexity (fmt := integerFormat) [simpleTask] 7 true.

(** ** The requests auto-creation is expected to make *)

(** A subtask record without its two timestamps. *)
Definition withoutTimestamps (s : Subtask) : Subtask :=
  {| stId := stId s; stName := stName s; stDetails := stDetails s;
     stTaskId := stTaskId s; stProjectId := stProjectId s;
     stCompleted := stCompleted s;
     stCreatedAt := EmptyString; stUpdatedAt := EmptyString |}.

(** "the suggestion's name and details, the parent task's id as taskId, the
    parent task's projectId, and completed=false". *)
Definition requestedSubtask (parent : AnalyzedTask) (sg : CreateTaskInput) : Subtask :=
  {| stId := EmptyString; stName := ctName sg; stDetails := ctDetails sg;
     stTaskId := id (task parent); stProjectId := projectId (task parent);
     stCompleted := false;
     stCreatedAt := EmptyString; stUpdatedAt := EmptyString |}.

(** One request per suggestion per complex task, in order. *)
Definition expectedRequests (cts : list AnalyzedTask) : list Subtask :=
  flat_map (fun parent => map (requestedSubtask parent) (suggestions parent)) cts.

Definition suggestionCount (cts : list AnalyzedTask) : nat :=
  fold_right (fun parent n => (List.length (suggestions parent) + n)%nat) 0%nat cts.

(** The createSubtask requests of a run, timestamps left out. *)
Definition issuedSubtasks {St A} (o : Outcome St A) : list Subtask :=
  map withoutTimestamps (createdSubtasks (trace o)).

(** A storage that never rejects [createSubtask]. *)
Definition acceptsWrites {St} (w : World St) : Prop :=
  forall (sub : Subtask) (s : St), fst (answer w (CreateSubtask sub) s) = inr tt.

(** Two complex tasks of one project; neither matches a template, so each
    gets the three generic suggestions. *)
Definition hardTaskA : Task :=
  {| id := "h1"; name := "Alpha"; details := "sort out the backlog";
     projectId := "p1"; completed := false; status := None; priority := None;
     complexity := Some 9; estimatedHours := None; dependsOn := None |}.

Definition hardTaskB : Task :=
  {| id := "h2"; name := "Beta"; details := "sort out the archive";
     projectId := "p1"; completed := false; status := None; priority := None;
     complexity := Some 8; estimatedHours := Some 30; dependsOn := None |}.

Definition sampleStore : Store :=
  {| storedTasks := [hardTaskA; hardTaskB];
     storedProjects := [ {| projId := "p1" |} ];
     storedSubtasks := [];
     ticks := 0 |}.

Definition sampleComplexTasks : list AnalyzedTask :=
  complexTasks
    (analyzeTaskComplexity (fmt := integerFormat) [hardTaskA; hardTaskB] 7 true).

Definition autoCreateArgs : Args :=
  {| taskId := None; argProjectId := None; complexityThreshold := 7;
     suggestBreakdown := true; autoCreateSubtasks := true |}.

(** ** Record updates and sample calls *)

Definition withComplexity (t : Task) (c : option number) : Task :=
  {| id := id t; name := name t; details := details t; projectId := projectId t;
     completed := completed t; status := status t; priority := priority t;
     complexity := c; estimatedHours := estimatedHours t;
     dependsOn := dependsOn t |}.

Definition withEstimatedHours (t : Task) (h : option number) : Task :=
  {| id := id t; name := name t; details := details t; projectId := projectId t;
     completed := completed t; status := status t; priority := priority t;
     complexity := complexity t; estimatedHours := h;
     dependsOn := dependsOn t |}.

(** A call for a task that storage does not hold. *)
Definition missingTaskArgs : Args :=
  {| taskId := Some "missing"; argProjectId := None; complexityThreshold := 7;
     suggestBreakdown := true; autoCreateSubtasks := true |}.

(** Stored zeros: a template-matching task and one that matches none. *)
Definition zeroedTemplateTask : Task :=
  plainTask (Some 0) (Some 0) "test this implementation".

Definition zeroedGenericTask : Task := plainTask (Some 0) (Some 0) "tidy up".

(** A storage that serves reads from memory and rejects every write. *)
Definition readOnlyAnswer (e : Thrown) (X : Type) (c : StorageCall X) (s : Store)
    : (Thrown + X) * Store :=
  match c in StorageCall X return (Thrown + X) * Store with
  | CreateSubtask _ => (inl e, s)
  | GetTask tid => memoryAnswer _ (GetTask tid) s
  | GetTasks pid => memoryAnswer _ (GetTasks pid) s
  | GetProjects => memoryAnswer _ GetProjects s
  end.

Definition readOnlyWorld (e : Thrown) : World Store :=
  {| answer := readOnlyAnswer e; clock := memoryClock |}.

(** Membership in a list literal. *)
Ltac in_list := repeat first [left; reflexivity | right].

(** ** Further record updates and sample calls *)

Definition withDetails (t : Task) (d : string) : Task :=
  {| id := id t; name := name t; details := d; projectId := projectId t;
     completed := completed t; status := status t; priority := priority t;
     complexity := complexity t; estimatedHours := estimatedHours t;
     dependsOn := dependsOn t |}.

Definition withTaskId (args : Args) (tid : option string) : Args :=
  {| taskId := tid; argProjectId := argProjectId args;
     complexityThreshold := complexityThreshold args;
     suggestBreakdown := suggestBreakdown args;
     autoCreateSubtasks := autoCreateSubtasks args |}.

Definition withProjectId (args : Args) (pid : option string) : Args :=
  {| taskId := taskId args; argProjectId := pid;
     complexityThreshold := complexityThreshold args;
     suggestBreakdown := suggestBreakdown args;
     autoCreateSubtasks := autoCreateSubtasks args |}.

(** The response of a run that reached the report. *)
Definition reportResponse {fmt : NumberFormat} (args : Args) (tasks : list Task)
    : ToolResponse :=
  {| content :=
       [ {| type_ := "text";
            text :=
              generateComplexityAnalysisReport
                (analyzeTaskComplexity tasks (complexityThreshold args)
                   (suggestBreakdown args))
                (complexityThreshold args) (autoCreateSubtasks args) |} ];
     isError := None |}.

(** The [getTasks] requests of a scan over [projects], in order. *)
Definition scanRequests (projects : list Project) : list Request :=
  map (fun project => request (GetTasks (projId project))) projects.

(** Analysis only: suggestions asked for, nothing created. *)
Definition readOnlyArgs : Args :=
  {| taskId := None; argProjectId := Some "p1"; complexityThreshold := 7;
     suggestBreakdown := true; autoCreateSubtasks := false |}.

(** Auto-creation asked for without breakdown suggestions. *)
Definition noBreakdownArgs : Args :=
  {| taskId := None; argProjectId := Some "p1"; complexityThreshold := 7;
     suggestBreakdown := false; autoCreateSubtasks := true |}.

(** A project that holds no task. *)
Definition emptyProjectArgs : Args :=
  {| taskId := None; argProjectId := Some "nowhere"; complexityThreshold := 7;
     suggestBreakdown := true; autoCreateSubtasks := true |}.

(** A call for the finished task [completedTask] held by [archiveStore]. *)
Definition archiveStore : Store :=
  {| storedTasks := [completedTask; doneTask];
     storedProjects := [ {| projId := "p1" |} ];
     storedSubtasks := [];
     ticks := 0 |}.

Definition finishedTaskArgs : Args :=
  {| taskId := Some "t3"; argProjectId := None; complexityThreshold := 7;
     suggestBreakdown := true; autoCreateSubtasks := true |}.

(** A storage that serves reads from a fixed catalogue and keeps no state. *)
Definition catalogueAnswer (catalogue : list Task) (projects : list Project)
    (X : Type) (c : StorageCall X) (s : unit) : (Thrown + X) * unit :=
  match c in StorageCall X return (Thrown + X) * unit with
  | GetTask tid => (inr (find (fun t => String.eqb (id t) tid) catalogue), s)
  | GetTasks pid => (inr (filter (fun t => String.eqb (projectId t) pid) catalogue), s)
  | GetProjects => (inr projects, s)
  | CreateSubtask _ => (inr tt, s)
  end.

Definition catalogueWorld (catalogue : list Task) (projects : list Project)
    : World unit :=
  {| answer := catalogueAnswer catalogue projects;
     clock := fun s => ("T", s) |}.

Definition twoProjects : list Project :=
  [ {| projId := "p1" |}; {| projId := "p2" |} ].

(** ** The layout of a report *)

Section ReportLayout.
Context {fmt : NumberFormat}.

(** The blocks of the listed tasks, numbered from [index + 1]. *)
Fixpoint blocksFrom (index : nat) (ts : list AnalyzedTask) : string :=
  match ts with
  | [] => EmptyString
  | t :: rest => taskBlock index t ++ blocksFrom (S index) rest
  end.

(** The heading under which the task at position [k] is listed. *)
Definition listingHeading (k : nat) (t : AnalyzedTask) : string :=
  Js.natToString (k + 1) ++ ". **" ++ name (task t) ++ "** (Complexity: "
    ++ numberToString (analysisScore t) ++ "/10)".

End ReportLayout.

(** ** Storage configuration (utils/storage-config.ts) *)

Module StorageConfig.

Record StorageConfig := mkConfig { useGlobalDirectory : bool }.

(** [os.homedir()] and [path.join] belong to the host. *)
Class Paths := {
  homedir : string;
  join : string -> string -> string
}.

(** [xs.includes(x)] on an array of strings. *)
Definition arrayIncludes (xs : list string) (x : string) : bool :=
  existsb (fun y => String.eqb y x) xs.

(** [parseCommandLineArgs], with [process.argv] as its input. *)
Definition parseCommandLineArgs (argv : list string) : StorageConfig :=
  let args := skipn 2 argv in
  let useGlobalDirectory := arrayIncludes args "--claude" in
  {| useGlobalDirectory := useGlobalDirectory |}.

Definition getGlobalStorageDirectory {paths : Paths} : string :=
  let userHome := homedir in
  join userHome ".agentic-tools-mcp".

Definition missingDirectoryMessage : string :=
  "workingDirectory is required when not using --claude flag".

(** [resolveWorkingDirectory]: the directory, or the thrown error. *)
Definition resolveWorkingDirectory {paths : Paths} (providedPath : option string)
    (config : StorageConfig) : Thrown + string :=
  if useGlobalDirectory config then inr getGlobalStorageDirectory
  else
    match truthyString providedPath with
    | None => inl (ThrownError missingDirectoryMessage)
    | Some path => inr path
    end.

Definition ignoredDescription : string :=
  "This parameter is ignored when using --claude flag. Global directory is used automatically.".

Definition absolutePathDescription : string :=
  "The full absolute path to the working directory where data is stored. MUST be an absolute path, never relative. Windows: "
    ++ Js.dquote ++ "C:\Users\username\project" ++ Js.dquote ++ " or "
    ++ Js.dquote ++ "D:\projects\my-app" ++ Js.dquote
    ++ ". Unix/Linux/macOS: "
    ++ Js.dquote ++ "/home/username/project" ++ Js.dquote ++ " or "
    ++ Js.dquote ++ "/Users/username/project" ++ Js.dquote
    ++ ". Do NOT use: "
    ++ Js.dquote ++ "." ++ Js.dquote ++ ", "
    ++ Js.dquote ++ ".." ++ Js.dquote ++ ", "
    ++ Js.dquote ++ "~" ++ Js.dquote ++ ", "
    ++ Js.dquote ++ "./folder" ++ Js.dquote ++ ", "
    ++ Js.dquote ++ "../folder" ++ Js.dquote
    ++ " or any relative paths. Ensure the path exists and is accessible before calling this tool.".

Definition getWorkingDirectoryDescription (config : StorageConfig) : string :=
  if useGlobalDirectory config then ignoredDescription
  else absolutePathDescription.

Definition isWorkingDirectoryOptional (config : StorageConfig) : bool :=
  useGlobalDirectory config.

(** A host for evaluation: a POSIX home and a join that puts one slash. *)
Definition posixPaths : Paths :=
  {| homedir := "/home/user"; join := fun a b => a ++ "/" ++ b |}.

Definition claudeArgv : list string :=
  ["node"; "index.js"; "--verbose"; "--claude"].

Definition plainArgv : list string := ["node"; "index.js"; "--verbose"].

End StorageConfig.

(** ** The list_memories tool (agent-memories/tools/memories/list.ts) *)

Module ListMemories.

Record Memory := mkMemory {
  memId : string;
  title : string;
  content : string;
  category : option string;
  createdAt : string
}.

(** What [storage.getStatistics()] resolves to; [memoriesByCategory] is an
    object, held as the list of its entries. *)
Record Statistics := mkStatistics {
  totalMemories : number;
  memoriesByCategory : list (string * number);
  oldestMemory : option string;
  newestMemory : option string
}.

(** [new Date(s).getTime()] and [new Date(s).toLocaleString()] belong to
    the host.  The time of a string that does not parse as a date is NaN:
    [getTime] gives [None] for it. *)
Class Dates := {
  getTime : string -> option number;
  toLocaleString : string -> string
}.

(** White space on the one-byte range: TAB, LF, VT, FF, CR, SP and NBSP. *)
Definition isWhiteSpace (c : ascii) : bool :=
  let n := nat_of_ascii c in
  Nat.eqb n 32 || (Nat.leb 9 n && Nat.leb n 13) || Nat.eqb n 160.

Fixpoint trimStart (s : string) : string :=
  match s with
  | EmptyString => EmptyString
  | String c s' => if isWhiteSpace c then trimStart s' else s
  end.

Fixpoint trimEnd (s : string) : string :=
  match s with
  | EmptyString => EmptyString
  | String c s' =>
      match trimEnd s' with
      | EmptyString => if isWhiteSpace c then EmptyString else String c EmptyString
      | rest => String c rest
      end
  end.

(** [String.prototype.trim]. *)
Definition trim (s : string) : string := trimEnd (trimStart s).

(** The two operations of the memory storage the tool uses. *)
Inductive MemoryCall : Type -> Type :=
| GetMemories (agentId : option string) (category : option string) (limit : number)
    : MemoryCall (list Memory)
| GetStatistics : MemoryCall Statistics.

Inductive Prog (A : Type) : Type :=
| Ret (a : A)
| Throw (e : Thrown)
| Await {X : Type} (c : MemoryCall X) (k : Thrown + X -> Prog A).

Arguments Ret {A} a.
Arguments Throw {A} e.
Arguments Await {A X} c k.

Fixpoint bind {A B} (p : Prog A) (f : A -> Prog B) : Prog B :=
  match p with
  | Ret a => f a
  | Throw e => Throw e
  | Await c k => Await c (fun r => bind (k r) f)
  end.

Fixpoint tryCatch {A} (p : Prog A) (h : Thrown -> Prog A) : Prog A :=
  match p with
  | Ret a => Ret a
  | Throw e => h e
  | Await c k => Await c (fun r => tryCatch (k r) h)
  end.

Definition await {X} (c : MemoryCall X) : Prog X :=
  Await c (fun r => match r with inl e => Throw e | inr x => Ret x end).

Inductive Request : Type :=
| request {X : Type} (c : MemoryCall X).

Record World (St : Type) := mkWorld {
  answer : forall X, MemoryCall X -> St -> (Thrown + X) * St
}.

Arguments answer {St} w {X} c s.

Record Outcome (St A : Type) := mkOutcome {
  result : Thrown + A;
  final : St;
  trace : list Request
}.

Arguments mkOutcome {St A} result final trace.
Arguments result {St A} o.
Arguments final {St A} o.
Arguments trace {St A} o.

Fixpoint run {St A} (w : World St) (p : Prog A) (s : St) : Outcome St A :=
  match p with
  | Ret a => mkOutcome (inr a) s []
  | Throw e => mkOutcome (inl e) s []
  | Await c k =>
      let '(r, s') := answer w c s in
      let o := run w (k r) s' in
      mkOutcome (result o) (final o) (request c :: trace o)
  end.

Record Input := mkInput {
  inCategory : option string;
  inLimit : option number
}.

(** The tool's response: [content], [isError], [recommendedNextStep]. *)
Record Response := mkResponse {
  responseContent : list TextContent;
  responseIsError : option bool;
  recommendedNextStep : option string
}.

Definition limitError : Response :=
  {| responseContent :=
       [ {| type_ := "text"; text := "Error: Limit must be between 1 and 1000." |} ];
     responseIsError := Some true;
     recommendedNextStep := None |}.

Definition categoryError : Response :=
  {| responseContent :=
       [ {| type_ := "text";
            text := "Error: Category must be 100 characters or less." |} ];
     responseIsError := Some true;
     recommendedNextStep := None |}.

Definition caughtResponse (e : Thrown) : Response :=
  {| responseContent :=
       [ {| type_ := "text"; text := "Error listing memories: " ++ errorMessage e |} ];
     responseIsError := Some true;
     recommendedNextStep := None |}.

(** [[category && `Category: ${category}`].filter(Boolean).join(', ') || 'None']. *)
Definition filtersText (category : option string) : string :=
  match truthyString category with
  | Some c =>
      match Js.join ", " ["Category: " ++ c] with
      | EmptyString => "None"
      | joined => joined
      end
  | None => "None"
  end.

Definition emptyResponse (category : option string) : Response :=
  {| responseContent :=
       [ {| type_ := "text";
            text :=
              "📝 No memories found." ++ Js.nl ++ Js.nl
                ++ "**Filters:** " ++ filtersText category ++ Js.nl ++ Js.nl
                ++ "Create some memories using the create_memory tool to get started!" |} ];
     responseIsError := None;
     recommendedNextStep := Some "create_memory" |}.

Section Listing.
Context {fmt : NumberFormat} {dates : Dates}.

(** The comparator of the sort:
    [new Date(b.createdAt).getTime() - new Date(a.createdAt).getTime()];
    the difference is NaN ([None]) as soon as one of the two times is. *)
Definition compareNewestFirst (a b : Memory) : option number :=
  match getTime (createdAt b), getTime (createdAt a) with
  | Some tb, Some ta => Some (tb - ta)
  | _, _ => None
  end.

(** What the sort reads off the comparator: a NaN counts as +0. *)
Definition sortCompare (a b : Memory) : number :=
  match compareNewestFirst a b with
  | Some v => v
  | None => 0
  end.

(** [memories.sort(compareNewestFirst)].  The sort of the language is
    stable, and the comparator is a consistent one when every date parses;
    the result is then the one of a stable insertion sort, in which an
    element goes behind those the comparator puts strictly first
    ([stable_sorted_unique] below).  When a date does not parse the
    comparator is not consistent and the language leaves the order to the
    implementation: this definition then only fixes one of the possible
    orders, and no order is stated of it. *)
Fixpoint insertSorted (m : Memory) (sorted : list Memory) : list Memory :=
  match sorted with
  | [] => [m]
  | x :: rest =>
      if gtb (sortCompare m x) 0 then x :: insertSorted m rest
      else m :: x :: rest
  end.

Definition sortMemories (memories : list Memory) : list Memory :=
  fold_right insertSorted [] memories.

(** Both dates parse and [a] is at least as new as [b]: [a] may stand
    before [b] in a listing that is newest first. *)
Definition newerOrSame (a b : Memory) : Prop :=
  match getTime (createdAt a), getTime (createdAt b) with
  | Some ta, Some tb => tb <= ta
  | _, _ => False
  end.

(** The creation date parses and its time is [t]. *)
Definition createdAtTime (t : number) (m : Memory) : bool :=
  match getTime (createdAt m) with
  | Some tm => Qeq_bool tm t
  | None => false
  end.

(** The time of a memory, when its date parses (0 stands for NaN). *)
Definition timeOf (m : Memory) : number :=
  match getTime (createdAt m) with
  | Some t => t
  | None => 0
  end.

(** The creation date of a memory parses. *)
Definition parses (m : Memory) : Prop := getTime (createdAt m) <> None.

(** The order and the tie test on [timeOf]. *)
Definition olderOrSameTime (a b : Memory) : Prop := timeOf b <= timeOf a.

Definition sameTime (t : number) (m : Memory) : bool := Qeq_bool (timeOf m) t.

(** The text [sortedMemories.map((memory, index) => ...)] gives an entry. *)
Definition memoryEntry (index : nat) (memory : Memory) : string :=
  "**" ++ Js.natToString (index + 1) ++ ". " ++ title memory ++ "**" ++ Js.nl
    ++ "Content: " ++ substring 0 150 (content memory)
    ++ (if Nat.ltb 150 (String.length (content memory)) then "..." else EmptyString)
    ++ Js.nl
    ++ "Category: "
    ++ match truthyString (category memory) with
       | Some c => c
       | None => "Not specified"
       end
    ++ Js.nl
    ++ "Created: " ++ toLocaleString (createdAt memory).

Fixpoint mapWithIndex (index : nat) (memories : list Memory) : list string :=
  match memories with
  | [] => []
  | memory :: rest => memoryEntry index memory :: mapWithIndex (S index) rest
  end.

Definition dateOrNone (d : option string) : string :=
  match truthyString d with
  | Some s => toLocaleString s
  | None => "None"
  end.

Definition listingResponse (category : option string) (limit : number)
    (memories : list Memory) (stats : Statistics) : Response :=
  let sortedMemories := sortMemories memories in
  let memoryList := Js.join (Js.nl ++ Js.nl) (mapWithIndex 0 sortedMemories) in
  {| responseContent :=
       [ {| type_ := "text";
            text :=
              "📝 Found " ++ Js.natToString (List.length memories) ++ " memory(ies):"
                ++ Js.nl ++ Js.nl
                ++ "**Filters:** " ++ filtersText category ++ Js.nl
                ++ "**Limit:** " ++ numberToString limit ++ Js.nl ++ Js.nl
                ++ memoryList ++ Js.nl ++ Js.nl
                ++ "---" ++ Js.nl ++ Js.nl
                ++ "**📊 Overall Statistics:**" ++ Js.nl
                ++ "• Total memories: " ++ numberToString (totalMemories stats) ++ Js.nl
                ++ "• Categories: "
                ++ Js.natToString (List.length (memoriesByCategory stats)) ++ Js.nl
                ++ "• Oldest memory: " ++ dateOrNone (oldestMemory stats) ++ Js.nl
                ++ "• Newest memory: " ++ dateOrNone (newestMemory stats) ++ Js.nl
                ++ Js.nl
                ++ "Use get_memory with a specific ID to see full details, or search_memories for text-based search." |} ];
     responseIsError := None;
     recommendedNextStep := Some "get_memory" |}.

(** [category && category.trim().length > 100]. *)
Definition categoryTooLong (category : option string) : bool :=
  match truthyString category with
  | Some c => Nat.ltb 100 (String.length (trim c))
  | None => false
  end.

(** The body of the [try] block; [limit = 50] is the parameter default. *)
Definition handlerBody (input : Input) : Prog Response :=
  let category := inCategory input in
  let limit := match inLimit input with Some l => l | None => 50 end in
  if negb (Qle_bool 1 limit) || gtb limit 1000 then Ret limitError
  else if categoryTooLong category then Ret categoryError
  else
    bind (await (GetMemories None (option_map trim category) limit))
      (fun memories =>
         if Nat.eqb (List.length memories) 0 then Ret (emptyResponse category)
         else
           bind (await GetStatistics)
             (fun stats => Ret (listingResponse category limit memories stats))).

Definition handler (input : Input) : Prog Response :=
  tryCatch (handlerBody input) (fun error => Ret (caughtResponse error)).

End Listing.

(** Dates written as a count of days: the time is that count, and a string
    that is no count does not parse. *)
Definition dayCount (s : string) : option number :=
  match NilEmpty.int_of_string s with
  | Some d => Some (inject_Z (Z.of_int d))
  | None => None
  end.

Definition dayDates : Dates :=
  {| getTime := dayCount; toLocaleString := fun s => "day " ++ s |}.

(** An in-memory storage of memories: it filters by category, applies the
    limit and counts. *)
Definition memoryStoreAnswer (X : Type) (c : MemoryCall X) (s : list Memory)
    : (Thrown + X) * list Memory :=
  match c in MemoryCall X return (Thrown + X) * list Memory with
  | GetMemories _ cat limit =>
      (inr (firstn (Z.to_nat (Qfloor limit))
              (filter
                 (fun m =>
                    match cat with
                    | Some wanted =>
                        match category m with
                        | Some have => String.eqb have wanted
                        | None => false
                        end
                    | None => true
                    end) s)), s)
  | GetStatistics =>
      (inr {| totalMemories := inject_Z (Z.of_nat (List.length s));
              memoriesByCategory := [];
              oldestMemory := None;
              newestMemory := None |}, s)
  end.

Definition memoryStore : World (list Memory) := {| answer := memoryStoreAnswer |}.

Definition rejectingStore (e : Thrown) : World (list Memory) :=
  {| answer := fun X (c : MemoryCall X) s => (inl e, s) |}.

Definition note (i t c : string) (cat : option string) (day : string) : Memory :=
  {| memId := i; title := t; content := c; category := cat; createdAt := day |}.

Definition sampleMemories : list Memory :=
  [ note "m1" "First" "alpha" (Some "work") "3";
    note "m2" "Second" "beta" None "7";
    note "m3" "Third" "gamma" (Some "work") "3";
    note "m4" "Fourth" "delta" (Some "home") "5" ].

End ListMemories.

(** A stateless storage whose [getTasks] rejects one project and serves
    the others from a catalogue, and whose [createSubtask] always rejects. *)
Definition patchyAnswer (catalogue : list Task) (bad : string) (e : Thrown)
    (X : Type) (c : StorageCall X) (s : unit) : (Thrown + X) * unit :=
  match c in StorageCall X return (Thrown + X) * unit with
  | GetTask tid => (inr (find (fun t => String.eqb (id t) tid) catalogue), s)
  | GetTasks pid =>
      if String.eqb pid bad then (inl e, s)
      else (inr (filter (fun t => String.eqb (projectId t) pid) catalogue), s)
  | GetProjects => (inr [], s)
  | CreateSubtask _ => (inl e, s)
  end.

Definition patchyWorld (catalogue : list Task) (bad : string) (e : Thrown)
    : World unit :=
  {| answer := patchyAnswer catalogue bad e; clock := fun s => ("T", s) |}.

Definition threeProjects : list Project :=
  [ {| projId := "p1" |}; {| projId := "p2" |}; {| projId := "p3" |} ].

(** A storage that rejects every [createSubtask]. *)
Definition rejectsWrites {St} (w : World St) (e : Thrown) : Prop :=
  forall (sub : Subtask) (s : St), fst (answer w (CreateSubtask sub) s) = inl e.

(** The last character of a string. *)
Fixpoint lastChar (s : string) : option ascii :=
  match s with
  | EmptyString => None
  | String c EmptyString => Some c
  | String _ rest => lastChar rest
  end.

(** * Properties *)

(** ** Strings *)

Lemma append_assoc (a b c : string) : (a ++ b) ++ c = a ++ (b ++ c).
Proof.
  induction a as [| x a IH]; [reflexivity |].
  cbn [append]. rewrite IH. reflexivity.
Qed.

Lemma prefix_iff (kw s : string) :
  String.prefix kw s = true <-> exists b, s = kw ++ b.
Proof.
  revert s. induction kw as [| k kw IH]; intros s; destruct s as [| c s];
    cbn [String.prefix append].
  - split; [intros _; exists EmptyString; reflexivity | reflexivity].
  - split; [intros _; exists (String c s); reflexivity | reflexivity].
  - split; [discriminate | intros [b Hb]; discriminate Hb].
  - destruct (ascii_dec k c) as [-> | Hne].
    + rewrite IH. split; intros [b Hb]; exists b; congruence.
    + split; [discriminate |]. intros [b Hb]. congruence.
Qed.

(** [includes] finds exactly the strings that occur somewhere inside. *)
Lemma includes_iff (s kw : string) :
  Js.includes s kw = true <-> exists a b, s = a ++ kw ++ b.
Proof.
  induction s as [| c s IH].
  - cbn [Js.includes]. rewrite orb_false_r, prefix_iff. split.
    + intros [b Hb]. exists EmptyString, b. exact Hb.
    + intros (a & b & Hab). destruct a as [| x a]; [| discriminate Hab].
      exists b. exact Hab.
  - cbn [Js.includes]. rewrite orb_true_iff, prefix_iff, IH. split.
    + intros [[b Hb] | (a & b & Hab)].
      * exists EmptyString, b. exact Hb.
      * exists (String c a), b. cbn [append]. congruence.
    + intros (a & b & Hab). destruct a as [| x a].
      * left. exists b. exact Hab.
      * right. cbn [append] in Hab. exists a, b. congruence.
Qed.

Lemma toLowerCase_app (a b : string) :
  Js.toLowerCase (a ++ b) = Js.toLowerCase a ++ Js.toLowerCase b.
Proof.
  induction a as [| x a IH]; [reflexivity |].
  cbn [append Js.toLowerCase]. rewrite IH. reflexivity.
Qed.

(** ** The scorer *)

Lemma bump_fst (c : bool) (k : number) (msg : string) (acc : number * list string) :
  fst (bump c k msg acc) == fst acc + increment c k.
Proof.
  unfold bump, increment. destruct c; simpl; ring.
Qed.

Lemma truthy_gt_20 (h : number) : truthyNumber h && gtb h 20 = gtb h 20.
Proof.
  unfold truthyNumber, gtb.
  destruct (Qeq_bool h 0) eqn:E; simpl; [| reflexivity].
  apply Qeq_bool_eq in E.
  destruct (Qle_bool h 20) eqn:L; [reflexivity |].
  exfalso. assert (Qle_bool h 20 = true) as L'.
  { apply Qle_bool_iff. rewrite E. discriminate. }
  congruence.
Qed.

Lemma orDefault_amendedBase (t : Task) : orDefault (complexity t) 5 = amendedBase t.
Proof.
  unfold orDefault, amendedBase, truthyNumber.
  destruct (complexity t) as [c |]; [| reflexivity].
  destruct (Qeq_bool c 0); reflexivity.
Qed.

Section ScorerFacts.
Context {fmt : NumberFormat}.

(** The running score of the scorer is the base plus the increments. *)
Lemma score_is_capped_sum (t : Task) :
  score (calculateComplexityScore t) == amendedScore t.
Proof.
  unfold calculateComplexityScore, amendedScore, triggeredIncrements,
    keywordIncrement, overTwentyHours, overThreeDependencies, Math_min.
  cbn [score].
  apply Q.min_compat; [reflexivity |].
  rewrite <- orDefault_amendedBase.
  destruct (estimatedHours t) as [h |]; destruct (dependsOn t) as [ds |];
    repeat rewrite bump_fst; cbn [fst increment];
    try rewrite truthy_gt_20; ring.
Qed.

Lemma score_le_10 (t : Task) : score (calculateComplexityScore t) <= 10.
Proof. apply Q.le_min_l. Qed.

End ScorerFacts.

Lemma increment_nonneg (c : bool) (k : number) : 0 <= k -> 0 <= increment c k.
Proof. intros Hk. destruct c; simpl; [exact Hk | apply Qle_refl]. Qed.

Lemma sum_nonneg (a b : number) : 0 <= a -> 0 <= b -> 0 <= a + b.
Proof. intros Ha Hb. exact (Qplus_le_compat 0 a 0 b Ha Hb). Qed.

Lemma triggeredIncrements_nonneg (t : Task) : 0 <= triggeredIncrements t.
Proof.
  unfold triggeredIncrements, keywordIncrement.
  repeat apply sum_nonneg; apply increment_nonneg; discriminate.
Qed.

Lemma bump_snd (c : bool) (k : number) (msg : string) (acc : number * list string) :
  snd (bump c k msg acc) = (snd acc ++ (if c then [msg] else []))%list.
Proof.
  unfold bump. destruct c; simpl; [reflexivity |].
  symmetry. apply app_nil_r.
Qed.

Lemma bump_keeps (c : bool) (k : number) (msg x : string) (acc : number * list string) :
  In x (snd acc) -> In x (snd (bump c k msg acc)).
Proof.
  intros Hin. rewrite bump_snd. apply in_or_app. left. exact Hin.
Qed.

Lemma amendedBase_range (t : Task) :
  (forall c, complexity t = Some c -> c == 0 \/ 1 <= c) -> 1 <= amendedBase t.
Proof.
  intros Hc. unfold amendedBase.
  destruct (complexity t) as [c |]; [| discriminate].
  destruct (Qeq_bool c 0) eqn:E; [discriminate |].
  destruct (Hc c eq_refl) as [Hz | Hge]; [| exact Hge].
  apply Qeq_eq_bool in Hz. congruence.
Qed.

(** C1 (as stated, refuted): a task whose stored complexity is -5 is scored
    -5, which is below 1, so the score is not within [1,10] for arbitrary
    stored complexity. *)
Lemma score_out_of_range_for_negative_complexity :
  ~ (1 <= score (calculateComplexityScore (fmt := integerFormat) negativeTask)
     /\ score (calculateComplexityScore (fmt := integerFormat) negativeTask) <= 10).
Proof.
  intros [Hlow _]. vm_compute in Hlow. apply Hlow. reflexivity.
Qed.

(** C1 (amended): for every task, whatever its stored complexity, the score
    returned by calculateComplexityScore is at most 10; for every task whose
    stored complexity is absent, zero or at least 1 the score lies within
    [1,10], whatever increments trigger; there is no lower clamp: for a
    stored complexity c other than zero with c plus the triggered increments
    below 1, the score is that sum, below 1. *)
Theorem score_within_range {fmt : NumberFormat} (t : Task) :
  score (calculateComplexityScore t) <= 10
  /\ ((forall c, complexity t = Some c -> c == 0 \/ 1 <= c) ->
      1 <= score (calculateComplexityScore t)
      /\ score (calculateComplexityScore t) <= 10)
  /\ (forall c, complexity t = Some c -> ~ c == 0 ->
        c + triggeredIncrements t < 1 ->
        score (calculateComplexityScore t) == c + triggeredIncrements t
        /\ score (calculateComplexityScore t) < 1).
Proof.
  split; [apply score_le_10 |]. split.
  - intros Hc. split; [| apply score_le_10].
    rewrite score_is_capped_sum. unfold amendedScore.
    apply Q.min_glb; [discriminate |].
    apply Qle_trans with (amendedBase t + 0).
    + rewrite Qplus_0_r. apply amendedBase_range, Hc.
    + apply Qplus_le_compat; [apply Qle_refl | apply triggeredIncrements_nonneg].
  - intros c Hc Hnz Hlow.
    assert (amendedBase t = c) as Hbase.
    { unfold amendedBase. rewrite Hc.
      destruct (Qeq_bool c 0) eqn:E; [| reflexivity].
      exfalso. apply Hnz. apply Qeq_bool_eq. exact E. }
    assert (score (calculateComplexityScore t) == c + triggeredIncrements t) as Hsum.
    { rewrite score_is_capped_sum. unfold amendedScore. rewrite Hbase.
      apply Q.min_r. lra. }
    split; [exact Hsum |]. rewrite Hsum. exact Hlow.
Qed.

(** Every heuristic triggers on [busyTask]: seven points over the base 5. *)
Example busyTask_triggers_everything :
  triggeredIncrements busyTask == 7
  /\ score (calculateComplexityScore (fmt := integerFormat) busyTask) == 10.
Proof. split; vm_compute; reflexivity. Qed.

Lemma score_within_range_witness :
  (1 <= score (calculateComplexityScore (fmt := integerFormat) busyTask)
   /\ score (calculateComplexityScore (fmt := integerFormat) busyTask) <= 10)
  /\ (score (calculateComplexityScore (fmt := integerFormat) negativeTask)
      == -5 + triggeredIncrements negativeTask
      /\ score (calculateComplexityScore (fmt := integerFormat) negativeTask) < 1).
Proof.
  split.
  - apply (proj1 (proj2 (score_within_range (fmt := integerFormat) busyTask))).
    intros c Hc. simpl in Hc. discriminate Hc.
  - apply (proj2 (proj2 (score_within_range (fmt := integerFormat) negativeTask))
             (-5)).
    + reflexivity.
    + discriminate.
    + reflexivity.
Defined.

(** C2 (as stated, refuted): with a stored complexity of 0 the stated rule
    gives min(10, 0 + 0) = 0, while the code returns 5. *)
Lemma stated_score_differs_at_zero_complexity :
  ~ score (calculateComplexityScore (fmt := integerFormat) zeroTask)
    == statedScore zeroTask.
Proof. vm_compute. discriminate. Qed.

(** C2 (amended): for every task, calculateComplexityScore returns
    min(10, base + sum of triggered increments), where base is the stored
    complexity if present and not zero, else 5, with the six independent
    increments of the rule; whenever the stored complexity is absent or not
    zero this is the rule as stated; and a task whose details contain
    exactly 3 high-complexity keywords gets +2 and the issue
    "Contains 3 high-complexity keywords". *)
Theorem score_is_amended_rule {fmt : NumberFormat} (t : Task) :
  score (calculateComplexityScore t) == amendedScore t
  /\ ((forall c, complexity t = Some c -> ~ c == 0) ->
      score (calculateComplexityScore t) == statedScore t)
  /\ (highComplexityMatches t = 3%nat ->
      keywordIncrement t == 2
      /\ In "Contains 3 high-complexity keywords"
           (scoreIssues (calculateComplexityScore t))).
Proof.
  split; [apply score_is_capped_sum |]. split.
  - intros Hnz. rewrite score_is_capped_sum.
    unfold amendedScore, statedScore, amendedBase, statedBase.
    destruct (complexity t) as [c |] eqn:E; [| reflexivity].
    destruct (Qeq_bool c 0) eqn:Z; [| reflexivity].
    exfalso. apply (Hnz c eq_refl). apply Qeq_bool_eq. exact Z.
  - intros H3. split.
    + unfold keywordIncrement. rewrite H3. reflexivity.
    + unfold calculateComplexityScore. cbn [scoreIssues]. rewrite H3.
      assert (forall acc, In "Contains 3 high-complexity keywords"
                (snd (bump (Nat.ltb 2 3) 2
                        ("Contains " ++ Js.natToString 3 ++ " high-complexity keywords")
                        acc))) as Hpushed.
      { intros acc. rewrite bump_snd. apply in_or_app. right. left. reflexivity. }
      destruct (estimatedHours t); destruct (dependsOn t);
        repeat first [apply Hpushed | apply bump_keeps].
Qed.

Lemma score_is_amended_rule_witness :
  keywordIncrement threeKeywordTask == 2
  /\ In "Contains 3 high-complexity keywords"
       (scoreIssues (calculateComplexityScore (fmt := integerFormat) threeKeywordTask)).
Proof.
  apply (proj2 (proj2 (score_is_amended_rule (fmt := integerFormat) threeKeywordTask))).
  vm_compute. reflexivity.
Defined.

(** ** The classifier *)

Lemma isDone_false (t : Task) :
  isDone t = false <-> completed t = false /\ status t <> Some "done".
Proof.
  unfold isDone. destruct (completed t); simpl.
  - split; [discriminate | intros [Hc _]; discriminate Hc].
  - destruct (status t) as [s |].
    + destruct (String.eqb_spec s "done") as [-> | Hne].
      * split; [discriminate | intros [_ Hs]; exfalso; apply Hs; reflexivity].
      * split; [| reflexivity]. intros _. split; [reflexivity |].
        intros Heq. apply Hne. congruence.
    + split; [| reflexivity]. intros _. split; [reflexivity | discriminate].
Qed.

Lemma filter_split_length {A} (p : A -> bool) (l : list A) :
  (Z.of_nat (List.length l) - Z.of_nat (List.length (filter p l)))%Z
  = Z.of_nat (List.length (filter (fun x => negb (p x)) l)).
Proof.
  induction l as [| x l IH]; [reflexivity |].
  cbn [filter]. destruct (p x); cbn [negb List.length];
    rewrite ?Nat2Z.inj_succ; lia.
Qed.

Section ClassifierFacts.
Context {fmt : NumberFormat}.
Variables (threshold : number) (suggestBreakdown : bool).

(** What the loop of [analyzeTaskComplexity] has accumulated after a run
    over [tasks], from any starting state. *)
Lemma analyze_loop (tasks : list Task) (st : LoopState) :
  let st' := fold_left (analyzeStep threshold suggestBreakdown) tasks st in
  accComplex st'
  = (accComplex st
       ++ map (analyzed suggestBreakdown)
            (filter (fun t => geb (scoreOf t) threshold) (remainingTasks tasks)))%list
  /\ totalComplexity st' == totalComplexity st + sumScores (remainingTasks tasks)
  /\ tasksWithComplexity st'
     = (tasksWithComplexity st + Z.of_nat (List.length (remainingTasks tasks)))%Z.
Proof.
  revert st. induction tasks as [| t tasks IH]; intros st; cbn zeta.
  - simpl. rewrite app_nil_r. split; [reflexivity | split; [ring | lia]].
  - cbn [fold_left]. specialize (IH (analyzeStep threshold suggestBreakdown st t)).
    cbn zeta in IH. destruct IH as (Hc & Ht & Hn).
    rewrite Hc, Hn. rewrite Ht. clear Hc Ht Hn.
    unfold remainingTasks. cbn [filter]. unfold analyzeStep.
    destruct (isDone t); cbn [negb].
    + split; [reflexivity | split; reflexivity].
    + fold (scoreOf t). cbn [filter]. fold (remainingTasks tasks).
      destruct (geb (scoreOf t) threshold);
        cbn [accComplex totalComplexity tasksWithComplexity map sumScores
             fold_right List.length].
      * rewrite <- app_assoc. split; [reflexivity | split; [| lia]].
        fold (sumScores (remainingTasks tasks)). ring.
      * split; [reflexivity | split; [| lia]].
        fold (sumScores (remainingTasks tasks)). ring.
Qed.

End ClassifierFacts.

Lemma geb_le (x y : number) : geb x y = true <-> y <= x.
Proof. unfold geb. apply Qle_bool_iff. Qed.

(** C3: analyzeTaskComplexity leaves every task with completed=true or
    status="done" out of complexTasks, of simpleTasksCount and of the
    average; among the remaining tasks exactly those whose score is at
    least the threshold are in complexTasks (a score equal to the threshold
    counts as complex), simpleTasksCount is the number of remaining tasks
    below the threshold, and averageComplexity is the arithmetic mean of the
    remaining tasks' scores, 0 when none remains. *)
Theorem analyzeTaskComplexity_classifies {fmt : NumberFormat}
    (tasks : list Task) (threshold : number) (suggestBreakdown : bool) :
  let r := analyzeTaskComplexity tasks threshold suggestBreakdown in
  let remaining := remainingTasks tasks in
  complexTasks r
  = map (analyzed suggestBreakdown)
      (filter (fun t => geb (scoreOf t) threshold) remaining)
  /\ (forall a, In a (complexTasks r) <->
        exists t, In t tasks /\ completed t = false /\ status t <> Some "done"
                  /\ threshold <= scoreOf t /\ a = analyzed suggestBreakdown t)
  /\ (forall t, In t tasks -> isDone t = false -> scoreOf t == threshold ->
        In (analyzed suggestBreakdown t) (complexTasks r))
  /\ simpleTasksCount r
     = Z.of_nat (List.length
                   (filter (fun t => negb (geb (scoreOf t) threshold)) remaining))
  /\ totalTasksAnalyzed r = Z.of_nat (List.length remaining)
  /\ averageComplexity r == meanScore remaining.
Proof.
  cbn zeta. unfold analyzeTaskComplexity.
  destruct (analyze_loop threshold suggestBreakdown tasks
              {| accComplex := []; totalComplexity := 0; tasksWithComplexity := 0 |})
    as (Hc & Ht & Hn).
  cbn zeta in Hc, Ht, Hn. cbn [accComplex totalComplexity tasksWithComplexity] in *.
  cbn [complexTasks simpleTasksCount totalTasksAnalyzed averageComplexity].
  rewrite Hc, Hn. cbn [app]. rewrite Z.add_0_l.
  assert (forall a,
    In a (map (analyzed suggestBreakdown)
            (filter (fun t => geb (scoreOf t) threshold) (remainingTasks tasks)))
    <-> exists t, In t tasks /\ completed t = false /\ status t <> Some "done"
                  /\ threshold <= scoreOf t /\ a = analyzed suggestBreakdown t)
    as Hmem.
  { intros a. rewrite in_map_iff. split.
    - intros (t & <- & Hin). apply filter_In in Hin. destruct Hin as [Hin Hge].
      unfold remainingTasks in Hin. apply filter_In in Hin.
      destruct Hin as [Hin Hact]. apply negb_true_iff in Hact.
      apply isDone_false in Hact. destruct Hact as [Hcomp Hstat].
      exists t. apply geb_le in Hge. repeat split; assumption.
    - intros (t & Hin & Hcomp & Hstat & Hge & ->). exists t.
      split; [reflexivity |]. apply filter_In. split.
      + unfold remainingTasks. apply filter_In. split; [exact Hin |].
        apply negb_true_iff. apply isDone_false. split; assumption.
      + apply geb_le. exact Hge. }
  split; [reflexivity |]. split; [exact Hmem |]. split.
  { intros t Hin Hact Heq. apply Hmem. exists t.
    apply isDone_false in Hact. destruct Hact as [Hcomp Hstat].
    repeat split; try assumption. rewrite Heq. apply Qle_refl. }
  split.
  { rewrite length_map. apply filter_split_length. }
  split; [reflexivity |].
  unfold meanScore, ofNat.
  destruct (remainingTasks tasks) as [| t0 rest] eqn:Hrem.
  - reflexivity.
  - assert ((0 <? Z.of_nat (List.length (t0 :: rest)))%Z = true) as Hpos.
    { apply Z.ltb_lt. cbn [List.length]. lia. }
    rewrite Hpos. rewrite Ht. rewrite Qplus_0_l. reflexivity.
Qed.

Example analyzeTaskComplexity_sample :
  let r := analyzeTaskComplexity (fmt := integerFormat)
             [sevenTask; simpleTask; completedTask; doneTask] 7 true in
  map (fun a => id (task a)) (complexTasks r) = ["t1"]
  /\ map analysisScore (complexTasks r) = [7]
  /\ simpleTasksCount r = 1%Z
  /\ totalTasksAnalyzed r = 2%Z
  /\ averageComplexity r == 6.
Proof. vm_compute. repeat split; reflexivity. Qed.

(** ** The report renderer *)

Section RendererFacts.
Context {fmt : NumberFormat}.

(** With no complex task the renderer returns right after the all-clear
    message. *)
Lemma report_without_complex_tasks (results : ComplexityAnalysisResult)
    (threshold : number) (autoCreated : bool) :
  complexTasks results = [] ->
  generateComplexityAnalysisReport results threshold autoCreated
  = reportSummary results threshold ++ greatNews.
Proof.
  intros Hnone. unfold generateComplexityAnalysisReport. rewrite Hnone. reflexivity.
Qed.

(** The final [else] of the renderer is never taken: a report ends with the
    all-clear message or with the closing tip. *)
Lemma report_endings (results : ComplexityAnalysisResult)
    (threshold : number) (autoCreated : bool) :
  generateComplexityAnalysisReport results threshold autoCreated
  = reportSummary results threshold ++ greatNews
  \/ exists body,
       generateComplexityAnalysisReport results threshold autoCreated
       = body ++ proTip.
Proof.
  unfold generateComplexityAnalysisReport.
  destruct (complexTasks results) as [| a rest]; [left; reflexivity |].
  right. cbn [List.length Nat.eqb Nat.ltb Nat.leb].
  set (listed := forEachTask 0 (a :: rest)
                   (reportSummary results threshold ++ attentionHeading)).
  destruct autoCreated; cbn [negb].
  - exists ((listed ++ autoCreatedNote)
            ++ ((guidanceHeading ++ guidanceReview) ++ guidanceReanalyze)
            ++ guidanceNextTask).
    rewrite !append_assoc. reflexivity.
  - exists (listed
            ++ ((guidanceHeading ++ guidanceBreakDown) ++ guidanceReanalyze)
            ++ guidanceNextTask).
    rewrite !append_assoc. reflexivity.
Qed.

End RendererFacts.

(** C4 (the code departs from the claim): for a result with no complex task
    the rendered report is the summary followed by the all-clear message and
    nothing more; the pointer to get_next_task_recommendation is not in it. *)
Theorem report_without_complex_tasks_has_no_pointer :
  complexTasks allClearResult = []
  /\ generateComplexityAnalysisReport (fmt := integerFormat) allClearResult 7 false
     = reportSummary (fmt := integerFormat) allClearResult 7 ++ greatNews
  /\ Js.includes
       (generateComplexityAnalysisReport (fmt := integerFormat) allClearResult 7 false)
       "get_next_task_recommendation" = false
  /\ Js.includes nextStepPointer "get_next_task_recommendation" = true.
Proof. vm_compute. repeat split; reflexivity. Qed.

(** ** The breakdown suggestion generator *)

Lemma triggerKeywords_are_the_templates (t : Task) :
  flat_map keywords (breakdownPatterns t) = triggerKeywords.
Proof. reflexivity. Qed.

(** The loop pushes one suggestion per matching template, in the order of
    the templates. *)
Lemma push_loop (t : Task) (lowered : string) (ps : list BreakdownPattern)
    (acc : list CreateTaskInput) :
  fold_left (pushIfMatches t lowered) ps acc
  = (acc ++ map (templateSuggestion t) (filter (patternMatches lowered) ps))%list.
Proof.
  revert acc. induction ps as [| p ps IH]; intros acc; cbn [fold_left filter].
  - cbn [map]. symmetry. apply app_nil_r.
  - rewrite IH. unfold pushIfMatches.
    destruct (patternMatches lowered p); [| reflexivity].
    cbn [map]. rewrite <- app_assoc. reflexivity.
Qed.

(** The generator returns the matching templates' suggestions, or the
    generic breakdown when there is none. *)
Lemma generate_by_cases (t : Task) :
  generateTaskBreakdownSuggestions t
  = match matchedPatterns t with
    | [] => genericBreakdown t
    | _ :: _ => map (templateSuggestion t) (matchedPatterns t)
    end.
Proof.
  unfold generateTaskBreakdownSuggestions. cbn zeta.
  rewrite push_loop. cbn [app]. fold (matchedPatterns t).
  destruct (matchedPatterns t) as [| p ps]; reflexivity.
Qed.

Lemma no_keyword_no_pattern (t : Task) :
  (forall kw, In kw triggerKeywords ->
              Js.includes (Js.toLowerCase (details t)) kw = false) ->
  matchedPatterns t = [].
Proof.
  intros Hnone. unfold matchedPatterns.
  set (lowered := Js.toLowerCase (details t)) in *.
  unfold breakdownPatterns.
  cbn [filter patternMatches Js.some keywords existsb].
  repeat match goal with
         | |- context [Js.includes lowered ?kw] =>
             rewrite (Hnone kw) by (unfold triggerKeywords; in_list)
         end.
  reflexivity.
Qed.

Lemma round_comp (x y : number) : x == y -> Math_round x = Math_round y.
Proof.
  intros Hxy. unfold Math_round. f_equal. apply Qfloor_comp.
  rewrite Hxy. reflexivity.
Qed.

Lemma max_one_floor (x : number) : 1 <= Math_max 1 x.
Proof. apply Q.le_max_l. Qed.

(** C5: for every task whose lower-cased details contain no trigger keyword
    of the five templates, generateTaskBreakdownSuggestions returns exactly
    three suggestions, the Planning, Implementation and Testing phases in
    that order, with complexities (parent complexity or 5) minus 3, minus 2
    and minus 3, each floored at 1, and estimatedHours round(b), round(2*b)
    and round(b) for b = (parent estimatedHours or 16) / 3. *)
Theorem generic_breakdown_when_no_template_matches (t : Task) :
  (forall kw, In kw triggerKeywords ->
              Js.includes (Js.toLowerCase (details t)) kw = false) ->
  let c := orDefault (complexity t) 5 in
  let b := orDefault (estimatedHours t) 16 / 3 in
  generateTaskBreakdownSuggestions t = genericBreakdown t
  /\ map ctName (generateTaskBreakdownSuggestions t)
     = [ "Planning Phase: " ++ name t;
         "Implementation Phase: " ++ name t;
         "Testing Phase: " ++ name t ]
  /\ map ctTags (generateTaskBreakdownSuggestions t)
     = [ ["planning"]; ["implementation"]; ["testing"] ]
  /\ map ctComplexity (generateTaskBreakdownSuggestions t)
     = [ Qmax 1 (c - 3); Qmax 1 (c - 2); Qmax 1 (c - 3) ]
  /\ map ctEstimatedHours (generateTaskBreakdownSuggestions t)
     = [ Math_round b; Math_round (2 * b); Math_round b ]
  /\ (forall s, In s (generateTaskBreakdownSuggestions t) -> 1 <= ctComplexity s).
Proof.
  intros Hnone. cbn zeta.
  assert (generateTaskBreakdownSuggestions t = genericBreakdown t) as Hgen.
  { rewrite generate_by_cases, (no_keyword_no_pattern t Hnone). reflexivity. }
  rewrite Hgen. unfold genericBreakdown.
  cbn [map ctName ctTags ctComplexity ctEstimatedHours].
  do 4 (split; [reflexivity |]). split.
  - rewrite (round_comp (orDefault (estimatedHours t) 16 / 3 * 2)
               (2 * (orDefault (estimatedHours t) 16 / 3))) by ring.
    reflexivity.
  - intros s [<- | [<- | [<- | []]]]; cbn [ctComplexity]; apply max_one_floor.
Qed.

Lemma generic_breakdown_when_no_template_matches_witness :
  map ctName (generateTaskBreakdownSuggestions simpleTask)
  = [ "Planning Phase: Sample"; "Implementation Phase: Sample";
      "Testing Phase: Sample" ]
  /\ map ctComplexity (generateTaskBreakdownSuggestions simpleTask)
     = [ Qmax 1 (5 - 3); Qmax 1 (5 - 2); Qmax 1 (5 - 3) ]
  /\ map ctEstimatedHours (generateTaskBreakdownSuggestions simpleTask)
     = [ Math_round (16 / 3); Math_round (2 * (16 / 3)); Math_round (16 / 3) ].
Proof.
  assert (forall kw, In kw triggerKeywords ->
            Js.includes (Js.toLowerCase (details simpleTask)) kw = false) as Hnone.
  { intros kw Hin. unfold triggerKeywords in Hin.
    repeat (destruct Hin as [<- | Hin]; [vm_compute; reflexivity |]).
    destruct Hin. }
  destruct (generic_breakdown_when_no_template_matches simpleTask Hnone)
    as (_ & Hnames & _ & Hcomp & Hhours & _).
  split; [exact Hnames | split; [exact Hcomp | exact Hhours]].
Defined.

(** On the defaults the generic phases get complexities 2, 3, 2 and
    5, 11 and 5 hours. *)
Example generic_breakdown_sample :
  map ctComplexity (generateTaskBreakdownSuggestions simpleTask) = [2; 3; 2]
  /\ map ctEstimatedHours (generateTaskBreakdownSuggestions simpleTask) = [5; 11; 5].
Proof. vm_compute. split; reflexivity. Qed.

Lemma generate_when_matched (t : Task) :
  matchedPatterns t <> [] ->
  generateTaskBreakdownSuggestions t
  = map (templateSuggestion t) (matchedPatterns t).
Proof.
  intros Hsome. rewrite generate_by_cases.
  destruct (matchedPatterns t) as [| p ps]; [contradiction | reflexivity].
Qed.

(** Details that contain the phrase contain, lower-cased, both the words
    "implement" and "test". *)
Lemma phrase_has_both_words (d : string) :
  Js.includes d "test this implementation" = true ->
  Js.includes (Js.toLowerCase d) "implement" = true
  /\ Js.includes (Js.toLowerCase d) "test" = true.
Proof.
  intros Hphrase. apply includes_iff in Hphrase.
  destruct Hphrase as (a & b & ->).
  rewrite !toLowerCase_app.
  change (Js.toLowerCase "test this implementation")
    with ("test this " ++ "implement" ++ "ation").
  split; apply includes_iff.
  - exists (Js.toLowerCase a ++ "test this "), ("ation" ++ Js.toLowerCase b).
    rewrite !append_assoc. reflexivity.
  - exists (Js.toLowerCase a), (" this implementation" ++ Js.toLowerCase b).
    rewrite !append_assoc. reflexivity.
Qed.

(** C6: generateTaskBreakdownSuggestions emits the suggestions of the
    matching templates, at most one per template and in the order in which
    the templates are defined (research, design, implementation, testing,
    documentation), without removing or reordering any; for details
    containing "test this implementation" the implementation-template and
    the testing-template suggestions both appear, implementation first. *)
Theorem suggestions_follow_template_order (t : Task) :
  let matched :=
    filter (patternMatches (Js.toLowerCase (details t))) (breakdownPatterns t) in
  map (fun p => psName (suggestion p)) (breakdownPatterns t)
  = [ "Research and Analysis for " ++ name t;
      "Design and Planning for " ++ name t;
      "Core Implementation for " ++ name t;
      "Testing and Validation for " ++ name t;
      "Documentation for " ++ name t ]
  /\ generateTaskBreakdownSuggestions t
     = match matched with
       | [] => genericBreakdown t
       | _ :: _ => map (templateSuggestion t) matched
       end
  /\ (List.length matched <= 5)%nat
  /\ (Js.includes (details t) "test this implementation" = true ->
      exists before impl testing after,
        generateTaskBreakdownSuggestions t
        = (before ++ [impl; testing] ++ after)%list
        /\ ctName impl = "Core Implementation for " ++ name t
        /\ ctTags impl = ["implementation"; "development"]
        /\ ctName testing = "Testing and Validation for " ++ name t
        /\ ctTags testing = ["testing"; "validation"]).
Proof.
  cbn zeta. fold (matchedPatterns t).
  split; [reflexivity |]. split; [apply generate_by_cases |]. split.
  { unfold matchedPatterns.
    apply Nat.le_trans with (List.length (breakdownPatterns t));
      [apply filter_length_le | apply Nat.le_refl]. }
  intros Hphrase. apply phrase_has_both_words in Hphrase.
  destruct Hphrase as [Himpl Htest].
  assert (exists p1 p2 p3 p4 p5,
            breakdownPatterns t = ([p1; p2] ++ [p3; p4] ++ [p5])%list
            /\ keywords p3 = ["implement"; "develop"; "build"; "code"]
            /\ keywords p4 = ["test"; "testing"; "validation"]
            /\ psName (suggestion p3) = "Core Implementation for " ++ name t
            /\ psTags (suggestion p3) = ["implementation"; "development"]
            /\ psName (suggestion p4) = "Testing and Validation for " ++ name t
            /\ psTags (suggestion p4) = ["testing"; "validation"]) as Hshape.
  { unfold breakdownPatterns. do 5 eexists.
    split; [reflexivity |]. repeat split; reflexivity. }
  destruct Hshape as (p1 & p2 & p3 & p4 & p5 & Hps & K3 & K4 & N3 & T3 & N4 & T4).
  assert (patternMatches (Js.toLowerCase (details t)) p3 = true) as M3.
  { unfold patternMatches, Js.some. rewrite K3. cbn [existsb].
    rewrite Himpl. reflexivity. }
  assert (patternMatches (Js.toLowerCase (details t)) p4 = true) as M4.
  { unfold patternMatches, Js.some. rewrite K4. cbn [existsb].
    rewrite Htest. reflexivity. }
  assert (matchedPatterns t
          = (filter (patternMatches (Js.toLowerCase (details t))) [p1; p2]
               ++ [p3; p4]
               ++ filter (patternMatches (Js.toLowerCase (details t))) [p5])%list)
    as Hmatched.
  { unfold matchedPatterns. rewrite Hps, !filter_app.
    f_equal. f_equal. cbn [filter]. rewrite M3, M4. reflexivity. }
  exists (map (templateSuggestion t)
            (filter (patternMatches (Js.toLowerCase (details t))) [p1; p2])),
         (templateSuggestion t p3), (templateSuggestion t p4),
         (map (templateSuggestion t)
            (filter (patternMatches (Js.toLowerCase (details t))) [p5])).
  split.
  - rewrite generate_when_matched.
    + rewrite Hmatched, !map_app. reflexivity.
    + rewrite Hmatched. intros Hnil. apply app_eq_nil in Hnil.
      destruct Hnil as [_ Hnil]. discriminate Hnil.
  - cbn [templateSuggestion ctName ctTags]. repeat split; assumption.
Qed.

Lemma suggestions_follow_template_order_witness :
  exists before impl testing after,
    generateTaskBreakdownSuggestions testImplementationTask
    = (before ++ [impl; testing] ++ after)%list
    /\ ctName impl = "Core Implementation for Sample"
    /\ ctTags impl = ["implementation"; "development"]
    /\ ctName testing = "Testing and Validation for Sample"
    /\ ctTags testing = ["testing"; "validation"].
Proof.
  apply (proj2 (proj2 (proj2
           (suggestions_follow_template_order testImplementationTask)))).
  vm_compute. reflexivity.
Defined.

(** On "test this implementation" exactly the two suggestions are made. *)
Example test_this_implementation_sample :
  map ctName (generateTaskBreakdownSuggestions testImplementationTask)
  = [ "Core Implementation for Sample"; "Testing and Validation for Sample" ]
  /\ map ctComplexity (generateTaskBreakdownSuggestions testImplementationTask)
     = [6; 6]
  /\ map ctEstimatedHours (generateTaskBreakdownSuggestions testImplementationTask)
     = [4; 4].
Proof. vm_compute. repeat split; reflexivity. Qed.

(** ** Programs and their runs *)

Section Runs.
Context {St : Type} (w : World St).

Lemma run_bind {A B} (p : Prog A) (f : A -> Prog B) (s : St) :
  run w (bind p f) s
  = match result (run w p s) with
    | inl e => mkOutcome (inl e) (final (run w p s)) (trace (run w p s))
    | inr a =>
        let o := run w (f a) (final (run w p s)) in
        mkOutcome (result o) (final o) (trace (run w p s) ++ trace o)
    end.
Proof.
  revert s. induction p as [a | e | X c k IH | k IH]; intros s; cbn [bind run].
  - cbn. destruct (run w (f a) s); reflexivity.
  - reflexivity.
  - destruct (answer w c s) as [r s']. rewrite IH. unfold logged.
    destruct (result (run w (k r) s')); reflexivity.
  - destruct (clock w s) as [d s']. apply IH.
Qed.

Lemma run_tryCatch {A} (p : Prog A) (h : Thrown -> Prog A) (s : St) :
  run w (tryCatch p h) s
  = match result (run w p s) with
    | inl e =>
        let o := run w (h e) (final (run w p s)) in
        mkOutcome (result o) (final o) (trace (run w p s) ++ trace o)
    | inr a => mkOutcome (inr a) (final (run w p s)) (trace (run w p s))
    end.
Proof.
  revert s. induction p as [a | e | X c k IH | k IH]; intros s; cbn [tryCatch run].
  - reflexivity.
  - cbn. destruct (run w (h e) s); reflexivity.
  - destruct (answer w c s) as [r s']. rewrite IH. unfold logged.
    destruct (result (run w (k r) s')); reflexivity.
  - destruct (clock w s) as [d s']. apply IH.
Qed.

(** The inner loop of auto-creation: the requests made are a prefix of the
    expected ones, and all of them when the loop completes. *)
Lemma createSubtasksFor_run (parent : AnalyzedTask) (sgs : list CreateTaskInput)
    (s : St) :
  let o := run w (createSubtasksFor parent sgs) s in
  (exists rest,
     map (requestedSubtask parent) sgs = (issuedSubtasks o ++ rest)%list)
  /\ (result o = inr tt ->
      issuedSubtasks o = map (requestedSubtask parent) sgs
      /\ List.length (trace o) = List.length sgs)
  /\ (acceptsWrites w -> result o = inr tt).
Proof.
  cbn zeta. revert s. induction sgs as [| sg rest IH]; intros s.
  - cbn. split; [exists []; reflexivity |]. split; [| reflexivity].
    intros _. split; reflexivity.
  - cbn [createSubtasksFor now await bind run].
    destruct (clock w s) as [createdAt s1]. destruct (clock w s1) as [updatedAt s2].
    match goal with
    | |- context [answer w (CreateSubtask ?sub) s2] =>
        set (sub0 := sub);
        pose proof (fun H : acceptsWrites w => H sub0 s2) as Hacc;
        destruct (answer w (CreateSubtask sub0) s2) as [r s3]
    end.
    destruct r as [e | []]; cbn [bind run logged].
    + unfold issuedSubtasks, logged. cbn.
      split; [exists (map (requestedSubtask parent) rest); reflexivity |].
      split; [discriminate |]. intros Hw. specialize (Hacc Hw). discriminate Hacc.
    + specialize (IH s3). destruct IH as ([more Hmore] & Hdone & Hok).
      unfold issuedSubtasks, logged in *. cbn [trace result map createdSubtasks
        flat_map createdOf app withoutTimestamps requestedSubtask] in *.
      fold (createdSubtasks (trace (run w (createSubtasksFor parent rest) s3))).
      split; [| split].
      * exists more. cbn. f_equal. exact Hmore.
      * intros Hres. destruct (Hdone Hres) as [Hall Hlen].
        split; [cbn; f_equal; exact Hall | cbn [List.length]; f_equal; exact Hlen].
      * exact Hok.
Qed.

End Runs.

(** ** The auto-creation side effect *)

Lemma createdSubtasks_app (tr1 tr2 : list Request) :
  createdSubtasks (tr1 ++ tr2) = (createdSubtasks tr1 ++ createdSubtasks tr2)%list.
Proof. unfold createdSubtasks. apply flat_map_app. Qed.

Section AutoCreation.
Context {St : Type} (w : World St).

(** The outer loop: the requests made are a prefix of the expected ones, and
    all of them when no request is rejected. *)
Lemma autoCreate_run (cts : list AnalyzedTask) (s : St) :
  let o := run w (autoCreateSubtasksFromSuggestions cts) s in
  (exists rest, expectedRequests cts = (issuedSubtasks o ++ rest)%list)
  /\ (result o = inr tt ->
      issuedSubtasks o = expectedRequests cts
      /\ List.length (trace o) = suggestionCount cts)
  /\ (acceptsWrites w -> result o = inr tt).
Proof.
  cbn zeta. revert s. induction cts as [| parent cts IH]; intros s.
  - cbn. split; [exists []; reflexivity |]. split; [| reflexivity].
    intros _. split; reflexivity.
  - cbn [autoCreateSubtasksFromSuggestions expectedRequests flat_map suggestionCount
         fold_right].
    fold (expectedRequests cts). fold (suggestionCount cts).
    rewrite run_bind.
    destruct (createSubtasksFor_run w parent (suggestions parent) s)
      as ([rest1 Hpre1] & Hdone1 & Hok1).
    set (o1 := run w (createSubtasksFor parent (suggestions parent)) s) in *.
    destruct (result o1) as [e | []] eqn:R1.
    + unfold issuedSubtasks in *. cbn [trace result].
      split; [| split].
      * exists (rest1 ++ expectedRequests cts)%list.
        rewrite Hpre1, <- app_assoc. reflexivity.
      * discriminate.
      * intros Hw. specialize (Hok1 Hw). discriminate Hok1.
    + destruct (Hdone1 eq_refl) as [Hall1 Hlen1].
      specialize (IH (final o1)). destruct IH as ([rest2 Hpre2] & Hdone2 & Hok2).
      unfold issuedSubtasks in *. cbn zeta. cbn [trace result].
      rewrite createdSubtasks_app, map_app, Hall1.
      split; [| split].
      * exists rest2. rewrite Hpre2, <- app_assoc. reflexivity.
      * intros Hres. destruct (Hdone2 Hres) as [Hall2 Hlen2].
        rewrite Hall2, length_app, Hlen1, Hlen2. split; reflexivity.
      * exact Hok2.
Qed.

End AutoCreation.

Lemma expectedRequests_length (cts : list AnalyzedTask) :
  List.length (expectedRequests cts) = suggestionCount cts.
Proof.
  induction cts as [| parent cts IH]; [reflexivity |].
  cbn [expectedRequests flat_map suggestionCount fold_right].
  fold (expectedRequests cts). fold (suggestionCount cts).
  rewrite length_app, length_map, IH. reflexivity.
Qed.

Lemma memoryWorld_accepts : acceptsWrites memoryWorld.
Proof. intros sub s. reflexivity. Qed.

(** C7: when auto-creation is requested, storage receives exactly one
    createSubtask call per generated suggestion per complex task (so two
    complex tasks with three suggestions each give six calls), in order, each
    carrying the suggestion's name and details, the parent task's id as
    taskId, the parent's projectId and completed=false.  Calls are awaited
    one after the other, so this is on a storage that accepts them. *)
Theorem auto_creation_one_call_per_suggestion {fmt : NumberFormat}
    {St : Type} (w : World St) (s : St) :
  acceptsWrites w ->
  (forall cts,
     let o := run w (autoCreateSubtasksFromSuggestions cts) s in
     result o = inr tt
     /\ issuedSubtasks o = expectedRequests cts
     /\ List.length (trace o) = suggestionCount cts
     /\ List.length (createdSubtasks (trace o)) = suggestionCount cts)
  /\ (forall args tasks,
        autoCreateSubtasks args = true ->
        let analysis :=
          analyzeTaskComplexity tasks (complexityThreshold args)
            (suggestBreakdown args) in
        let o := run w (analyzeAndReport args tasks) s in
        issuedSubtasks o = expectedRequests (complexTasks analysis)
        /\ List.length (createdSubtasks (trace o))
           = suggestionCount (complexTasks analysis)).
Proof.
  intros Hw.
  assert (forall cts,
     let o := run w (autoCreateSubtasksFromSuggestions cts) s in
     result o = inr tt
     /\ issuedSubtasks o = expectedRequests cts
     /\ List.length (trace o) = suggestionCount cts
     /\ List.length (createdSubtasks (trace o)) = suggestionCount cts) as Hloop.
  { intros cts. cbn zeta.
    destruct (autoCreate_run w cts s) as (_ & Hdone & Hok).
    specialize (Hok Hw). destruct (Hdone Hok) as [Hall Hlen].
    repeat split; try assumption.
    rewrite <- expectedRequests_length, <- Hall.
    unfold issuedSubtasks. rewrite length_map. reflexivity. }
  split; [exact Hloop |].
  intros args tasks Hauto. cbn zeta. unfold analyzeAndReport.
  destruct tasks as [| t tasks]; [cbn; split; reflexivity |].
  cbn [List.length Nat.eqb]. rewrite Hauto. cbn [andb].
  set (analysis := analyzeTaskComplexity (t :: tasks) (complexityThreshold args)
                     (suggestBreakdown args)).
  rewrite run_bind.
  destruct (complexTasks analysis) as [| a rest] eqn:Hcomplex.
  - cbn. split; reflexivity.
  - cbn [List.length Nat.ltb Nat.leb].
    destruct (Hloop (a :: rest)) as (Hres & Hall & _ & Hcount).
    cbn zeta in Hres, Hall, Hcount. rewrite Hres. cbn zeta.
    unfold issuedSubtasks in *. cbn [run trace].
    rewrite app_nil_r. split; assumption.
Qed.

Lemma auto_creation_one_call_per_suggestion_witness :
  let o := run memoryWorld (autoCreateSubtasksFromSuggestions sampleComplexTasks)
             sampleStore in
  result o = inr tt
  /\ issuedSubtasks o = expectedRequests sampleComplexTasks
  /\ List.length (trace o) = suggestionCount sampleComplexTasks
  /\ List.length (createdSubtasks (trace o)) = suggestionCount sampleComplexTasks.
Proof.
  exact (proj1 (auto_creation_one_call_per_suggestion (fmt := integerFormat)
                  memoryWorld sampleStore memoryWorld_accepts)
           sampleComplexTasks).
Defined.

(** Two complex tasks with three suggestions each: the handler makes six
    createSubtask calls, three tagged with each parent. *)
Example six_calls_for_two_complex_tasks :
  let o := run memoryWorld (handler (fmt := integerFormat) autoCreateArgs) sampleStore in
  map (fun a => List.length (suggestions a)) sampleComplexTasks = [3; 3]%nat
  /\ List.length (createdSubtasks (trace o)) = 6%nat
  /\ map stTaskId (createdSubtasks (trace o)) = ["h1"; "h1"; "h1"; "h2"; "h2"; "h2"]
  /\ map stProjectId (createdSubtasks (trace o)) = ["p1"; "p1"; "p1"; "p1"; "p1"; "p1"]
  /\ map stCompleted (createdSubtasks (trace o))
     = [false; false; false; false; false; false]
  /\ storedSubtasks (final o) = createdSubtasks (trace o).
Proof. vm_compute. repeat split; reflexivity. Qed.

(** ** Suggestions of complex tasks *)

Lemma generate_nonempty (t : Task) : generateTaskBreakdownSuggestions t <> [].
Proof.
  rewrite generate_by_cases.
  destruct (matchedPatterns t) as [| p ps]; [| discriminate].
  unfold genericBreakdown. discriminate.
Qed.

Lemma complexTasks_are_analyzed {fmt : NumberFormat} (tasks : list Task)
    (threshold : number) (suggestBreakdown : bool) (a : AnalyzedTask) :
  In a (complexTasks (analyzeTaskComplexity tasks threshold suggestBreakdown)) ->
  exists t, In t tasks /\ a = analyzed suggestBreakdown t.
Proof.
  unfold analyzeTaskComplexity. cbn [complexTasks].
  destruct (analyze_loop threshold suggestBreakdown tasks
              {| accComplex := []; totalComplexity := 0; tasksWithComplexity := 0 |})
    as (Hc & _).
  cbn zeta in Hc. rewrite Hc. cbn [accComplex app].
  rewrite in_map_iff. intros (t & <- & Hin).
  apply filter_In in Hin. destruct Hin as [Hin _].
  unfold remainingTasks in Hin. apply filter_In in Hin. destruct Hin as [Hin _].
  exists t. split; [exact Hin | reflexivity].
Qed.

(** C8: every task classified complex while breakdown suggestions were
    requested carries a non-empty suggestions list, the one
    generateTaskBreakdownSuggestions returns for it; that function returns at
    least one suggestion for every task. *)
Theorem complex_tasks_have_suggestions {fmt : NumberFormat} (tasks : list Task)
    (threshold : number) (a : AnalyzedTask) :
  In a (complexTasks (analyzeTaskComplexity tasks threshold true)) ->
  suggestions a = generateTaskBreakdownSuggestions (task a)
  /\ suggestions a <> []
  /\ (forall t, (1 <= List.length (generateTaskBreakdownSuggestions t))%nat).
Proof.
  intros Hin. apply complexTasks_are_analyzed in Hin.
  destruct Hin as (t & _ & ->). cbn [analyzed suggestions task].
  split; [reflexivity |]. split; [apply generate_nonempty |].
  intros t'. pose proof (generate_nonempty t') as Hne.
  destruct (generateTaskBreakdownSuggestions t'); [contradiction |].
  cbn [List.length]. lia.
Qed.

Lemma complex_tasks_have_suggestions_witness :
  suggestions (analyzed (fmt := integerFormat) true hardTaskA)
  = generateTaskBreakdownSuggestions
      (task (analyzed (fmt := integerFormat) true hardTaskA))
  /\ suggestions (analyzed (fmt := integerFormat) true hardTaskA) <> []
  /\ (forall t, (1 <= List.length (generateTaskBreakdownSuggestions t))%nat).
Proof.
  apply (complex_tasks_have_suggestions (fmt := integerFormat)
           [hardTaskA; hardTaskB] 7).
  vm_compute. left. reflexivity.
Defined.

(** ** The tool handler *)

(** C9: the handler never lets an exception through.  A run always ends in
    a response; when a task id is given and storage has no such task, the
    response is the error-flagged not-found text and the lookup is the only
    request made (no analysis, no subtask creation); whatever is thrown
    inside the body, by storage or by processing, becomes an error-flagged
    text with the exception's message, or "Unknown error" when the thrown
    value has none; a body that returns is passed through. *)
Theorem handler_never_throws {fmt : NumberFormat} {St : Type}
    (w : World St) (s : St) (args : Args) :
  let o := run w (handler args) s in
  (exists response, result o = inr response)
  /\ (forall tid,
        truthyString (taskId args) = Some tid ->
        fst (answer w (GetTask tid) s) = inr None ->
        result o = inr (notFoundResponse tid)
        /\ isError (notFoundResponse tid) = Some true
        /\ trace o = [request (GetTask tid)])
  /\ (forall e,
        result (run w (handlerBody args) s) = inl e ->
        result o = inr (caughtResponse e)
        /\ isError (caughtResponse e) = Some true
        /\ map text (content (caughtResponse e))
           = [ "Error analyzing task complexity: "
                 ++ match e with
                    | ThrownError message => message
                    | ThrownOther => "Unknown error"
                    end ]
        /\ trace o = trace (run w (handlerBody args) s))
  /\ (forall response,
        result (run w (handlerBody args) s) = inr response ->
        result o = inr response).
Proof.
  cbn zeta. unfold handler. split; [| split; [| split]].
  - rewrite run_tryCatch.
    destruct (result (run w (handlerBody args) s)) as [e | response].
    + exists (caughtResponse e). reflexivity.
    + exists response. reflexivity.
  - intros tid Htid Hnone. unfold handlerBody. rewrite Htid.
    cbn [await bind tryCatch run].
    destruct (answer w (GetTask tid) s) as [r s']. cbn [fst] in Hnone. subst r.
    cbn. repeat split; reflexivity.
  - intros e Hthrown. rewrite run_tryCatch, Hthrown. cbn.
    rewrite app_nil_r. destruct e; repeat split; reflexivity.
  - intros response Hret. rewrite run_tryCatch, Hret. reflexivity.
Qed.

Lemma handler_never_throws_witness :
  result (run memoryWorld (handler (fmt := integerFormat) missingTaskArgs) sampleStore)
  = inr (notFoundResponse "missing")
  /\ isError (notFoundResponse "missing") = Some true
  /\ trace (run memoryWorld (handler (fmt := integerFormat) missingTaskArgs) sampleStore)
     = [request (GetTask "missing")].
Proof.
  apply (proj1 (proj2 (handler_never_throws (fmt := integerFormat)
                         memoryWorld sampleStore missingTaskArgs))).
  - reflexivity.
  - reflexivity.
Defined.

(** A rejecting storage: the message of an Error is reported, any other
    thrown value is reported as "Unknown error". *)
Example rejected_reads_are_reported :
  result (run (rejectingWorld (ThrownError "disk unavailable"))
            (handler (fmt := integerFormat) autoCreateArgs) sampleStore)
  = inr {| content :=
             [ {| type_ := "text";
                  text := "Error analyzing task complexity: disk unavailable" |} ];
           isError := Some true |}
  /\ result (run (rejectingWorld ThrownOther)
               (handler (fmt := integerFormat) missingTaskArgs) sampleStore)
     = inr {| content :=
                [ {| type_ := "text";
                     text := "Error analyzing task complexity: Unknown error" |} ];
              isError := Some true |}.
Proof. split; reflexivity. Qed.

(** A rejected write stops auto-creation at that call and is reported like
    any other failure. *)
Example rejected_write_is_reported :
  let o := run (readOnlyWorld (ThrownError "read-only store"))
             (handler (fmt := integerFormat) autoCreateArgs) sampleStore in
  result o = inr (caughtResponse (ThrownError "read-only store"))
  /\ List.length (createdSubtasks (trace o)) = 1%nat
  /\ storedSubtasks (final o) = [].
Proof. vm_compute. repeat split; reflexivity. Qed.

(** ** Stored zeros *)

Lemma orDefault_zero (q d : number) : q == 0 -> orDefault (Some q) d = d.
Proof.
  intros Hz. unfold orDefault, truthyNumber.
  apply Qeq_eq_bool in Hz. rewrite Hz. reflexivity.
Qed.

Lemma template_values (t : Task) (ps : list BreakdownPattern) :
  map ctComplexity (map (templateSuggestion t) ps)
  = map (fun _ => Qmax 1 (orDefault (complexity t) 5 - 2)) ps
  /\ map ctEstimatedHours (map (templateSuggestion t) ps)
     = map (fun _ => Math_round (orDefault (estimatedHours t) 8 / 3)) ps.
Proof.
  rewrite !map_map. split; apply map_ext; intros p; reflexivity.
Qed.

(** C10: a stored 0 is read as absent.  A task whose stored complexity is 0
    is scored from base 5 and the suggestions returned for it use 5 as the
    parent complexity (3 for every template suggestion; 2, 3, 2 for the
    generic phases), exactly as if no complexity were stored; for a task
    whose stored estimatedHours is 0 the returned suggestions have
    estimatedHours round(8/3) = 3 in the template branch and round(16/3),
    round((16/3)*2), round(16/3) = 5, 11, 5 in the generic branch, exactly
    as if no estimate were stored. *)
Theorem stored_zero_is_absent {fmt : NumberFormat} (t : Task) :
  let matched :=
    filter (patternMatches (Js.toLowerCase (details t))) (breakdownPatterns t) in
  (forall c, complexity t = Some c -> c == 0 ->
     calculateComplexityScore t = calculateComplexityScore (withComplexity t None)
     /\ score (calculateComplexityScore t) == Qmin 10 (5 + triggeredIncrements t)
     /\ generateTaskBreakdownSuggestions t
        = generateTaskBreakdownSuggestions (withComplexity t None)
     /\ map ctComplexity (generateTaskBreakdownSuggestions t)
        = match matched with
          | [] => [ Qmax 1 (5 - 3); Qmax 1 (5 - 2); Qmax 1 (5 - 3) ]
          | _ :: _ => map (fun _ => Qmax 1 (5 - 2)) matched
          end
     /\ map ctComplexity (generateTaskBreakdownSuggestions t)
        = match matched with
          | [] => [2; 3; 2]
          | _ :: _ => map (fun _ => 3) matched
          end
     /\ generateTaskBreakdownSuggestions t <> [])
  /\ (forall h, estimatedHours t = Some h -> h == 0 ->
        generateTaskBreakdownSuggestions t
        = generateTaskBreakdownSuggestions (withEstimatedHours t None)
        /\ map ctEstimatedHours (generateTaskBreakdownSuggestions t)
           = match matched with
             | [] => [ Math_round (16 / 3); Math_round (16 / 3 * 2);
                       Math_round (16 / 3) ]
             | _ :: _ => map (fun _ => Math_round (8 / 3)) matched
             end
        /\ map ctEstimatedHours (generateTaskBreakdownSuggestions t)
           = match matched with
             | [] => [5; 11; 5]
             | _ :: _ => map (fun _ => 3) matched
             end
        /\ generateTaskBreakdownSuggestions t <> []).
Proof.
  cbn zeta. fold (matchedPatterns t). split.
  - intros c Hc Hz.
    assert (orDefault (complexity t) 5 = 5) as Hbase.
    { rewrite Hc. apply orDefault_zero. exact Hz. }
    assert (map ctComplexity (generateTaskBreakdownSuggestions t)
            = match matchedPatterns t with
              | [] => [ Qmax 1 (5 - 3); Qmax 1 (5 - 2); Qmax 1 (5 - 3) ]
              | _ :: _ => map (fun _ => Qmax 1 (5 - 2)) (matchedPatterns t)
              end) as Hvalues.
    { rewrite generate_by_cases.
      destruct (matchedPatterns t) as [| p ps].
      - unfold genericBreakdown. cbn [map ctComplexity]. rewrite Hbase. reflexivity.
      - rewrite (proj1 (template_values t (p :: ps))), Hbase. reflexivity. }
    split; [| split; [| split; [| split; [| split]]]].
    + unfold calculateComplexityScore.
      rewrite Hbase. destruct t; reflexivity.
    + rewrite score_is_capped_sum. unfold amendedScore.
      rewrite <- orDefault_amendedBase, Hbase. reflexivity.
    + unfold generateTaskBreakdownSuggestions, pushIfMatches, genericBreakdown,
        templateSuggestion.
      rewrite Hbase. destruct t; reflexivity.
    + exact Hvalues.
    + rewrite Hvalues. destruct (matchedPatterns t); reflexivity.
    + apply generate_nonempty.
  - intros h Hh Hz.
    assert (forall d, orDefault (estimatedHours t) d = d) as Hhours.
    { intros d. rewrite Hh. apply orDefault_zero. exact Hz. }
    assert (map ctEstimatedHours (generateTaskBreakdownSuggestions t)
            = match matchedPatterns t with
              | [] => [ Math_round (16 / 3); Math_round (16 / 3 * 2);
                        Math_round (16 / 3) ]
              | _ :: _ => map (fun _ => Math_round (8 / 3)) (matchedPatterns t)
              end) as Hvalues.
    { rewrite generate_by_cases.
      destruct (matchedPatterns t) as [| p ps].
      - unfold genericBreakdown. cbn [map ctEstimatedHours]. rewrite Hhours.
        reflexivity.
      - rewrite (proj2 (template_values t (p :: ps))), Hhours. reflexivity. }
    split; [| split; [| split]].
    + unfold generateTaskBreakdownSuggestions, pushIfMatches, genericBreakdown,
        templateSuggestion.
      rewrite !Hhours. destruct t; reflexivity.
    + exact Hvalues.
    + rewrite Hvalues. destruct (matchedPatterns t); reflexivity.
    + apply generate_nonempty.
Qed.

Lemma stored_zero_is_absent_witness :
  (score (calculateComplexityScore (fmt := integerFormat) zeroedGenericTask)
   == Qmin 10 (5 + triggeredIncrements zeroedGenericTask)
   /\ map ctComplexity (generateTaskBreakdownSuggestions zeroedGenericTask) = [2; 3; 2]
   /\ map ctEstimatedHours (generateTaskBreakdownSuggestions zeroedGenericTask)
      = [5; 11; 5])
  /\ (map ctComplexity (generateTaskBreakdownSuggestions zeroedTemplateTask) = [3; 3]
      /\ map ctEstimatedHours (generateTaskBreakdownSuggestions zeroedTemplateTask)
         = [3; 3]).
Proof.
  destruct (stored_zero_is_absent (fmt := integerFormat) zeroedGenericTask)
    as [Hc Hh].
  destruct (Hc 0 eq_refl (Qeq_refl 0)) as (_ & Hscore & _ & _ & Hcomplexity & _).
  destruct (Hh 0 eq_refl (Qeq_refl 0)) as (_ & _ & Hhours & _).
  destruct (stored_zero_is_absent (fmt := integerFormat) zeroedTemplateTask)
    as [Hc' Hh'].
  destruct (Hc' 0 eq_refl (Qeq_refl 0)) as (_ & _ & _ & _ & Hcomplexity' & _).
  destruct (Hh' 0 eq_refl (Qeq_refl 0)) as (_ & _ & Hhours' & _).
  split; [split; [exact Hscore | split; [exact Hcomplexity | exact Hhours]] |].
  split; [exact Hcomplexity' | exact Hhours'].
Defined.

(** On stored zeros: score 5; template suggestions of complexity 3 and 3
    hours; generic suggestions of complexity 2, 3, 2 and 5, 11, 5 hours. *)
Example stored_zero_samples :
  score (calculateComplexityScore (fmt := integerFormat) zeroedGenericTask) == 5
  /\ map ctComplexity (generateTaskBreakdownSuggestions zeroedTemplateTask) = [3; 3]
  /\ map ctEstimatedHours (generateTaskBreakdownSuggestions zeroedTemplateTask) = [3; 3]
  /\ map ctComplexity (generateTaskBreakdownSuggestions zeroedGenericTask) = [2; 3; 2]
  /\ map ctEstimatedHours (generateTaskBreakdownSuggestions zeroedGenericTask)
     = [5; 11; 5].
Proof. vm_compute. repeat split; reflexivity. Qed.

(** * Further properties of the analyzer *)

(** ** What the handler asks of storage *)

Section HandlerRuns.
Context {fmt : NumberFormat} {St : Type} (w : World St).

Lemma collectProjectTasks_creates_nothing (projects : list Project)
    (acc : list Task) (s : St) :
  createdSubtasks (trace (run w (collectProjectTasks projects acc) s)) = [].
Proof.
  revert acc s. induction projects as [| project rest IH]; intros acc s.
  - reflexivity.
  - cbn [collectProjectTasks await bind run].
    destruct (answer w (GetTasks (projId project)) s) as [[e | ts] s'];
      cbn [bind run logged trace createdSubtasks flat_map createdOf app].
    + reflexivity.
    + apply IH.
Qed.

(** Without auto-creation the stage after selection makes no request. *)
Lemma analyzeAndReport_without_creation (args : Args) (tasks : list Task) (s : St) :
  autoCreateSubtasks args = false ->
  run w (analyzeAndReport args tasks) s
  = mkOutcome
      (inr (if Nat.eqb (List.length tasks) 0 then noTasksResponse
            else reportResponse args tasks))
      s [].
Proof.
  intros Hoff. unfold analyzeAndReport, reportResponse.
  destruct (Nat.eqb (List.length tasks) 0); [reflexivity |].
  rewrite Hoff. reflexivity.
Qed.

(** With no suggestion attached to any task, auto-creation makes no
    request. *)
Lemma autoCreate_without_suggestions (cts : list AnalyzedTask) (s : St) :
  (forall a, In a cts -> suggestions a = []) ->
  run w (autoCreateSubtasksFromSuggestions cts) s = mkOutcome (inr tt) s [].
Proof.
  revert s. induction cts as [| a rest IH]; intros s Hnone; [reflexivity |].
  cbn [autoCreateSubtasksFromSuggestions].
  rewrite (Hnone a (or_introl eq_refl)). cbn [createSubtasksFor bind].
  apply IH. intros a' Hin. apply Hnone. right. exact Hin.
Qed.

End HandlerRuns.

(** X1: with autoCreateSubtasks off the handler never asks storage to
    create a subtask, whatever storage holds or answers. *)
Theorem handler_without_auto_creation_creates_nothing {fmt : NumberFormat}
    {St : Type} (w : World St) (s : St) (args : Args) :
  autoCreateSubtasks args = false ->
  createdSubtasks (trace (run w (handler args) s)) = [].
Proof.
  intros Hoff. unfold handler. rewrite run_tryCatch.
  assert (createdSubtasks (trace (run w (handlerBody args) s)) = []) as Hbody.
  { unfold handlerBody.
    destruct (truthyString (taskId args)) as [tid |].
    - cbn [await bind run].
      destruct (answer w (GetTask tid) s) as [[e | [t |]] s'];
        cbn [bind run logged trace createdSubtasks flat_map createdOf app];
        try reflexivity.
      rewrite (analyzeAndReport_without_creation w args [t] s' Hoff). reflexivity.
    - destruct (truthyString (argProjectId args)) as [pid |].
      + cbn [await bind run].
        destruct (answer w (GetTasks pid) s) as [[e | ts] s'];
          cbn [bind run logged trace createdSubtasks flat_map createdOf app];
          try reflexivity.
        rewrite (analyzeAndReport_without_creation w args ts s' Hoff). reflexivity.
      + cbn [await bind run].
        destruct (answer w GetProjects s) as [[e | projects] s'];
          cbn [bind run logged trace createdSubtasks flat_map createdOf app];
          try reflexivity.
        rewrite run_bind.
        pose proof (collectProjectTasks_creates_nothing w projects [] s') as Hscan.
        destruct (result (run w (collectProjectTasks projects []) s')) as [e | ts];
          cbn [trace]; [exact Hscan |].
        cbn zeta. cbn [trace].
        rewrite (analyzeAndReport_without_creation w args ts _ Hoff).
        cbn [trace]. rewrite app_nil_r. exact Hscan. }
  destruct (result (run w (handlerBody args) s)) as [e | response];
    cbn zeta; cbn [trace run]; [rewrite app_nil_r |]; exact Hbody.
Qed.

Lemma handler_without_auto_creation_creates_nothing_witness :
  createdSubtasks
    (trace (run memoryWorld (handler (fmt := integerFormat) readOnlyArgs) sampleStore))
  = [].
Proof.
  apply (handler_without_auto_creation_creates_nothing (fmt := integerFormat)
           memoryWorld sampleStore readOnlyArgs).
  reflexivity.
Defined.

(** X2: when breakdown suggestions are switched off, every complex task
    carries an empty suggestions list, so the stage after selection makes no
    storage request even with auto-creation on; the report of a run with
    auto-creation on and at least one complex task still carries the
    "Auto-created subtasks" note. *)
Theorem no_breakdown_means_nothing_to_create {fmt : NumberFormat} {St : Type}
    (w : World St) (s : St) (args : Args) (tasks : list Task) :
  suggestBreakdown args = false ->
  let analysis := analyzeTaskComplexity tasks (complexityThreshold args) false in
  (forall a, In a (complexTasks analysis) -> suggestions a = [])
  /\ run w (analyzeAndReport args tasks) s
     = mkOutcome
         (inr (if Nat.eqb (List.length tasks) 0 then noTasksResponse
               else reportResponse args tasks))
         s []
  /\ (autoCreateSubtasks args = true -> complexTasks analysis <> [] ->
      exists before after,
        generateComplexityAnalysisReport analysis (complexityThreshold args) true
        = before ++ autoCreatedNote ++ after).
Proof.
  intros Hoff. cbn zeta.
  assert (forall a,
            In a (complexTasks
                    (analyzeTaskComplexity tasks (complexityThreshold args) false)) ->
            suggestions a = []) as Hnone.
  { intros a Hin. apply complexTasks_are_analyzed in Hin.
    destruct Hin as (t & _ & ->). reflexivity. }
  split; [exact Hnone |]. split.
  - unfold analyzeAndReport, reportResponse. rewrite Hoff.
    destruct (Nat.eqb (List.length tasks) 0); [reflexivity |].
    destruct (autoCreateSubtasks args
              && Nat.ltb 0 (List.length (complexTasks
                   (analyzeTaskComplexity tasks (complexityThreshold args) false))))%bool.
    + rewrite run_bind, (autoCreate_without_suggestions w _ s Hnone). reflexivity.
    + reflexivity.
  - intros _ Hsome. unfold generateComplexityAnalysisReport.
    destruct (complexTasks
                (analyzeTaskComplexity tasks (complexityThreshold args) false))
      as [| a rest]; [contradiction |].
    cbn [List.length Nat.eqb Nat.ltb Nat.leb negb].
    eexists. eexists. rewrite append_assoc. reflexivity.
Qed.

Lemma no_breakdown_means_nothing_to_create_witness :
  let analysis :=
    analyzeTaskComplexity (fmt := integerFormat) [hardTaskA; hardTaskB] 7 false in
  (forall a, In a (complexTasks analysis) -> suggestions a = [])
  /\ run memoryWorld
       (analyzeAndReport (fmt := integerFormat) noBreakdownArgs [hardTaskA; hardTaskB])
       sampleStore
     = mkOutcome
         (inr (reportResponse (fmt := integerFormat) noBreakdownArgs
                 [hardTaskA; hardTaskB]))
         sampleStore []
  /\ (exists before after,
        generateComplexityAnalysisReport (fmt := integerFormat) analysis 7 true
        = before ++ autoCreatedNote ++ after).
Proof.
  destruct (no_breakdown_means_nothing_to_create (fmt := integerFormat)
              memoryWorld sampleStore noBreakdownArgs [hardTaskA; hardTaskB] eq_refl)
    as (Hnone & Hrun & Hnote).
  split; [exact Hnone |]. split; [exact Hrun |].
  apply Hnote; [reflexivity |]. vm_compute. discriminate.
Defined.

Section SelectionRuns.
Context {fmt : NumberFormat} {St : Type} (w : World St).

(** Every request of the auto-creation loops is a createSubtask. *)
Lemma createSubtasksFor_only_creates (parent : AnalyzedTask)
    (sgs : list CreateTaskInput) (s : St) :
  List.length (createdSubtasks (trace (run w (createSubtasksFor parent sgs) s)))
  = List.length (trace (run w (createSubtasksFor parent sgs) s)).
Proof.
  revert s. induction sgs as [| sg rest IH]; intros s; [reflexivity |].
  cbn [createSubtasksFor now await bind run].
  destruct (clock w s) as [createdAt s1]. destruct (clock w s1) as [updatedAt s2].
  match goal with
  | |- context [answer w (CreateSubtask ?sub) s2] =>
      destruct (answer w (CreateSubtask sub) s2) as [[e | []] s3]
  end;
    cbn [bind run logged trace createdSubtasks flat_map createdOf app List.length].
  - reflexivity.
  - f_equal. apply IH.
Qed.

Lemma autoCreate_only_creates (cts : list AnalyzedTask) (s : St) :
  List.length
    (createdSubtasks (trace (run w (autoCreateSubtasksFromSuggestions cts) s)))
  = List.length (trace (run w (autoCreateSubtasksFromSuggestions cts) s)).
Proof.
  revert s. induction cts as [| parent rest IH]; intros s; [reflexivity |].
  cbn [autoCreateSubtasksFromSuggestions]. rewrite run_bind.
  pose proof (createSubtasksFor_only_creates parent (suggestions parent) s) as Hin.
  destruct (result (run w (createSubtasksFor parent (suggestions parent)) s))
    as [e | []]; cbn zeta; cbn [trace]; [exact Hin |].
  rewrite createdSubtasks_app, !length_app, Hin, IH. reflexivity.
Qed.

Lemma analyzeAndReport_only_creates (args : Args) (tasks : list Task) (s : St) :
  List.length (createdSubtasks (trace (run w (analyzeAndReport args tasks) s)))
  = List.length (trace (run w (analyzeAndReport args tasks) s)).
Proof.
  unfold analyzeAndReport.
  destruct (Nat.eqb (List.length tasks) 0); [reflexivity |].
  rewrite run_bind.
  match goal with
  | |- context [if ?c then autoCreateSubtasksFromSuggestions ?cts else Ret tt] =>
      destruct c; [pose proof (autoCreate_only_creates cts s) as Hin |]
  end.
  - match goal with
    | |- context [result ?o] => destruct (result o) as [e | []]
    end; cbn zeta; cbn [trace run]; [| rewrite app_nil_r]; exact Hin.
  - reflexivity.
Qed.

End SelectionRuns.

(** X3: a non-empty taskId decides the selection alone.  The first request
    of the run is the lookup of that task and every later request is a
    createSubtask, so projectId is not consulted and no project is scanned.
    An empty-string taskId is read as an absent taskId whatever the other
    arguments are, and an empty-string projectId as an absent projectId. *)
Theorem task_id_takes_precedence {fmt : NumberFormat} {St : Type}
    (w : World St) (s : St) (args : Args) (tid : string) :
  truthyString (taskId args) = Some tid ->
  (forall pid, handler (withProjectId args pid) = handler args)
  /\ (exists rest,
        trace (run w (handler args) s) = request (GetTask tid) :: rest
        /\ List.length (createdSubtasks rest) = List.length rest)
  /\ (forall other : Args,
        handler (withTaskId other (Some EmptyString)) = handler (withTaskId other None))
  /\ (forall other : Args,
        handler (withProjectId other (Some EmptyString))
        = handler (withProjectId other None)).
Proof.
  intros Htid. split; [| split; [| split]].
  - intros pid. unfold handler, handlerBody. cbn [taskId withProjectId].
    rewrite Htid. reflexivity.
  - unfold handler. rewrite run_tryCatch. unfold handlerBody. rewrite Htid.
    cbn [await bind run].
    destruct (answer w (GetTask tid) s) as [[e | [t |]] s'];
      cbn [bind run logged trace result final app].
    + exists []. split; reflexivity.
    + pose proof (analyzeAndReport_only_creates w args [t] s') as Honly.
      destruct (result (run w (analyzeAndReport args [t]) s')) as [e | response];
        cbn zeta; cbn [trace run app].
      * rewrite app_nil_r. eexists. split; [reflexivity | exact Honly].
      * eexists. split; [reflexivity | exact Honly].
    + exists []. split; reflexivity.
  - intros other. reflexivity.
  - intros other. reflexivity.
Qed.

Lemma task_id_takes_precedence_witness :
  (forall pid, handler (fmt := integerFormat) (withProjectId finishedTaskArgs pid)
               = handler (fmt := integerFormat) finishedTaskArgs)
  /\ (exists rest,
        trace (run memoryWorld (handler (fmt := integerFormat) finishedTaskArgs)
                 archiveStore)
        = request (GetTask "t3") :: rest
        /\ List.length (createdSubtasks rest) = List.length rest)
  /\ (forall other : Args,
        handler (fmt := integerFormat) (withTaskId other (Some EmptyString))
        = handler (fmt := integerFormat) (withTaskId other None))
  /\ (forall other : Args,
        handler (fmt := integerFormat) (withProjectId other (Some EmptyString))
        = handler (fmt := integerFormat) (withProjectId other None)).
Proof.
  exact (task_id_takes_precedence (fmt := integerFormat) memoryWorld archiveStore
           finishedTaskArgs "t3" eq_refl).
Defined.

(** An empty taskId beside a project id: the project's tasks are read, no
    task is looked up. *)
Example empty_task_id_beside_project_id :
  trace (run memoryWorld
           (handler (fmt := integerFormat)
              (withTaskId readOnlyArgs (Some EmptyString)))
           sampleStore)
  = [request (GetTasks "p1")].
Proof. reflexivity. Qed.

Lemma scan_stops_at_rejection {St : Type} (w : World St)
    (tableAnswer : string -> Thrown + list Task) :
  (forall pid s', answer w (GetTasks pid) s' = (tableAnswer pid, s')) ->
  forall (before : list Project) (bad : Project) (after : list Project)
         (e : Thrown) (acc : list Task) (s : St),
    (forall p, In p before -> exists ts, tableAnswer (projId p) = inr ts) ->
    tableAnswer (projId bad) = inl e ->
    run w (collectProjectTasks (before ++ bad :: after) acc) s
    = mkOutcome (inl e) s (scanRequests (before ++ [bad])).
Proof.
  intros Htable before bad after e.
  induction before as [| p before IH]; intros acc s Hbefore Hbad.
  - cbn [app collectProjectTasks await bind run]. rewrite Htable, Hbad.
    reflexivity.
  - cbn [app collectProjectTasks await bind run]. rewrite Htable.
    destruct (Hbefore p (or_introl eq_refl)) as [ts Hts]. rewrite Hts.
    cbn [bind]. rewrite IH; [reflexivity | | exact Hbad].
    intros p' Hin. apply Hbefore. right. exact Hin.
Qed.

(** X4: the scan over all projects asks storage for the tasks of each
    project once, in enumeration order, and stops at the first rejected
    request: a rejection of the request for the first project ends the run
    with the thrown value after that single request, an answer lets the
    scan go on with the remaining projects, and on a storage that answers
    from a fixed table the run ends with the first rejection, after the
    requests up to and including the rejected one.  When every request is
    answered the scan returns the concatenation of the projects' tasks in
    order after whatever was collected before. *)
Theorem project_scan_is_in_order {St : Type} (w : World St)
    (projects : list Project) (acc : list Task) (s : St) :
  (exists n,
     trace (run w (collectProjectTasks projects acc) s)
     = firstn n (scanRequests projects))
  /\ (forall ts, result (run w (collectProjectTasks projects acc) s) = inr ts ->
        trace (run w (collectProjectTasks projects acc) s) = scanRequests projects)
  /\ (forall tasksOf : string -> list Task,
        (forall pid s', answer w (GetTasks pid) s' = (inr (tasksOf pid), s')) ->
        run w (collectProjectTasks projects acc) s
        = mkOutcome
            (inr (acc ++ flat_map (fun project => tasksOf (projId project)) projects)%list)
            s (scanRequests projects))
  /\ (forall project rest e s',
        projects = project :: rest ->
        answer w (GetTasks (projId project)) s = (inl e, s') ->
        run w (collectProjectTasks projects acc) s
        = mkOutcome (inl e) s' [request (GetTasks (projId project))])
  /\ (forall project rest ts s',
        projects = project :: rest ->
        answer w (GetTasks (projId project)) s = (inr ts, s') ->
        run w (collectProjectTasks projects acc) s
        = logged (request (GetTasks (projId project)))
            (run w (collectProjectTasks rest (acc ++ ts)%list) s'))
  /\ (forall (tableAnswer : string -> Thrown + list Task) before bad after e,
        (forall pid s', answer w (GetTasks pid) s' = (tableAnswer pid, s')) ->
        projects = (before ++ bad :: after)%list ->
        (forall p, In p before -> exists ts, tableAnswer (projId p) = inr ts) ->
        tableAnswer (projId bad) = inl e ->
        run w (collectProjectTasks projects acc) s
        = mkOutcome (inl e) s (scanRequests (before ++ [bad]))).
Proof.
  assert ((exists n,
             trace (run w (collectProjectTasks projects acc) s)
             = firstn n (scanRequests projects))
          /\ (forall ts, result (run w (collectProjectTasks projects acc) s) = inr ts ->
                trace (run w (collectProjectTasks projects acc) s)
                = scanRequests projects)
          /\ (forall tasksOf : string -> list Task,
                (forall pid s', answer w (GetTasks pid) s' = (inr (tasksOf pid), s')) ->
                run w (collectProjectTasks projects acc) s
                = mkOutcome
                    (inr (acc ++ flat_map (fun project => tasksOf (projId project))
                                   projects)%list)
                    s (scanRequests projects))) as Hfirst.
  { revert acc s. induction projects as [| project rest IH]; intros acc s.
    - cbn. split; [exists 0%nat; reflexivity |]. split; [reflexivity |].
      intros _ _. rewrite app_nil_r. reflexivity.
    - cbn [collectProjectTasks await bind run scanRequests map flat_map].
      fold (scanRequests rest). split; [| split].
      + destruct (answer w (GetTasks (projId project)) s) as [[e | ts] s'];
          cbn [bind run logged trace].
        * exists 1%nat. reflexivity.
        * destruct (IH (acc ++ ts)%list s') as ([n Hn] & _).
          exists (S n). cbn [firstn]. rewrite Hn. reflexivity.
      + intros found.
        destruct (answer w (GetTasks (projId project)) s) as [[e | ts] s'];
          cbn [bind run logged trace result].
        * discriminate.
        * intros Hres. destruct (IH (acc ++ ts)%list s') as (_ & Hall & _).
          rewrite (Hall found Hres). reflexivity.
      + intros tasksOf Hpure. rewrite Hpure. cbn [bind].
        destruct (IH (acc ++ tasksOf (projId project))%list s) as (_ & _ & Hrun).
        rewrite (Hrun tasksOf Hpure). unfold logged. cbn [result final trace].
        rewrite <- app_assoc. reflexivity. }
  destruct Hfirst as (Hprefix & Hall & Htable).
  split; [exact Hprefix |]. split; [exact Hall |]. split; [exact Htable |].
  split; [| split].
  - intros project rest e s' -> Hrejected.
    cbn [collectProjectTasks await bind run]. rewrite Hrejected. reflexivity.
  - intros project rest ts s' -> Hanswered.
    cbn [collectProjectTasks await bind run]. rewrite Hanswered. reflexivity.
  - intros tableAnswer before bad after e Hanswers -> Hbefore Hbad.
    apply (scan_stops_at_rejection w tableAnswer Hanswers); assumption.
Qed.

Lemma project_scan_is_in_order_witness :
  run (catalogueWorld [hardTaskA; simpleTask; hardTaskB] twoProjects)
    (collectProjectTasks twoProjects [completedTask]) tt
  = mkOutcome
      (inr ([completedTask]
              ++ flat_map
                   (fun project =>
                      filter (fun t => String.eqb (projectId t) (projId project))
                        [hardTaskA; simpleTask; hardTaskB])
                   twoProjects)%list)
      tt (scanRequests twoProjects)
  /\ run (patchyWorld [hardTaskA; simpleTask; hardTaskB] "p2" ThrownOther)
       (collectProjectTasks threeProjects []) tt
     = mkOutcome (inl ThrownOther) tt
         [request (GetTasks "p1"); request (GetTasks "p2")].
Proof.
  split.
  - apply (proj1 (proj2 (proj2 (project_scan_is_in_order
                           (catalogueWorld [hardTaskA; simpleTask; hardTaskB] twoProjects)
                           twoProjects [completedTask] tt)))
             (fun pid => filter (fun t => String.eqb (projectId t) pid)
                           [hardTaskA; simpleTask; hardTaskB])).
    intros pid s'. reflexivity.
  - apply (proj2 (proj2 (proj2 (proj2 (proj2 (project_scan_is_in_order
                           (patchyWorld [hardTaskA; simpleTask; hardTaskB] "p2"
                              ThrownOther)
                           threeProjects [] tt)))))
             (fun pid =>
                if String.eqb pid "p2" then inl ThrownOther
                else inr (filter (fun t => String.eqb (projectId t) pid)
                            [hardTaskA; simpleTask; hardTaskB]))
             [ {| projId := "p1" |} ] {| projId := "p2" |} [ {| projId := "p3" |} ]
             ThrownOther).
    + intros pid s'. cbn. destruct (String.eqb pid "p2"); reflexivity.
    + reflexivity.
    + intros p [<- | []]. eexists. reflexivity.
    + reflexivity.
Defined.

(** X5: an empty selection is not an error.  When a project is named and
    storage returns no task for it, or when no filter is given and storage
    holds no project, the response is "No tasks found for analysis." without
    the error flag, and the read is the only request made. *)
Theorem empty_selection_is_reported {fmt : NumberFormat} {St : Type}
    (w : World St) (s : St) (args : Args) :
  truthyString (taskId args) = None ->
  (forall pid,
     truthyString (argProjectId args) = Some pid ->
     fst (answer w (GetTasks pid) s) = inr [] ->
     result (run w (handler args) s) = inr noTasksResponse
     /\ trace (run w (handler args) s) = [request (GetTasks pid)])
  /\ (truthyString (argProjectId args) = None ->
      fst (answer w GetProjects s) = inr [] ->
      result (run w (handler args) s) = inr noTasksResponse
      /\ trace (run w (handler args) s) = [request GetProjects])
  /\ isError noTasksResponse = None.
Proof.
  intros Htid. split; [| split; [| reflexivity]].
  - intros pid Hpid Hempty. unfold handler, handlerBody. rewrite Htid, Hpid.
    cbn [await bind tryCatch run].
    destruct (answer w (GetTasks pid) s) as [r s']. cbn [fst] in Hempty. subst r.
    cbn. split; reflexivity.
  - intros Hpid Hempty. unfold handler, handlerBody. rewrite Htid, Hpid.
    cbn [await bind tryCatch run].
    destruct (answer w GetProjects s) as [r s']. cbn [fst] in Hempty. subst r.
    cbn. split; reflexivity.
Qed.

Lemma empty_selection_is_reported_witness :
  result (run memoryWorld (handler (fmt := integerFormat) emptyProjectArgs) sampleStore)
  = inr noTasksResponse
  /\ trace (run memoryWorld (handler (fmt := integerFormat) emptyProjectArgs)
              sampleStore)
     = [request (GetTasks "nowhere")].
Proof.
  apply (proj1 (empty_selection_is_reported (fmt := integerFormat) memoryWorld
                  sampleStore emptyProjectArgs eq_refl) "nowhere");
    reflexivity.
Defined.

(** The classifier skips a finished task. *)
Lemma analyze_single_done_task {fmt : NumberFormat} (t : Task)
    (threshold : number) (suggestBreakdown : bool) :
  isDone t = true ->
  analyzeTaskComplexity [t] threshold suggestBreakdown
  = {| complexTasks := []; simpleTasksCount := 0; totalTasksAnalyzed := 0;
       averageComplexity := 0 |}.
Proof.
  intros Hdone. unfold analyzeTaskComplexity. cbn [fold_left].
  unfold analyzeStep. rewrite Hdone. reflexivity.
Qed.

(** X6: asking for the analysis of one task that is completed or done
    does not give "No tasks found": the task is selected, skipped by the
    classifier, and the response is the all-clear report over zero analysed
    tasks; nothing is created even with auto-creation on. *)
Theorem finished_task_reports_all_clear {fmt : NumberFormat} {St : Type}
    (w : World St) (s : St) (args : Args) (tid : string) (t : Task) :
  truthyString (taskId args) = Some tid ->
  fst (answer w (GetTask tid) s) = inr (Some t) ->
  isDone t = true ->
  result (run w (handler args) s)
  = inr {| content :=
             [ {| type_ := "text";
                  text :=
                    reportSummary
                      {| complexTasks := []; simpleTasksCount := 0;
                         totalTasksAnalyzed := 0; averageComplexity := 0 |}
                      (complexityThreshold args)
                    ++ greatNews |} ];
           isError := None |}
  /\ trace (run w (handler args) s) = [request (GetTask tid)].
Proof.
  intros Htid Hfound Hdone. unfold handler, handlerBody. rewrite Htid.
  cbn [await bind tryCatch run].
  destruct (answer w (GetTask tid) s) as [r s']. cbn [fst] in Hfound. subst r.
  cbn [bind]. unfold analyzeAndReport. cbn [List.length Nat.eqb].
  rewrite (analyze_single_done_task t _ _ Hdone).
  cbn [complexTasks List.length Nat.ltb Nat.leb andb].
  rewrite andb_false_r. cbn [bind tryCatch run logged result trace].
  rewrite report_without_complex_tasks by reflexivity.
  split; reflexivity.
Qed.

Lemma finished_task_reports_all_clear_witness :
  result (run memoryWorld (handler (fmt := integerFormat) finishedTaskArgs) archiveStore)
  = inr {| content :=
             [ {| type_ := "text";
                  text :=
                    reportSummary (fmt := integerFormat)
                      {| complexTasks := []; simpleTasksCount := 0;
                         totalTasksAnalyzed := 0; averageComplexity := 0 |}
                      7
                    ++ greatNews |} ];
           isError := None |}
  /\ trace (run memoryWorld (handler (fmt := integerFormat) finishedTaskArgs)
              archiveStore)
     = [request (GetTask "t3")].
Proof.
  apply (finished_task_reports_all_clear (fmt := integerFormat) memoryWorld
           archiveStore finishedTaskArgs "t3" completedTask);
    reflexivity.
Defined.

(** ** Further properties of the scorer *)

Lemma lowerAscii_idempotent (c : ascii) :
  Js.lowerAscii (Js.lowerAscii c) = Js.lowerAscii c.
Proof.
  destruct c as [[] [] [] [] [] [] [] []]; reflexivity.
Qed.

Lemma toLowerCase_idempotent (s : string) :
  Js.toLowerCase (Js.toLowerCase s) = Js.toLowerCase s.
Proof.
  induction s as [| c s IH]; [reflexivity |].
  cbn [Js.toLowerCase]. rewrite lowerAscii_idempotent, IH. reflexivity.
Qed.

Lemma toLowerCase_length (s : string) :
  String.length (Js.toLowerCase s) = String.length s.
Proof.
  induction s as [| c s IH]; [reflexivity |].
  cbn [Js.toLowerCase String.length]. rewrite IH. reflexivity.
Qed.

(** X7: the scorer does not look at the case of the details: two tasks that
    differ only in details with the same lower-casing get the same score and
    the same issues; in particular lower-casing the details changes
    nothing. *)
Theorem scorer_ignores_case {fmt : NumberFormat} (t : Task) (d : string) :
  Js.toLowerCase d = Js.toLowerCase (details t) ->
  calculateComplexityScore (withDetails t d) = calculateComplexityScore t
  /\ calculateComplexityScore (withDetails t (Js.toLowerCase (details t)))
     = calculateComplexityScore t.
Proof.
  assert (forall d', Js.toLowerCase d' = Js.toLowerCase (details t) ->
            calculateComplexityScore (withDetails t d') = calculateComplexityScore t)
    as Hsame.
  { intros d' Hlow.
    assert (String.length d' = String.length (details t)) as Hlen.
    { rewrite <- (toLowerCase_length d'), Hlow. apply toLowerCase_length. }
    unfold calculateComplexityScore, highComplexityMatches, actionMatches.
    cbn [withDetails details name complexity estimatedHours dependsOn].
    rewrite Hlow, Hlen. reflexivity. }
  intros Hlow. split; [apply Hsame, Hlow |].
  apply Hsame, toLowerCase_idempotent.
Qed.

Lemma scorer_ignores_case_witness :
  calculateComplexityScore (fmt := integerFormat)
    (withDetails threeKeywordTask
       "MOVE THE API TO THE NEW DATABASE AFTER THE MIGRATION")
  = calculateComplexityScore (fmt := integerFormat) threeKeywordTask
  /\ calculateComplexityScore (fmt := integerFormat)
       (withDetails threeKeywordTask (Js.toLowerCase (details threeKeywordTask)))
     = calculateComplexityScore (fmt := integerFormat) threeKeywordTask.
Proof.
  apply (scorer_ignores_case (fmt := integerFormat) threeKeywordTask).
  reflexivity.
Defined.

(** X8: the heuristics never lower the score and add at most 7: the score
    is at least min(10, base) and at most base + 7, and it is exactly
    base + the triggered increments whenever that sum does not exceed 10
    (base: the stored complexity, or 5 when it is absent or zero). *)
Theorem score_between_base_and_base_plus_seven {fmt : NumberFormat} (t : Task) :
  Qmin 10 (orDefault (complexity t) 5) <= score (calculateComplexityScore t)
  /\ score (calculateComplexityScore t) <= orDefault (complexity t) 5 + 7
  /\ (orDefault (complexity t) 5 + triggeredIncrements t <= 10 ->
      score (calculateComplexityScore t)
      == orDefault (complexity t) 5 + triggeredIncrements t).
Proof.
  rewrite score_is_capped_sum. unfold amendedScore.
  rewrite orDefault_amendedBase.
  pose proof (triggeredIncrements_nonneg t) as Hnn.
  assert (triggeredIncrements t <= 7) as Hle.
  { unfold triggeredIncrements, keywordIncrement, increment.
    destruct (Nat.ltb 50 _), (Nat.ltb 2 _), (Nat.ltb 3 _), (Nat.ltb 500 _),
      (overTwentyHours t), (overThreeDependencies t); discriminate. }
  split; [| split].
  - apply Q.min_le_compat_l.
    apply Qle_trans with (amendedBase t + 0);
      [rewrite Qplus_0_r; apply Qle_refl |].
    apply Qplus_le_compat; [apply Qle_refl | exact Hnn].
  - apply Qle_trans with (amendedBase t + triggeredIncrements t);
      [apply Q.le_min_r |].
    apply Qplus_le_compat; [apply Qle_refl | exact Hle].
  - intros Hfit. apply Q.min_r. exact Hfit.
Qed.

Lemma score_between_base_and_base_plus_seven_witness :
  score (calculateComplexityScore (fmt := integerFormat) threeKeywordTask)
  == orDefault (complexity threeKeywordTask) 5 + triggeredIncrements threeKeywordTask.
Proof.
  apply (proj2 (proj2 (score_between_base_and_base_plus_seven
                         (fmt := integerFormat) threeKeywordTask))).
  vm_compute. discriminate.
Defined.

(** X9: the issues list records the triggered heuristics: it has one entry
    per triggered heuristic, at most six, it is empty exactly when no
    increment is added, and in that case the score is min(10, base). *)
Theorem issues_match_increments {fmt : NumberFormat} (t : Task) :
  (List.length (scoreIssues (calculateComplexityScore t)) <= 6)%nat
  /\ ofNat (List.length (scoreIssues (calculateComplexityScore t)))
     + increment (Nat.ltb 2 (highComplexityMatches t)) 1
     == triggeredIncrements t
  /\ (scoreIssues (calculateComplexityScore t) = [] <-> triggeredIncrements t == 0)
  /\ (scoreIssues (calculateComplexityScore t) = [] ->
      score (calculateComplexityScore t) == Qmin 10 (orDefault (complexity t) 5)).
Proof.
  assert ((List.length (scoreIssues (calculateComplexityScore t)) <= 6)%nat
          /\ ofNat (List.length (scoreIssues (calculateComplexityScore t)))
             + increment (Nat.ltb 2 (highComplexityMatches t)) 1
             == triggeredIncrements t
          /\ (scoreIssues (calculateComplexityScore t) = []
              <-> triggeredIncrements t == 0)) as Hcore.
  { unfold calculateComplexityScore, triggeredIncrements, keywordIncrement,
      overTwentyHours, overThreeDependencies.
    cbn [scoreIssues].
    destruct (estimatedHours t) as [h |]; destruct (dependsOn t) as [ds |];
      rewrite ?truthy_gt_20, ?bump_snd; cbn [snd app]; unfold increment;
      repeat match goal with
             | |- context [if ?c then _ else _] =>
                 lazymatch c with
                 | true => fail
                 | false => fail
                 | _ => destruct c
                 end
             end;
      cbn [app List.length];
      (split; [lia |]); (split; [vm_compute; reflexivity |]);
      (split; intros Hx; [try discriminate Hx; reflexivity
                         | try reflexivity; vm_compute in Hx; discriminate Hx]). }
  destruct Hcore as (Hlen & Hsum & Hiff).
  split; [exact Hlen |]. split; [exact Hsum |]. split; [exact Hiff |].
  intros Hnone. apply Hiff in Hnone.
  rewrite score_is_capped_sum. unfold amendedScore.
  rewrite orDefault_amendedBase, Hnone, Qplus_0_r. reflexivity.
Qed.

(** ** Further properties of the suggestion generator *)

Lemma append_length (a b : string) :
  String.length (a ++ b) = (String.length a + String.length b)%nat.
Proof.
  induction a as [| c a IH]; [reflexivity |].
  cbn [append String.length]. rewrite IH. reflexivity.
Qed.

Lemma substring_prefix_length (n : nat) (s : string) :
  (String.length (substring 0 n s) <= n)%nat.
Proof.
  revert s. induction n as [| n IH]; intros s.
  - destruct s; cbn; lia.
  - destruct s as [| c s]; cbn [substring String.length]; [lia |].
    specialize (IH s). lia.
Qed.

Lemma substring_whole (n : nat) (s : string) :
  (String.length s <= n)%nat -> substring 0 n s = s.
Proof.
  revert s. induction n as [| n IH]; intros s Hlen.
  - destruct s; [reflexivity | cbn in Hlen; lia].
  - destruct s as [| c s]; [reflexivity |].
    cbn [substring]. rewrite IH; [reflexivity |]. cbn in Hlen. lia.
Qed.

Lemma round_bounds (x : number) :
  x - (1 # 2) < Math_round x /\ Math_round x <= x + (1 # 2).
Proof.
  unfold Math_round.
  pose proof (Qfloor_le (x + (1 # 2))) as Hle.
  pose proof (Qlt_floor (x + (1 # 2))) as Hlt.
  rewrite inject_Z_plus in Hlt. change (inject_Z 1) with 1 in Hlt.
  split; lra.
Qed.

(** Every suggestion comes from a template of the list or from the generic
    breakdown. *)
Lemma suggestion_origin (t : Task) (s : CreateTaskInput) :
  In s (generateTaskBreakdownSuggestions t) ->
  (matchedPatterns t <> []
   /\ exists p, In p (breakdownPatterns t) /\ s = templateSuggestion t p)
  \/ (matchedPatterns t = [] /\ In s (genericBreakdown t)).
Proof.
  rewrite generate_by_cases.
  destruct (matchedPatterns t) as [| p0 ps] eqn:Hm.
  - intros Hin. right. split; [reflexivity | exact Hin].
  - intros Hin. left. split; [discriminate |].
    apply in_map_iff in Hin. destruct Hin as (p & <- & Hp).
    exists p. split; [| reflexivity].
    rewrite <- Hm in Hp. unfold matchedPatterns in Hp.
    apply filter_In in Hp. exact (proj1 Hp).
Qed.

(** X10: every suggestion of generateTaskBreakdownSuggestions inherits the
    parent's projectId and priority, has a complexity of at least 1 that is
    strictly below the parent's base complexity whenever that base exceeds
    1, and there are between one and five suggestions. *)
Theorem suggestions_are_simpler_children (t : Task) :
  (1 <= List.length (generateTaskBreakdownSuggestions t) <= 5)%nat
  /\ forall s, In s (generateTaskBreakdownSuggestions t) ->
       ctProjectId s = projectId t
       /\ ctPriority s = priority t
       /\ 1 <= ctComplexity s
       /\ (1 < orDefault (complexity t) 5 ->
           ctComplexity s < orDefault (complexity t) 5).
Proof.
  split.
  - split.
    + pose proof (generate_nonempty t) as Hne.
      destruct (generateTaskBreakdownSuggestions t); [contradiction |].
      cbn [List.length]. lia.
    + rewrite generate_by_cases.
      destruct (matchedPatterns t) as [| p0 ps] eqn:Hm; [cbn; lia |].
      rewrite length_map, <- Hm. unfold matchedPatterns.
      apply Nat.le_trans with (List.length (breakdownPatterns t));
        [apply filter_length_le | apply Nat.le_refl].
  - intros s Hin.
    assert (forall k : number,
              0 < k -> 1 <= Qmax 1 (orDefault (complexity t) 5 - k)
              /\ (1 < orDefault (complexity t) 5 ->
                  Qmax 1 (orDefault (complexity t) 5 - k) < orDefault (complexity t) 5))
      as Hcomplexity.
    { intros k Hk. split; [apply Q.le_max_l |].
      intros Hbase. apply Q.max_lub_lt; [exact Hbase | lra]. }
    destruct (suggestion_origin t s Hin) as [(_ & p & _ & ->) | (_ & Hgen)].
    + cbn [templateSuggestion ctProjectId ctPriority ctComplexity].
      split; [reflexivity |]. split; [reflexivity |].
      apply (Hcomplexity 2). reflexivity.
    + unfold genericBreakdown in Hgen.
      destruct Hgen as [<- | [<- | [<- | []]]];
        cbn [ctProjectId ctPriority ctComplexity];
        (split; [reflexivity |]); (split; [reflexivity |]);
        first [apply (Hcomplexity 3); reflexivity | apply (Hcomplexity 2); reflexivity].
Qed.

(** X11: a suggestion quotes at most the first 200 characters of the
    parent's details after an introduction of at most 78 characters, so its
    details never exceed 278 characters however long the parent's details
    are; details of 200 characters or fewer are quoted whole. *)
Theorem suggestion_details_are_bounded (t : Task) (s : CreateTaskInput) :
  In s (generateTaskBreakdownSuggestions t) ->
  (String.length (ctDetails s) <= 278)%nat
  /\ exists intro,
       ctDetails s = intro ++ substring 0 200 (details t)
       /\ (String.length intro <= 78)%nat
       /\ ((String.length (details t) <= 200)%nat ->
           ctDetails s = intro ++ details t).
Proof.
  intros Hin.
  assert (exists intro,
            ctDetails s = intro ++ substring 0 200 (details t)
            /\ (String.length intro <= 78)%nat) as (intro & Hshape & Hintro).
  { destruct (suggestion_origin t s Hin) as [(_ & p & Hp & ->) | (_ & Hgen)].
    - unfold breakdownPatterns in Hp.
      destruct Hp as [<- | [<- | [<- | [<- | [<- | []]]]]];
        cbn [templateSuggestion ctDetails suggestion psDetails];
        eexists; (split; [reflexivity | apply Nat.leb_le; reflexivity]).
    - unfold genericBreakdown in Hgen.
      destruct Hgen as [<- | [<- | [<- | []]]]; cbn [ctDetails];
        eexists; (split; [reflexivity | apply Nat.leb_le; reflexivity]). }
  split.
  - rewrite Hshape, append_length.
    pose proof (substring_prefix_length 200 (details t)). lia.
  - exists intro. split; [exact Hshape |]. split; [exact Hintro |].
    intros Hshort. rewrite Hshape, (substring_whole 200 (details t) Hshort).
    reflexivity.
Qed.

Lemma suggestion_details_are_bounded_witness :
  (500 < String.length (details busyTask))%nat
  /\ exists s, In s (generateTaskBreakdownSuggestions busyTask)
               /\ (String.length (ctDetails s) <= 278)%nat.
Proof.
  split; [apply Nat.ltb_lt; vm_compute; reflexivity |].
  destruct (generateTaskBreakdownSuggestions busyTask) as [| s rest] eqn:Hgen;
    [vm_compute in Hgen; discriminate Hgen |].
  exists s. split; [left; reflexivity |].
  assert (In s (generateTaskBreakdownSuggestions busyTask)) as Hin
    by (rewrite Hgen; left; reflexivity).
  exact (proj1 (suggestion_details_are_bounded busyTask s Hin)).
Defined.

(** X12: suggested hours are rounded shares of the parent's estimate.  In
    the template branch every suggestion gets the estimate (8 when absent
    or zero) divided by 3, rounded to an integer within one half; in the
    generic branch the three phases together get four thirds of the
    estimate (16 when absent or zero), to within one and a half hours. *)
Theorem suggested_hours_are_rounded_shares (t : Task) :
  (matchedPatterns t <> [] ->
   forall s, In s (generateTaskBreakdownSuggestions t) ->
     orDefault (estimatedHours t) 8 / 3 - (1 # 2) < ctEstimatedHours s
     /\ ctEstimatedHours s <= orDefault (estimatedHours t) 8 / 3 + (1 # 2))
  /\ (matchedPatterns t = [] ->
      exists a b c,
        map ctEstimatedHours (generateTaskBreakdownSuggestions t) = [a; b; c]
        /\ (4 # 3) * orDefault (estimatedHours t) 16 - (3 # 2) < a + b + c
        /\ a + b + c <= (4 # 3) * orDefault (estimatedHours t) 16 + (3 # 2))
  /\ (forall s, In s (generateTaskBreakdownSuggestions t) ->
        exists z : Z, ctEstimatedHours s = inject_Z z).
Proof.
  split; [| split].
  - intros Hsome s Hin.
    destruct (suggestion_origin t s Hin) as [(_ & p & _ & ->) | (Hnone & _)];
      [| contradiction].
    cbn [templateSuggestion ctEstimatedHours]. apply round_bounds.
  - intros Hnone. rewrite generate_by_cases, Hnone. unfold genericBreakdown.
    cbn [map ctEstimatedHours]. do 3 eexists. split; [reflexivity |].
    set (h := orDefault (estimatedHours t) 16).
    destruct (round_bounds (h / 3)) as [L1 U1].
    destruct (round_bounds (h / 3 * 2)) as [L2 U2].
    assert (3 * (h / 3) == h) as Hthird by (field; discriminate).
    revert L1 U1 L2 U2 Hthird.
    generalize (Math_round (h / 3)) (Math_round (h / 3 * 2)) (h / 3).
    intros r1 r2 q L1 U1 L2 U2 Hthird.
    split; lra.
  - intros s Hin.
    destruct (suggestion_origin t s Hin) as [(_ & p & _ & ->) | (_ & Hgen)].
    + cbn [templateSuggestion ctEstimatedHours]. unfold Math_round. eexists. reflexivity.
    + unfold genericBreakdown in Hgen.
      destruct Hgen as [<- | [<- | [<- | []]]]; cbn [ctEstimatedHours];
        unfold Math_round; eexists; reflexivity.
Qed.

(** With 10 hours on the parent the template suggestions get 3 hours each;
    with no estimate the generic phases get 5 + 11 + 5 = 21 hours. *)
Example suggested_hours_samples :
  map ctEstimatedHours
    (generateTaskBreakdownSuggestions
       (plainTask (Some 8) (Some 10) "test this implementation")) = [3; 3]
  /\ map ctEstimatedHours (generateTaskBreakdownSuggestions simpleTask) = [5; 11; 5].
Proof. vm_compute. split; reflexivity. Qed.

(** ** Further properties of the classifier *)

Section ClassifierShape.
Context {fmt : NumberFormat}.
Variables (threshold : number) (suggestBreakdown : bool).

(** The result of [analyzeTaskComplexity] in closed form. *)
Lemma analyze_shape (tasks : list Task) :
  let r := analyzeTaskComplexity tasks threshold suggestBreakdown in
  complexTasks r
  = map (analyzed suggestBreakdown)
      (filter (fun t => geb (scoreOf t) threshold) (remainingTasks tasks))
  /\ totalTasksAnalyzed r = Z.of_nat (List.length (remainingTasks tasks))
  /\ simpleTasksCount r
     = (totalTasksAnalyzed r - Z.of_nat (List.length (complexTasks r)))%Z
  /\ averageComplexity r == meanScore (remainingTasks tasks).
Proof.
  cbn zeta. unfold analyzeTaskComplexity.
  destruct (analyze_loop threshold suggestBreakdown tasks
              {| accComplex := []; totalComplexity := 0; tasksWithComplexity := 0 |})
    as (Hc & Ht & Hn).
  cbn zeta in Hc, Ht, Hn. cbn [accComplex totalComplexity tasksWithComplexity] in *.
  cbn [complexTasks simpleTasksCount totalTasksAnalyzed averageComplexity].
  rewrite Hc, Hn. cbn [app]. rewrite Z.add_0_l.
  split; [reflexivity |]. split; [reflexivity |]. split; [reflexivity |].
  unfold meanScore, ofNat.
  destruct (remainingTasks tasks) as [| t0 rest] eqn:Hrem; [reflexivity |].
  assert ((0 <? Z.of_nat (List.length (t0 :: rest)))%Z = true) as Hpos.
  { apply Z.ltb_lt. cbn [List.length]. lia. }
  rewrite Hpos, Ht, Qplus_0_l. reflexivity.
Qed.

(** Finished tasks do not move the loop. *)
Lemma analyze_loop_skips_done (tasks : list Task) (st : LoopState) :
  fold_left (analyzeStep threshold suggestBreakdown) tasks st
  = fold_left (analyzeStep threshold suggestBreakdown) (remainingTasks tasks) st.
Proof.
  revert st. induction tasks as [| t tasks IH]; intros st; [reflexivity |].
  unfold remainingTasks. cbn [fold_left filter]. fold (remainingTasks tasks).
  destruct (isDone t) eqn:Hdone; cbn [negb].
  - unfold analyzeStep at 2. rewrite Hdone. apply IH.
  - cbn [fold_left]. apply IH.
Qed.

End ClassifierShape.

Lemma sumScores_le {fmt : NumberFormat} (ts : list Task) :
  sumScores ts <= 10 * ofNat (List.length ts).
Proof.
  induction ts as [| t ts IH].
  - cbn. discriminate.
  - cbn [sumScores fold_right List.length]. fold (sumScores ts).
    unfold ofNat in *. rewrite Nat2Z.inj_succ, <- Z.add_1_r, inject_Z_plus.
    change (inject_Z 1) with 1.
    pose proof (score_le_10 t) as Hs. fold (scoreOf t) in Hs. lra.
Qed.

Lemma sumScores_ge {fmt : NumberFormat} (ts : list Task) :
  (forall t, In t ts -> 1 <= scoreOf t) ->
  ofNat (List.length ts) <= sumScores ts.
Proof.
  induction ts as [| t ts IH]; intros Hall.
  - cbn. discriminate.
  - cbn [sumScores fold_right List.length]. fold (sumScores ts).
    unfold ofNat in *. rewrite Nat2Z.inj_succ, <- Z.add_1_r, inject_Z_plus.
    change (inject_Z 1) with 1.
    pose proof (Hall t (or_introl eq_refl)) as Hs.
    assert (inject_Z (Z.of_nat (List.length ts)) <= sumScores ts) as Hrest.
    { apply IH. intros t' Hin. apply Hall. right. exact Hin. }
    lra.
Qed.

Lemma score_is_at_least_one {fmt : NumberFormat} (t : Task) :
  (forall c, complexity t = Some c -> c == 0 \/ 1 <= c) ->
  1 <= score (calculateComplexityScore t).
Proof.
  intros Hc. rewrite score_is_capped_sum. unfold amendedScore.
  apply Q.min_glb; [discriminate |].
  pose proof (amendedBase_range t Hc). pose proof (triggeredIncrements_nonneg t).
  lra.
Qed.

(** X13: the counts of an analysis add up.  Complex and simple tasks
    together are the analysed ones, the simple count is never negative, no
    more tasks are analysed than were given, and the tasks left out are
    exactly the completed or done ones. *)
Theorem analysis_counts_add_up {fmt : NumberFormat} (tasks : list Task)
    (threshold : number) (suggestBreakdown : bool) :
  let r := analyzeTaskComplexity tasks threshold suggestBreakdown in
  (totalTasksAnalyzed r
   = Z.of_nat (List.length (complexTasks r)) + simpleTasksCount r)%Z
  /\ (0 <= simpleTasksCount r)%Z
  /\ (totalTasksAnalyzed r <= Z.of_nat (List.length tasks))%Z
  /\ (totalTasksAnalyzed r
      = Z.of_nat (List.length tasks)
        - Z.of_nat (List.length (filter isDone tasks)))%Z.
Proof.
  cbn zeta.
  destruct (analyze_shape threshold suggestBreakdown tasks) as (Hc & Hn & Hs & _).
  cbn zeta in Hc, Hn, Hs. rewrite Hs, Hn, Hc, length_map.
  pose proof (filter_length_le (fun t => geb (scoreOf t) threshold)
                (remainingTasks tasks)) as Hle1.
  pose proof (filter_length_le (fun t => negb (isDone t)) tasks) as Hle2.
  fold (remainingTasks tasks) in Hle2.
  pose proof (filter_split_length isDone tasks) as Hsplit.
  fold (remainingTasks tasks) in Hsplit.
  repeat split; lia.
Qed.

(** X14: the average complexity never exceeds 10, it is 0 when every task
    is finished, and it is at least 1 when some task is analysed and every
    stored complexity is absent, zero or at least 1. *)
Theorem average_complexity_is_bounded {fmt : NumberFormat} (tasks : list Task)
    (threshold : number) (suggestBreakdown : bool) :
  let r := analyzeTaskComplexity tasks threshold suggestBreakdown in
  averageComplexity r <= 10
  /\ (remainingTasks tasks = [] -> averageComplexity r == 0)
  /\ (remainingTasks tasks <> [] ->
      (forall t c, In t tasks -> complexity t = Some c -> c == 0 \/ 1 <= c) ->
      1 <= averageComplexity r).
Proof.
  cbn zeta.
  destruct (analyze_shape threshold suggestBreakdown tasks) as (_ & _ & _ & Ha).
  cbn zeta in Ha. rewrite Ha. unfold meanScore.
  destruct (remainingTasks tasks) as [| t0 rest] eqn:Hrem.
  - split; [discriminate |]. split; [reflexivity |]. intros Hne. contradiction.
  - assert (0 < ofNat (List.length (t0 :: rest))) as Hpos.
    { unfold ofNat.
      change (inject_Z 0 < inject_Z (Z.of_nat (List.length (t0 :: rest)))).
      rewrite <- Zlt_Qlt. cbn [List.length]. lia. }
    split; [| split].
    + apply Qle_shift_div_r; [exact Hpos | apply sumScores_le].
    + discriminate.
    + intros _ Hstored. apply Qle_shift_div_l; [exact Hpos |].
      rewrite Qmult_1_l. apply sumScores_ge.
      intros t Hin. unfold scoreOf. apply score_is_at_least_one.
      intros c Hc. apply (Hstored t c); [| exact Hc].
      rewrite <- Hrem in Hin. unfold remainingTasks in Hin.
      apply filter_In in Hin. exact (proj1 Hin).
Qed.

Lemma filter_length_mono {A} (p q : A -> bool) (l : list A) :
  (forall x, p x = true -> q x = true) ->
  (List.length (filter p l) <= List.length (filter q l))%nat.
Proof.
  intros Himp. induction l as [| x l IH]; [apply Nat.le_refl |].
  cbn [filter]. destruct (p x) eqn:Hp.
  - rewrite (Himp x Hp). cbn [List.length]. lia.
  - destruct (q x); cbn [List.length]; lia.
Qed.

(** X15: raising the threshold can only remove tasks from complexTasks:
    every task that is complex under the higher threshold is complex, with
    the same entry, under the lower one, while the number of analysed tasks
    and the average do not depend on the threshold. *)
Theorem complex_tasks_shrink_with_threshold {fmt : NumberFormat}
    (tasks : list Task) (low high : number) (suggestBreakdown : bool) :
  low <= high ->
  (forall a, In a (complexTasks (analyzeTaskComplexity tasks high suggestBreakdown)) ->
             In a (complexTasks (analyzeTaskComplexity tasks low suggestBreakdown)))
  /\ (List.length (complexTasks (analyzeTaskComplexity tasks high suggestBreakdown))
      <= List.length (complexTasks (analyzeTaskComplexity tasks low suggestBreakdown)))%nat
  /\ totalTasksAnalyzed (analyzeTaskComplexity tasks high suggestBreakdown)
     = totalTasksAnalyzed (analyzeTaskComplexity tasks low suggestBreakdown)
  /\ averageComplexity (analyzeTaskComplexity tasks high suggestBreakdown)
     == averageComplexity (analyzeTaskComplexity tasks low suggestBreakdown).
Proof.
  intros Hle.
  destruct (analyze_shape high suggestBreakdown tasks) as (Hc2 & Hn2 & _ & Ha2).
  destruct (analyze_shape low suggestBreakdown tasks) as (Hc1 & Hn1 & _ & Ha1).
  cbn zeta in *. rewrite Hc1, Hc2, Hn1, Hn2, Ha1, Ha2.
  assert (forall t, geb (scoreOf t) high = true -> geb (scoreOf t) low = true)
    as Himp.
  { intros t Hge. apply geb_le. apply geb_le in Hge.
    apply Qle_trans with high; assumption. }
  split; [| split; [| split; reflexivity]].
  - intros a Hin. apply in_map_iff in Hin. destruct Hin as (t & <- & Hin).
    apply in_map. apply filter_In in Hin. destruct Hin as [Hin Hge].
    apply filter_In. split; [exact Hin | apply Himp, Hge].
  - rewrite !length_map. apply filter_length_mono. exact Himp.
Qed.

Lemma complex_tasks_shrink_with_threshold_witness :
  (List.length
     (complexTasks (analyzeTaskComplexity (fmt := integerFormat)
                      [hardTaskA; hardTaskB; sevenTask] 8 true))
   <= List.length
        (complexTasks (analyzeTaskComplexity (fmt := integerFormat)
                         [hardTaskA; hardTaskB; sevenTask] 7 true)))%nat.
Proof.
  refine (proj1 (proj2 (complex_tasks_shrink_with_threshold (fmt := integerFormat)
                          [hardTaskA; hardTaskB; sevenTask] 7 8 true _))).
  discriminate.
Defined.

(** X16: finished tasks have no influence on an analysis, and the analysis
    of a concatenation lists the complex tasks of the first part followed
    by those of the second and counts the analysed tasks of both. *)
Theorem analysis_ignores_finished_tasks {fmt : NumberFormat}
    (tasks more : list Task) (threshold : number) (suggestBreakdown : bool) :
  analyzeTaskComplexity tasks threshold suggestBreakdown
  = analyzeTaskComplexity (remainingTasks tasks) threshold suggestBreakdown
  /\ complexTasks (analyzeTaskComplexity (tasks ++ more) threshold suggestBreakdown)
     = (complexTasks (analyzeTaskComplexity tasks threshold suggestBreakdown)
          ++ complexTasks (analyzeTaskComplexity more threshold suggestBreakdown))%list
  /\ totalTasksAnalyzed (analyzeTaskComplexity (tasks ++ more) threshold suggestBreakdown)
     = (totalTasksAnalyzed (analyzeTaskComplexity tasks threshold suggestBreakdown)
        + totalTasksAnalyzed (analyzeTaskComplexity more threshold suggestBreakdown))%Z
  /\ ((forall t, In t more -> isDone t = true) ->
      analyzeTaskComplexity (tasks ++ more) threshold suggestBreakdown
      = analyzeTaskComplexity tasks threshold suggestBreakdown).
Proof.
  split; [| split; [| split]].
  - unfold analyzeTaskComplexity. rewrite analyze_loop_skips_done. reflexivity.
  - destruct (analyze_shape threshold suggestBreakdown (tasks ++ more)) as (H1 & _).
    destruct (analyze_shape threshold suggestBreakdown tasks) as (H2 & _).
    destruct (analyze_shape threshold suggestBreakdown more) as (H3 & _).
    cbn zeta in *. rewrite H1, H2, H3. unfold remainingTasks.
    rewrite !filter_app, map_app. reflexivity.
  - destruct (analyze_shape threshold suggestBreakdown (tasks ++ more)) as (_ & H1 & _).
    destruct (analyze_shape threshold suggestBreakdown tasks) as (_ & H2 & _).
    destruct (analyze_shape threshold suggestBreakdown more) as (_ & H3 & _).
    cbn zeta in *. rewrite H1, H2, H3. unfold remainingTasks.
    rewrite filter_app, length_app. lia.
  - intros Hdone. unfold analyzeTaskComplexity.
    rewrite (analyze_loop_skips_done threshold suggestBreakdown (tasks ++ more)).
    rewrite (analyze_loop_skips_done threshold suggestBreakdown tasks).
    unfold remainingTasks. rewrite filter_app.
    assert (filter (fun t => negb (isDone t)) more = []) as Hnone.
    { induction more as [| t ts IH]; [reflexivity |].
      cbn [filter]. rewrite (Hdone t (or_introl eq_refl)). cbn [negb].
      apply IH. intros t' Hin. apply Hdone. right. exact Hin. }
    rewrite Hnone, app_nil_r. reflexivity.
Qed.

Lemma analysis_ignores_finished_tasks_witness :
  analyzeTaskComplexity (fmt := integerFormat)
    ([sevenTask; simpleTask] ++ [completedTask; doneTask]) 7 true
  = analyzeTaskComplexity (fmt := integerFormat) [sevenTask; simpleTask] 7 true.
Proof.
  apply (proj2 (proj2 (proj2
           (analysis_ignores_finished_tasks (fmt := integerFormat)
              [sevenTask; simpleTask] [completedTask; doneTask] 7 true)))).
  intros t [<- | [<- | []]]; reflexivity.
Defined.

(** ** Further properties of the renderer *)

Section RendererLayout.
Context {fmt : NumberFormat}.

Lemma forEachTask_blocks (index : nat) (ts : list AnalyzedTask) (report : string) :
  forEachTask index ts report = report ++ blocksFrom index ts.
Proof.
  revert index report. induction ts as [| t rest IH]; intros index report.
  - cbn. symmetry. induction report as [| c r IHr]; [reflexivity |].
    cbn [append]. rewrite IHr. reflexivity.
  - cbn [forEachTask blocksFrom]. rewrite IH, append_assoc. reflexivity.
Qed.

Lemma blocksFrom_lists (index k : nat) (ts : list AnalyzedTask) (t : AnalyzedTask) :
  nth_error ts k = Some t ->
  exists before after,
    blocksFrom index ts = before ++ listingHeading (index + k) t ++ after.
Proof.
  revert index k. induction ts as [| t0 rest IH]; intros index k Hnth.
  - destruct k; discriminate Hnth.
  - destruct k as [| k]; cbn [nth_error] in Hnth.
    + injection Hnth as ->. exists EmptyString. eexists.
      cbn [blocksFrom append]. rewrite Nat.add_0_r.
      unfold taskBlock, listingHeading. rewrite !append_assoc. reflexivity.
    + destruct (IH (S index) k Hnth) as (before & after & Hrest).
      exists (taskBlock index t0 ++ before), after.
      cbn [blocksFrom]. rewrite Hrest, append_assoc.
      replace (index + S k)%nat with (S index + k)%nat by lia. reflexivity.
Qed.

End RendererLayout.

Lemma lastChar_append (a b : string) :
  b <> EmptyString -> lastChar (a ++ b) = lastChar b.
Proof.
  intros Hb. induction a as [| c a IH]; [reflexivity |].
  cbn [append lastChar]. destruct (a ++ b) as [| d r] eqn:Hab.
  - exfalso. destruct a; cbn in Hab; [contradiction | discriminate Hab].
  - exact IH.
Qed.

(** X17: the layout of a report.  With no complex task it is the summary
    and the all-clear message.  Otherwise it is the summary, the attention
    heading, one block per complex task in order (the task at position k is
    listed under number k + 1 with its name and score), the auto-created
    note only when auto-creation was on, and the guidance, whose first item
    is the review text when auto-creation was on and the break-down text
    otherwise, ending with the closing tip.  The text of the renderer's
    final else branch is never appended: no report ends with it. *)
Theorem report_layout {fmt : NumberFormat} (results : ComplexityAnalysisResult)
    (threshold : number) (autoCreated : bool) :
  generateComplexityAnalysisReport results threshold autoCreated
  = match complexTasks results with
    | [] => reportSummary results threshold ++ greatNews
    | _ :: _ =>
        reportSummary results threshold ++ attentionHeading
          ++ blocksFrom 0 (complexTasks results)
          ++ (if autoCreated then autoCreatedNote else EmptyString)
          ++ guidanceHeading
          ++ (if autoCreated then guidanceReview else guidanceBreakDown)
          ++ guidanceReanalyze ++ guidanceNextTask ++ proTip
    end
  /\ (forall k t, nth_error (complexTasks results) k = Some t ->
        exists before after,
          generateComplexityAnalysisReport results threshold autoCreated
          = before ++ listingHeading k t ++ after)
  /\ (forall body,
        generateComplexityAnalysisReport results threshold autoCreated
        <> body ++ nextStepPointer).
Proof.
  assert (generateComplexityAnalysisReport results threshold autoCreated
          = match complexTasks results with
            | [] => reportSummary results threshold ++ greatNews
            | _ :: _ =>
                reportSummary results threshold ++ attentionHeading
                  ++ blocksFrom 0 (complexTasks results)
                  ++ (if autoCreated then autoCreatedNote else EmptyString)
                  ++ guidanceHeading
                  ++ (if autoCreated then guidanceReview else guidanceBreakDown)
                  ++ guidanceReanalyze ++ guidanceNextTask ++ proTip
            end) as Hlayout.
  { unfold generateComplexityAnalysisReport.
    destruct (complexTasks results) as [| a rest]; [reflexivity |].
    cbn [List.length Nat.eqb Nat.ltb Nat.leb].
    rewrite forEachTask_blocks.
    destruct autoCreated; cbn [negb append]; rewrite !append_assoc; reflexivity. }
  split; [exact Hlayout |]. split.
  - intros k t Hnth. rewrite Hlayout.
    destruct (complexTasks results) as [| a rest] eqn:Hc;
      [destruct k; discriminate Hnth |].
    destruct (blocksFrom_lists 0 k (a :: rest) t Hnth) as (before & after & Hblocks).
    rewrite Hblocks. cbn [Nat.add].
    exists (reportSummary results threshold ++ attentionHeading ++ before).
    eexists. rewrite !append_assoc. reflexivity.
  - intros body Hends.
    assert (lastChar (generateComplexityAnalysisReport results threshold autoCreated)
            = lastChar nextStepPointer) as Hlast.
    { rewrite Hends. apply lastChar_append. discriminate. }
    destruct (report_endings results threshold autoCreated) as [Hclear | [b Htip]].
    + rewrite Hclear, lastChar_append in Hlast by discriminate.
      vm_compute in Hlast. discriminate Hlast.
    + rewrite Htip, lastChar_append in Hlast by discriminate.
      vm_compute in Hlast. discriminate Hlast.
Qed.

(** ** Auto-creation on any storage *)

Section AutoCreationFailures.
Context {St : Type} (w : World St).

Lemma createSubtasksFor_throws_after_a_request (parent : AnalyzedTask)
    (sgs : list CreateTaskInput) (s : St) (e : Thrown) :
  result (run w (createSubtasksFor parent sgs) s) = inl e ->
  trace (run w (createSubtasksFor parent sgs) s) <> [].
Proof.
  destruct sgs as [| sg rest]; [discriminate |].
  intros _. cbn [createSubtasksFor now await bind run].
  destruct (clock w s) as [createdAt s1]. destruct (clock w s1) as [updatedAt s2].
  match goal with
  | |- context [answer w (CreateSubtask ?sub) s2] =>
      destruct (answer w (CreateSubtask sub) s2) as [r s3]
  end.
  unfold logged. cbn [trace]. discriminate.
Qed.

Lemma autoCreate_throws_after_a_request (cts : list AnalyzedTask) (s : St)
    (e : Thrown) :
  result (run w (autoCreateSubtasksFromSuggestions cts) s) = inl e ->
  trace (run w (autoCreateSubtasksFromSuggestions cts) s) <> [].
Proof.
  revert s. induction cts as [| parent rest IH]; intros s; [discriminate |].
  cbn [autoCreateSubtasksFromSuggestions]. rewrite run_bind.
  destruct (result (run w (createSubtasksFor parent (suggestions parent)) s))
    as [e1 | []] eqn:R1; cbn zeta; cbn [result trace].
  - intros _. apply (createSubtasksFor_throws_after_a_request _ _ _ e1 R1).
  - intros Hthrown Hnil. apply app_eq_nil in Hnil. destruct Hnil as [_ Hnil].
    exact (IH _ Hthrown Hnil).
Qed.

End AutoCreationFailures.

Section AutoCreationRejected.
Context {St : Type} (w : World St).

(** A rejected request ends the inner loop at once. *)
Lemma createSubtasksFor_rejected (parent : AnalyzedTask) (sg : CreateTaskInput)
    (more : list CreateTaskInput) (s s1 s2 s3 : St) (createdAt updatedAt : string)
    (e : Thrown) :
  clock w s = (createdAt, s1) ->
  clock w s1 = (updatedAt, s2) ->
  answer w
    (CreateSubtask
       {| stId := EmptyString; stName := ctName sg; stDetails := ctDetails sg;
          stTaskId := id (task parent); stProjectId := projectId (task parent);
          stCompleted := false;
          stCreatedAt := createdAt; stUpdatedAt := updatedAt |}) s2
  = (inl e, s3) ->
  run w (createSubtasksFor parent (sg :: more)) s
  = mkOutcome (inl e) s3
      [ request
          (CreateSubtask
             {| stId := EmptyString; stName := ctName sg; stDetails := ctDetails sg;
                stTaskId := id (task parent); stProjectId := projectId (task parent);
                stCompleted := false;
                stCreatedAt := createdAt; stUpdatedAt := updatedAt |}) ].
Proof.
  intros Hc1 Hc2 Hrejected.
  cbn [createSubtasksFor now await bind run].
  rewrite Hc1, Hc2, Hrejected. reflexivity.
Qed.

(** On a storage that rejects every write, the first request is the only
    one. *)
Lemma autoCreate_rejected (e : Thrown) (cts : list AnalyzedTask) (s : St) :
  rejectsWrites w e ->
  expectedRequests cts <> [] ->
  result (run w (autoCreateSubtasksFromSuggestions cts) s) = inl e
  /\ List.length (trace (run w (autoCreateSubtasksFromSuggestions cts) s)) = 1%nat
  /\ issuedSubtasks (run w (autoCreateSubtasksFromSuggestions cts) s)
     = firstn 1 (expectedRequests cts).
Proof.
  intros Hrejects. revert s. induction cts as [| parent rest IH]; intros s Hsome.
  - contradiction.
  - cbn [autoCreateSubtasksFromSuggestions expectedRequests flat_map] in *.
    fold (expectedRequests rest) in *. rewrite run_bind.
    destruct (suggestions parent) as [| sg more] eqn:Hsg.
    + cbn [createSubtasksFor run result final trace map app] in *.
      cbn zeta. destruct (IH s Hsome) as (Hres & Hlen & Hissued).
      unfold issuedSubtasks in *. cbn [result trace app].
      split; [exact Hres |]. split; [exact Hlen | exact Hissued].
    + destruct (clock w s) as [createdAt s1] eqn:Hc1.
      destruct (clock w s1) as [updatedAt s2] eqn:Hc2.
      match goal with
      | |- context [createSubtasksFor parent (sg :: more)] =>
          pose proof (Hrejects
                        {| stId := EmptyString; stName := ctName sg;
                           stDetails := ctDetails sg;
                           stTaskId := id (task parent);
                           stProjectId := projectId (task parent);
                           stCompleted := false;
                           stCreatedAt := createdAt; stUpdatedAt := updatedAt |}
                        s2) as Hfst
      end.
      destruct (answer w
                  (CreateSubtask
                     {| stId := EmptyString; stName := ctName sg;
                        stDetails := ctDetails sg;
                        stTaskId := id (task parent);
                        stProjectId := projectId (task parent);
                        stCompleted := false;
                        stCreatedAt := createdAt; stUpdatedAt := updatedAt |}) s2)
        as [r s3] eqn:Hans.
      cbn [fst] in Hfst. subst r.
      rewrite (createSubtasksFor_rejected parent sg more s s1 s2 s3
                 createdAt updatedAt e Hc1 Hc2 Hans).
      cbn [result final trace]. unfold issuedSubtasks. cbn [trace].
      split; [reflexivity |]. split; reflexivity.
Qed.

End AutoCreationRejected.

(** X18: on any storage auto-creation works through the suggestions in
    order and stops at the first rejected createSubtask.  The requests made
    are always an initial part of the expected ones (so at most one per
    suggestion, and nothing is retried or skipped), they are all of them
    exactly when the run completes, a run that throws has made at least one
    request, and no other storage operation is used.  A rejected request
    ends the loop over a task's suggestions at once with the thrown value,
    a throw in one task's loop ends the whole run so that later tasks are
    not attempted, and a storage that rejects every write receives exactly
    one request, the first expected one. *)
Theorem auto_creation_stops_at_first_rejection {St : Type} (w : World St) (s : St)
    (cts : list AnalyzedTask) :
  let o := run w (autoCreateSubtasksFromSuggestions cts) s in
  (exists rest, expectedRequests cts = (issuedSubtasks o ++ rest)%list)
  /\ (List.length (issuedSubtasks o) <= suggestionCount cts)%nat
  /\ (result o = inr tt -> issuedSubtasks o = expectedRequests cts)
  /\ (forall e, result o = inl e ->
        trace o <> [] /\ issuedSubtasks o <> [])
  /\ List.length (createdSubtasks (trace o)) = List.length (trace o)
  /\ (forall parent sg more s1 s2 s3 createdAt updatedAt e,
        clock w s = (createdAt, s1) ->
        clock w s1 = (updatedAt, s2) ->
        answer w
          (CreateSubtask
             {| stId := EmptyString; stName := ctName sg; stDetails := ctDetails sg;
                stTaskId := id (task parent); stProjectId := projectId (task parent);
                stCompleted := false;
                stCreatedAt := createdAt; stUpdatedAt := updatedAt |}) s2
        = (inl e, s3) ->
        run w (createSubtasksFor parent (sg :: more)) s
        = mkOutcome (inl e) s3
            [ request
                (CreateSubtask
                   {| stId := EmptyString; stName := ctName sg;
                      stDetails := ctDetails sg;
                      stTaskId := id (task parent);
                      stProjectId := projectId (task parent);
                      stCompleted := false;
                      stCreatedAt := createdAt; stUpdatedAt := updatedAt |}) ])
  /\ (forall parent rest e,
        cts = parent :: rest ->
        result (run w (createSubtasksFor parent (suggestions parent)) s) = inl e ->
        o = mkOutcome (inl e)
              (final (run w (createSubtasksFor parent (suggestions parent)) s))
              (trace (run w (createSubtasksFor parent (suggestions parent)) s)))
  /\ (forall e,
        rejectsWrites w e -> expectedRequests cts <> [] ->
        result o = inl e
        /\ List.length (trace o) = 1%nat
        /\ issuedSubtasks o = firstn 1 (expectedRequests cts)).
Proof.
  cbn zeta.
  destruct (autoCreate_run w cts s) as ([rest Hpre] & Hdone & _).
  pose proof (autoCreate_only_creates w cts s) as Honly.
  split; [exists rest; exact Hpre |].
  split; [| split; [| split; [| split; [| split; [| split]]]]].
  - rewrite <- expectedRequests_length, Hpre, length_app. lia.
  - intros Hres. exact (proj1 (Hdone Hres)).
  - intros e Hthrown.
    pose proof (autoCreate_throws_after_a_request w cts s e Hthrown) as Hne.
    split; [exact Hne |].
    unfold issuedSubtasks. intros Hnil. apply map_eq_nil in Hnil.
    rewrite Hnil in Honly. cbn [List.length] in Honly.
    destruct (trace (run w (autoCreateSubtasksFromSuggestions cts) s));
      [contradiction | discriminate Honly].
  - exact Honly.
  - intros parent sg more s1 s2 s3 createdAt updatedAt e.
    apply createSubtasksFor_rejected.
  - intros parent more e -> Hthrown.
    cbn [autoCreateSubtasksFromSuggestions]. rewrite run_bind, Hthrown. reflexivity.
  - intros e Hrejects Hsome. apply autoCreate_rejected; assumption.
Qed.

Lemma auto_creation_stops_at_first_rejection_witness :
  let o := run (patchyWorld [hardTaskA; hardTaskB] "none" (ThrownError "read-only"))
             (autoCreateSubtasksFromSuggestions sampleComplexTasks) tt in
  result o = inl (ThrownError "read-only")
  /\ List.length (trace o) = 1%nat
  /\ issuedSubtasks o = firstn 1 (expectedRequests sampleComplexTasks).
Proof.
  apply (proj2 (proj2 (proj2 (proj2 (proj2 (proj2 (proj2
           (auto_creation_stops_at_first_rejection
              (patchyWorld [hardTaskA; hardTaskB] "none" (ThrownError "read-only"))
              tt sampleComplexTasks)))))))
           (ThrownError "read-only")).
  - intros sub st. reflexivity.
  - vm_compute. discriminate.
Defined.

(** On a storage that rejects writes the first request is the only one. *)
Example first_rejection_stops_auto_creation :
  let o := run (readOnlyWorld (ThrownError "read-only store"))
             (autoCreateSubtasksFromSuggestions sampleComplexTasks) sampleStore in
  result o = inl (ThrownError "read-only store")
  /\ List.length (issuedSubtasks o) = 1%nat
  /\ suggestionCount sampleComplexTasks = 6%nat.
Proof. vm_compute. repeat split; reflexivity. Qed.

(** * Storage configuration *)

Lemma arrayIncludes_In (xs : list string) (x : string) :
  StorageConfig.arrayIncludes xs x = true <-> In x xs.
Proof.
  unfold StorageConfig.arrayIncludes. rewrite existsb_exists. split.
  - intros (y & Hin & Heq). apply String.eqb_eq in Heq. subst y. exact Hin.
  - intros Hin. exists x. split; [exact Hin | apply String.eqb_refl].
Qed.

(** X19: parseCommandLineArgs turns the global mode on exactly when the
    string "--claude" is one of the arguments after the first two entries of
    argv, wherever it stands among them; the first two entries (the runtime
    and the script) never count, and further arguments never turn the mode
    off. *)
Theorem claude_flag_is_found_among_arguments (argv : list string) :
  (StorageConfig.useGlobalDirectory (StorageConfig.parseCommandLineArgs argv) = true
   <-> In "--claude" (skipn 2 argv))
  /\ (forall runtime script before after,
        StorageConfig.useGlobalDirectory
          (StorageConfig.parseCommandLineArgs
             (runtime :: script :: before ++ "--claude" :: after)) = true)
  /\ (forall runtime script,
        StorageConfig.useGlobalDirectory
          (StorageConfig.parseCommandLineArgs [runtime; script]) = false)
  /\ (forall more,
        StorageConfig.useGlobalDirectory (StorageConfig.parseCommandLineArgs argv) = true ->
        StorageConfig.useGlobalDirectory
          (StorageConfig.parseCommandLineArgs (argv ++ more)) = true).
Proof.
  unfold StorageConfig.parseCommandLineArgs. cbn zeta.
  cbn [StorageConfig.useGlobalDirectory].
  split; [apply arrayIncludes_In |]. split; [| split].
  - intros runtime script before after. cbn [skipn].
    apply arrayIncludes_In. apply in_or_app. right. left. reflexivity.
  - intros runtime script. reflexivity.
  - intros more Hon. apply arrayIncludes_In in Hon. apply arrayIncludes_In.
    rewrite skipn_app. apply in_or_app. left. exact Hon.
Qed.

(** X20: resolveWorkingDirectory throws exactly when the global mode is off
    and the provided path is missing or empty, and then with the message
    "workingDirectory is required when not using --claude flag"; in global
    mode the result is the global directory whatever path is provided;
    otherwise a non-empty path is returned unchanged.  A resolved directory
    resolves to itself, and the call without a path succeeds exactly when
    isWorkingDirectoryOptional says the parameter is optional. *)
Theorem working_directory_resolution {paths : StorageConfig.Paths}
    (providedPath : option string) (config : StorageConfig.StorageConfig) :
  ((exists e, StorageConfig.resolveWorkingDirectory providedPath config = inl e)
   <-> StorageConfig.useGlobalDirectory config = false
       /\ truthyString providedPath = None)
  /\ (forall e, StorageConfig.resolveWorkingDirectory providedPath config = inl e ->
        e = ThrownError "workingDirectory is required when not using --claude flag")
  /\ (StorageConfig.useGlobalDirectory config = true ->
      StorageConfig.resolveWorkingDirectory providedPath config
      = inr (StorageConfig.join StorageConfig.homedir ".agentic-tools-mcp"))
  /\ (forall path,
        StorageConfig.useGlobalDirectory config = false ->
        truthyString providedPath = Some path ->
        StorageConfig.resolveWorkingDirectory providedPath config = inr path
        /\ providedPath = Some path)
  /\ (forall dir,
        StorageConfig.resolveWorkingDirectory providedPath config = inr dir ->
        StorageConfig.resolveWorkingDirectory (Some dir) config = inr dir)
  /\ ((exists dir, StorageConfig.resolveWorkingDirectory None config = inr dir)
      <-> StorageConfig.isWorkingDirectoryOptional config = true).
Proof.
  unfold StorageConfig.resolveWorkingDirectory, StorageConfig.isWorkingDirectoryOptional,
    StorageConfig.getGlobalStorageDirectory.
  cbn zeta.
  destruct (StorageConfig.useGlobalDirectory config) eqn:Hglobal.
  - split; [| split; [| split; [| split; [| split]]]].
    + split; [intros [e He]; discriminate He | intros [Hoff _]; discriminate Hoff].
    + intros e He. discriminate He.
    + reflexivity.
    + intros path Hoff. discriminate Hoff.
    + intros dir Hdir. exact Hdir.
    + split; [reflexivity | intros _; eexists; reflexivity].
  - split; [| split; [| split; [| split; [| split]]]].
    + destruct (truthyString providedPath) as [path |].
      * split; [intros [e He]; discriminate He | intros [_ Hnone]; discriminate Hnone].
      * split; [intros _; split; reflexivity | intros _; eexists; reflexivity].
    + intros e. destruct (truthyString providedPath); intros He;
        [discriminate He | injection He as <-; reflexivity].
    + intros Hon. discriminate Hon.
    + intros path _ Hpath. rewrite Hpath. split; [reflexivity |].
      destruct providedPath as [[| c p] |]; cbn in Hpath; congruence.
    + intros dir Hdir.
      destruct providedPath as [[| c p] |]; cbn in Hdir; try discriminate Hdir.
      injection Hdir as <-. reflexivity.
    + split; [intros [dir Hdir]; discriminate Hdir | discriminate].
Qed.

Lemma working_directory_resolution_witness :
  StorageConfig.resolveWorkingDirectory (paths := StorageConfig.posixPaths)
    (Some "/srv/data") (StorageConfig.parseCommandLineArgs StorageConfig.plainArgv)
  = inr "/srv/data"
  /\ Some "/srv/data" = Some "/srv/data".
Proof.
  apply (proj1 (proj2 (proj2 (proj2
           (working_directory_resolution (paths := StorageConfig.posixPaths)
              (Some "/srv/data")
              (StorageConfig.parseCommandLineArgs StorageConfig.plainArgv))))));
    reflexivity.
Defined.

(** X21: started with "--claude" among its arguments, the server resolves
    every working directory to the global one, with or without a provided
    path and without ever throwing, announces the parameter as ignored and
    marks it optional; started without it, the parameter is required, the
    description asks for an absolute path, and a call without a path is the
    only one that throws. *)
Theorem claude_flag_decides_the_directory {paths : StorageConfig.Paths}
    (argv : list string) (providedPath : option string) :
  let config := StorageConfig.parseCommandLineArgs argv in
  (In "--claude" (skipn 2 argv) ->
   StorageConfig.resolveWorkingDirectory providedPath config
   = inr (StorageConfig.join StorageConfig.homedir ".agentic-tools-mcp")
   /\ StorageConfig.getWorkingDirectoryDescription config
      = StorageConfig.ignoredDescription
   /\ StorageConfig.isWorkingDirectoryOptional config = true)
  /\ (~ In "--claude" (skipn 2 argv) ->
      StorageConfig.resolveWorkingDirectory providedPath config
      = match truthyString providedPath with
        | Some path => inr path
        | None => inl (ThrownError StorageConfig.missingDirectoryMessage)
        end
      /\ StorageConfig.getWorkingDirectoryDescription config
         = StorageConfig.absolutePathDescription
      /\ StorageConfig.isWorkingDirectoryOptional config = false).
Proof.
  cbn zeta.
  unfold StorageConfig.resolveWorkingDirectory,
    StorageConfig.getWorkingDirectoryDescription,
    StorageConfig.isWorkingDirectoryOptional, StorageConfig.parseCommandLineArgs,
    StorageConfig.getGlobalStorageDirectory.
  cbn zeta. cbn [StorageConfig.useGlobalDirectory].
  split.
  - intros Hflag. apply arrayIncludes_In in Hflag. rewrite Hflag.
    repeat split; reflexivity.
  - intros Hnone.
    destruct (StorageConfig.arrayIncludes (skipn 2 argv) "--claude") eqn:Hinc.
    + exfalso. apply Hnone. apply arrayIncludes_In. exact Hinc.
    + repeat split; reflexivity.
Qed.

Example storage_configuration_samples :
  StorageConfig.resolveWorkingDirectory (paths := StorageConfig.posixPaths) None
    (StorageConfig.parseCommandLineArgs StorageConfig.claudeArgv)
  = inr "/home/user/.agentic-tools-mcp"
  /\ StorageConfig.resolveWorkingDirectory (paths := StorageConfig.posixPaths)
       (Some EmptyString)
       (StorageConfig.parseCommandLineArgs StorageConfig.plainArgv)
     = inl (ThrownError "workingDirectory is required when not using --claude flag")
  /\ StorageConfig.useGlobalDirectory
       (StorageConfig.parseCommandLineArgs ["--claude"; "--claude"]) = false.
Proof. repeat split; reflexivity. Qed.

(** * The list_memories tool *)

Lemma trimStart_length (s : string) :
  (String.length (ListMemories.trimStart s) <= String.length s)%nat.
Proof.
  induction s as [| c s IH]; [apply Nat.le_refl |].
  cbn [ListMemories.trimStart]. destruct (ListMemories.isWhiteSpace c);
    cbn [String.length]; lia.
Qed.

Lemma trimEnd_length (s : string) :
  (String.length (ListMemories.trimEnd s) <= String.length s)%nat.
Proof.
  induction s as [| c s IH]; [apply Nat.le_refl |].
  cbn [ListMemories.trimEnd].
  destruct (ListMemories.trimEnd s) as [| c' r].
  - destruct (ListMemories.isWhiteSpace c); cbn [String.length] in *; lia.
  - cbn [String.length] in *. lia.
Qed.

Lemma trim_length (s : string) :
  (String.length (ListMemories.trim s) <= String.length s)%nat.
Proof.
  unfold ListMemories.trim.
  apply Nat.le_trans with (String.length (ListMemories.trimStart s));
    [apply trimEnd_length | apply trimStart_length].
Qed.

Section ListMemoriesRuns.
Context {fmt : NumberFormat} {dates : ListMemories.Dates}.
Context {St : Type} (w : ListMemories.World St).

Lemma listMemories_run_tryCatch {A} (p : ListMemories.Prog A)
    (h : Thrown -> ListMemories.Prog A) (s : St) :
  ListMemories.run w (ListMemories.tryCatch p h) s
  = match ListMemories.result (ListMemories.run w p s) with
    | inl e =>
        let o := ListMemories.run w (h e) (ListMemories.final (ListMemories.run w p s)) in
        ListMemories.mkOutcome (ListMemories.result o) (ListMemories.final o)
          (ListMemories.trace (ListMemories.run w p s) ++ ListMemories.trace o)
    | inr a =>
        ListMemories.mkOutcome (inr a)
          (ListMemories.final (ListMemories.run w p s))
          (ListMemories.trace (ListMemories.run w p s))
    end.
Proof.
  revert s. induction p as [a | e | X c k IH]; intros s;
    cbn [ListMemories.tryCatch ListMemories.run].
  - reflexivity.
  - cbn. destruct (ListMemories.run w (h e) s); reflexivity.
  - destruct (ListMemories.answer w c s) as [r s']. cbn zeta. rewrite IH.
    destruct (ListMemories.result (ListMemories.run w (k r) s')); reflexivity.
Qed.

(** The runs of the body, case by case. *)
Lemma listMemories_body_run (input : ListMemories.Input) (s : St) :
  let limit := match ListMemories.inLimit input with Some l => l | None => 50 end in
  let category := ListMemories.inCategory input in
  let lookup :=
    ListMemories.GetMemories None (option_map ListMemories.trim category) limit in
  ListMemories.run w (ListMemories.handlerBody input) s
  = if negb (Qle_bool 1 limit) || gtb limit 1000
    then ListMemories.mkOutcome (inr ListMemories.limitError) s []
    else if ListMemories.categoryTooLong category
    then ListMemories.mkOutcome (inr ListMemories.categoryError) s []
    else
      match ListMemories.answer w lookup s with
      | (inl e, s1) => ListMemories.mkOutcome (inl e) s1 [ListMemories.request lookup]
      | (inr memories, s1) =>
          if Nat.eqb (List.length memories) 0
          then ListMemories.mkOutcome (inr (ListMemories.emptyResponse category)) s1
                 [ListMemories.request lookup]
          else
            match ListMemories.answer w ListMemories.GetStatistics s1 with
            | (inl e, s2) =>
                ListMemories.mkOutcome (inl e) s2
                  [ListMemories.request lookup;
                   ListMemories.request ListMemories.GetStatistics]
            | (inr stats, s2) =>
                ListMemories.mkOutcome
                  (inr (ListMemories.listingResponse category limit memories stats))
                  s2
                  [ListMemories.request lookup;
                   ListMemories.request ListMemories.GetStatistics]
            end
      end.
Proof.
  cbn zeta. unfold ListMemories.handlerBody. cbn zeta.
  destruct (negb (Qle_bool 1 _) || gtb _ 1000); [reflexivity |].
  destruct (ListMemories.categoryTooLong (ListMemories.inCategory input));
    [reflexivity |].
  cbn [ListMemories.await ListMemories.bind ListMemories.run].
  destruct (ListMemories.answer w _ s) as [[e | memories] s1];
    cbn [ListMemories.bind ListMemories.run ListMemories.result ListMemories.final
         ListMemories.trace]; [reflexivity |].
  destruct (Nat.eqb (List.length memories) 0);
    cbn [ListMemories.await ListMemories.bind ListMemories.run ListMemories.result
         ListMemories.final ListMemories.trace]; [reflexivity |].
  destruct (ListMemories.answer w ListMemories.GetStatistics s1) as [[e | stats] s2];
    reflexivity.
Qed.

End ListMemoriesRuns.

Section ListMemoriesFacts.
Context {fmt : NumberFormat} {dates : ListMemories.Dates}.
Context {St : Type} (w : ListMemories.World St).

(** The run of the whole handler, from the run of its body. *)
Lemma listMemories_handler_run (input : ListMemories.Input) (s : St) :
  ListMemories.run w (ListMemories.handler input) s
  = match ListMemories.result (ListMemories.run w (ListMemories.handlerBody input) s) with
    | inl e =>
        ListMemories.mkOutcome (inr (ListMemories.caughtResponse e))
          (ListMemories.final (ListMemories.run w (ListMemories.handlerBody input) s))
          (ListMemories.trace (ListMemories.run w (ListMemories.handlerBody input) s))
    | inr response =>
        ListMemories.mkOutcome (inr response)
          (ListMemories.final (ListMemories.run w (ListMemories.handlerBody input) s))
          (ListMemories.trace (ListMemories.run w (ListMemories.handlerBody input) s))
    end.
Proof.
  unfold ListMemories.handler. rewrite listMemories_run_tryCatch.
  destruct (ListMemories.result (ListMemories.run w (ListMemories.handlerBody input) s));
    [| reflexivity].
  cbn. rewrite app_nil_r. reflexivity.
Qed.

End ListMemoriesFacts.

(** X22: list_memories checks the limit before anything else.  With a limit
    below 1 or above 1000 the response is the error "Limit must be between 1
    and 1000", flagged as an error, whatever the category is, and storage is
    not asked anything; without a limit the default 50 is used. *)
Theorem list_memories_rejects_bad_limit {fmt : NumberFormat}
    {dates : ListMemories.Dates} {St : Type} (w : ListMemories.World St) (s : St)
    (input : ListMemories.Input) (l : number) :
  ListMemories.inLimit input = Some l ->
  l < 1 \/ 1000 < l ->
  ListMemories.run w (ListMemories.handler input) s
  = ListMemories.mkOutcome (inr ListMemories.limitError) s []
  /\ ListMemories.responseIsError ListMemories.limitError = Some true
  /\ ListMemories.handler
       {| ListMemories.inCategory := ListMemories.inCategory input;
          ListMemories.inLimit := None |}
     = ListMemories.handler
         {| ListMemories.inCategory := ListMemories.inCategory input;
            ListMemories.inLimit := Some 50 |}.
Proof.
  intros Hl Hbad. split; [| split; reflexivity].
  rewrite listMemories_handler_run.
  pose proof (listMemories_body_run w input s) as Hbody. cbn zeta in Hbody.
  rewrite Hl in Hbody.
  assert (negb (Qle_bool 1 l) || gtb l 1000 = true) as Hcheck.
  { unfold gtb. apply orb_true_iff. destruct Hbad as [Hlow | Hhigh].
    - left. apply negb_true_iff. destruct (Qle_bool 1 l) eqn:E; [| reflexivity].
      apply Qle_bool_iff in E. lra.
    - right. apply negb_true_iff. destruct (Qle_bool l 1000) eqn:E; [| reflexivity].
      apply Qle_bool_iff in E. lra. }
  rewrite Hcheck in Hbody. rewrite Hbody. reflexivity.
Qed.

Lemma list_memories_rejects_bad_limit_witness :
  ListMemories.run ListMemories.memoryStore
    (ListMemories.handler (fmt := integerFormat) (dates := ListMemories.dayDates)
       {| ListMemories.inCategory := Some "work"; ListMemories.inLimit := Some 0 |})
    ListMemories.sampleMemories
  = ListMemories.mkOutcome (inr ListMemories.limitError) ListMemories.sampleMemories [].
Proof.
  refine (proj1 (list_memories_rejects_bad_limit (fmt := integerFormat)
                   (dates := ListMemories.dayDates) ListMemories.memoryStore
                   ListMemories.sampleMemories
                   {| ListMemories.inCategory := Some "work";
                      ListMemories.inLimit := Some 0 |} 0 eq_refl _)).
  left. reflexivity.
Defined.

Lemma valid_limit_passes (l : number) :
  1 <= l -> l <= 1000 -> negb (Qle_bool 1 l) || gtb l 1000 = false.
Proof.
  intros Hlow Hhigh. unfold gtb.
  apply Qle_bool_iff in Hlow. apply Qle_bool_iff in Hhigh.
  rewrite Hlow, Hhigh. reflexivity.
Qed.

(** X23: with a valid limit, a category whose trimmed text is longer than
    100 characters is refused with "Category must be 100 characters or
    less" and storage is not asked anything; surrounding white space does
    not count, so every category of at most 100 characters is accepted, and
    storage is then asked for the trimmed category with the given limit. *)
Theorem list_memories_checks_trimmed_category {fmt : NumberFormat}
    {dates : ListMemories.Dates} {St : Type} (w : ListMemories.World St) (s : St)
    (c : string) (l : number) :
  1 <= l -> l <= 1000 -> c <> EmptyString ->
  let input :=
    {| ListMemories.inCategory := Some c; ListMemories.inLimit := Some l |} in
  ((100 < String.length (ListMemories.trim c))%nat ->
   ListMemories.run w (ListMemories.handler input) s
   = ListMemories.mkOutcome (inr ListMemories.categoryError) s [])
  /\ ((String.length (ListMemories.trim c) <= 100)%nat ->
      exists rest,
        ListMemories.trace (ListMemories.run w (ListMemories.handler input) s)
        = ListMemories.request
            (ListMemories.GetMemories None (Some (ListMemories.trim c)) l) :: rest)
  /\ ((String.length c <= 100)%nat -> (String.length (ListMemories.trim c) <= 100)%nat).
Proof.
  intros Hlow Hhigh Hne. cbn zeta.
  assert (truthyString (Some c) = Some c) as Htruthy.
  { destruct c; [contradiction | reflexivity]. }
  split; [| split].
  - intros Hlong. rewrite listMemories_handler_run.
    pose proof (listMemories_body_run w
                  {| ListMemories.inCategory := Some c; ListMemories.inLimit := Some l |}
                  s) as Hbody.
    cbn zeta in Hbody. cbn [ListMemories.inLimit ListMemories.inCategory] in Hbody.
    rewrite (valid_limit_passes l Hlow Hhigh) in Hbody.
    unfold ListMemories.categoryTooLong in Hbody. rewrite Htruthy in Hbody.
    apply Nat.ltb_lt in Hlong. rewrite Hlong in Hbody. rewrite Hbody. reflexivity.
  - intros Hshort. rewrite listMemories_handler_run.
    pose proof (listMemories_body_run w
                  {| ListMemories.inCategory := Some c; ListMemories.inLimit := Some l |}
                  s) as Hbody.
    cbn zeta in Hbody.
    cbn [ListMemories.inLimit ListMemories.inCategory option_map] in Hbody.
    rewrite (valid_limit_passes l Hlow Hhigh) in Hbody.
    unfold ListMemories.categoryTooLong in Hbody. rewrite Htruthy in Hbody.
    assert (Nat.ltb 100 (String.length (ListMemories.trim c)) = false) as Hok
      by (apply Nat.ltb_ge; exact Hshort).
    rewrite Hok in Hbody. rewrite Hbody.
    destruct (ListMemories.answer w _ s) as [[e | memories] s1].
    + eexists. reflexivity.
    + destruct (Nat.eqb (List.length memories) 0); [eexists; reflexivity |].
      destruct (ListMemories.answer w ListMemories.GetStatistics s1)
        as [[e | stats] s2]; eexists; reflexivity.
  - intros Hshort. pose proof (trim_length c). lia.
Qed.

Lemma list_memories_checks_trimmed_category_witness :
  exists rest,
    ListMemories.trace
      (ListMemories.run ListMemories.memoryStore
         (ListMemories.handler (fmt := integerFormat) (dates := ListMemories.dayDates)
            {| ListMemories.inCategory := Some "  work  ";
               ListMemories.inLimit := Some 10 |})
         ListMemories.sampleMemories)
    = ListMemories.request (ListMemories.GetMemories None (Some "work") 10) :: rest.
Proof.
  refine (proj1 (proj2 (list_memories_checks_trimmed_category (fmt := integerFormat)
                          (dates := ListMemories.dayDates) ListMemories.memoryStore
                          ListMemories.sampleMemories "  work  " 10 _ _ _)) _).
  - discriminate.
  - discriminate.
  - discriminate.
  - apply Nat.leb_le. reflexivity.
Defined.

(** X24: list_memories never lets an exception through and keeps to one
    protocol with storage: a run makes no request, or one getMemories, or
    one getMemories followed by one getStatistics; whatever storage throws
    becomes the error-flagged text "Error listing memories: " followed by
    the message, or by "Unknown error" when the thrown value has none. *)
Theorem list_memories_never_throws {fmt : NumberFormat}
    {dates : ListMemories.Dates} {St : Type} (w : ListMemories.World St) (s : St)
    (input : ListMemories.Input) :
  let o := ListMemories.run w (ListMemories.handler input) s in
  (exists response, ListMemories.result o = inr response)
  /\ (ListMemories.trace o = []
      \/ (exists cat l,
            ListMemories.trace o
            = [ListMemories.request (ListMemories.GetMemories None cat l)])
      \/ (exists cat l,
            ListMemories.trace o
            = [ListMemories.request (ListMemories.GetMemories None cat l);
               ListMemories.request ListMemories.GetStatistics]))
  /\ (forall e,
        ListMemories.result (ListMemories.run w (ListMemories.handlerBody input) s)
        = inl e ->
        ListMemories.result o = inr (ListMemories.caughtResponse e)
        /\ ListMemories.responseIsError (ListMemories.caughtResponse e) = Some true
        /\ map text (ListMemories.responseContent (ListMemories.caughtResponse e))
           = [ "Error listing memories: "
                 ++ match e with
                    | ThrownError message => message
                    | ThrownOther => "Unknown error"
                    end ]).
Proof.
  cbn zeta. rewrite listMemories_handler_run. split; [| split].
  - destruct (ListMemories.result
                (ListMemories.run w (ListMemories.handlerBody input) s));
      eexists; reflexivity.
  - assert (forall (r : Thrown + ListMemories.Response) f tr,
              ListMemories.trace
                (match r with
                 | inl e => ListMemories.mkOutcome (St := St)
                              (inr (ListMemories.caughtResponse e)) f tr
                 | inr response => ListMemories.mkOutcome (inr response) f tr
                 end) = tr) as Htrace
      by (intros [e | response] f tr; reflexivity).
    rewrite Htrace. rewrite (listMemories_body_run w input s). cbn zeta.
    destruct (negb (Qle_bool 1 _) || gtb _ 1000); [left; reflexivity |].
    destruct (ListMemories.categoryTooLong _); [left; reflexivity |].
    destruct (ListMemories.answer w _ s) as [[e | memories] s1].
    + right. left. do 2 eexists. reflexivity.
    + destruct (Nat.eqb (List.length memories) 0).
      * right. left. do 2 eexists. reflexivity.
      * right. right.
        destruct (ListMemories.answer w ListMemories.GetStatistics s1)
          as [[e | stats] s2]; do 2 eexists; reflexivity.
  - intros e Hthrown. rewrite Hthrown. cbn [ListMemories.result].
    split; [reflexivity |]. split; [reflexivity |]. destruct e; reflexivity.
Qed.

(** X25: when storage finds no memory the tool answers "No memories
    found." with the filter it was given (the category as typed, or "None"),
    recommends create_memory, raises no error flag and does not ask for the
    statistics. *)
Theorem list_memories_reports_empty_result {fmt : NumberFormat}
    {dates : ListMemories.Dates} {St : Type} (w : ListMemories.World St) (s : St)
    (input : ListMemories.Input) :
  let limit := match ListMemories.inLimit input with Some l => l | None => 50 end in
  let lookup :=
    ListMemories.GetMemories None
      (option_map ListMemories.trim (ListMemories.inCategory input)) limit in
  1 <= limit -> limit <= 1000 ->
  ListMemories.categoryTooLong (ListMemories.inCategory input) = false ->
  fst (ListMemories.answer w lookup s) = inr [] ->
  ListMemories.result (ListMemories.run w (ListMemories.handler input) s)
  = inr (ListMemories.emptyResponse (ListMemories.inCategory input))
  /\ ListMemories.trace (ListMemories.run w (ListMemories.handler input) s)
     = [ListMemories.request lookup]
  /\ ListMemories.recommendedNextStep
       (ListMemories.emptyResponse (ListMemories.inCategory input))
     = Some "create_memory"
  /\ ListMemories.responseIsError
       (ListMemories.emptyResponse (ListMemories.inCategory input)) = None
  /\ (forall c, ListMemories.inCategory input = Some c -> c <> EmptyString ->
        ListMemories.filtersText (ListMemories.inCategory input) = "Category: " ++ c)
  /\ (truthyString (ListMemories.inCategory input) = None ->
      ListMemories.filtersText (ListMemories.inCategory input) = "None").
Proof.
  cbn zeta. intros Hlow Hhigh Hcat Hempty.
  rewrite listMemories_handler_run, (listMemories_body_run w input s). cbn zeta.
  rewrite (valid_limit_passes _ Hlow Hhigh), Hcat.
  destruct (ListMemories.answer w _ s) as [r s1]. cbn [fst] in Hempty. subst r.
  cbn [List.length Nat.eqb ListMemories.result ListMemories.trace].
  split; [reflexivity |]. split; [reflexivity |]. split; [reflexivity |].
  split; [reflexivity |]. split.
  - intros c Hc Hne. rewrite Hc. unfold ListMemories.filtersText.
    destruct c as [| x c]; [contradiction | reflexivity].
  - intros Hnone. unfold ListMemories.filtersText. rewrite Hnone. reflexivity.
Qed.

Lemma list_memories_reports_empty_result_witness :
  ListMemories.result
    (ListMemories.run ListMemories.memoryStore
       (ListMemories.handler (fmt := integerFormat) (dates := ListMemories.dayDates)
          {| ListMemories.inCategory := Some " travel "; ListMemories.inLimit := None |})
       ListMemories.sampleMemories)
  = inr (ListMemories.emptyResponse (Some " travel "))
  /\ ListMemories.trace
       (ListMemories.run ListMemories.memoryStore
          (ListMemories.handler (fmt := integerFormat) (dates := ListMemories.dayDates)
             {| ListMemories.inCategory := Some " travel ";
                ListMemories.inLimit := None |})
          ListMemories.sampleMemories)
     = [ListMemories.request (ListMemories.GetMemories None (Some "travel") 50)].
Proof.
  destruct (list_memories_reports_empty_result (fmt := integerFormat)
              (dates := ListMemories.dayDates) ListMemories.memoryStore
              ListMemories.sampleMemories
              {| ListMemories.inCategory := Some " travel ";
                 ListMemories.inLimit := None |})
    as (Hres & Htrace & _); try reflexivity; try discriminate.
  split; [exact Hres | exact Htrace].
Defined.

Section SortFacts.
Context {dates : ListMemories.Dates}.

Lemma getTime_timeOf (m : ListMemories.Memory) :
  ListMemories.parses m ->
  ListMemories.getTime (ListMemories.createdAt m) = Some (ListMemories.timeOf m).
Proof.
  unfold ListMemories.parses, ListMemories.timeOf.
  destruct (ListMemories.getTime (ListMemories.createdAt m));
    [reflexivity | contradiction].
Qed.

Lemma sortCompare_parsed (m x : ListMemories.Memory) :
  ListMemories.parses m -> ListMemories.parses x ->
  ListMemories.sortCompare m x = ListMemories.timeOf x - ListMemories.timeOf m.
Proof.
  intros Hm Hx. unfold ListMemories.sortCompare, ListMemories.compareNewestFirst.
  rewrite (getTime_timeOf m Hm), (getTime_timeOf x Hx). reflexivity.
Qed.

Lemma newerOrSame_timeOf (a b : ListMemories.Memory) :
  ListMemories.newerOrSame a b
  <-> ListMemories.parses a /\ ListMemories.parses b /\ ListMemories.olderOrSameTime a b.
Proof.
  unfold ListMemories.newerOrSame, ListMemories.parses, ListMemories.olderOrSameTime,
    ListMemories.timeOf.
  destruct (ListMemories.getTime (ListMemories.createdAt a)) as [ta |];
    destruct (ListMemories.getTime (ListMemories.createdAt b)) as [tb |].
  - split.
    + intros Hle. split; [discriminate |]. split; [discriminate | exact Hle].
    + intros (_ & _ & Hle). exact Hle.
  - split; [contradiction |]. intros (_ & Hb & _). apply Hb. reflexivity.
  - split; [contradiction |]. intros (Ha & _). apply Ha. reflexivity.
  - split; [contradiction |]. intros (Ha & _). apply Ha. reflexivity.
Qed.

Lemma createdAtTime_parsed (t : number) (l : list ListMemories.Memory) :
  Forall ListMemories.parses l ->
  filter (ListMemories.createdAtTime t) l = filter (ListMemories.sameTime t) l.
Proof.
  intros Hall. apply filter_ext_in. intros m Hin.
  rewrite Forall_forall in Hall. specialize (Hall m Hin).
  unfold ListMemories.createdAtTime, ListMemories.sameTime. rewrite (getTime_timeOf m Hall).
  reflexivity.
Qed.

Lemma insertSorted_perm (m : ListMemories.Memory) (l : list ListMemories.Memory) :
  Permutation (m :: l) (ListMemories.insertSorted m l).
Proof.
  induction l as [| x l IH]; [apply Permutation_refl |].
  cbn [ListMemories.insertSorted].
  destruct (gtb (ListMemories.sortCompare m x) 0); [| apply Permutation_refl].
  apply perm_trans with (x :: m :: l); [apply perm_swap |].
  apply perm_skip. exact IH.
Qed.

Lemma sortMemories_perm (memories : list ListMemories.Memory) :
  Permutation memories (ListMemories.sortMemories memories).
Proof.
  induction memories as [| m l IH]; [apply perm_nil |].
  cbn [ListMemories.sortMemories fold_right].
  fold (ListMemories.sortMemories l).
  apply perm_trans with (m :: ListMemories.sortMemories l);
    [apply perm_skip; exact IH | apply insertSorted_perm].
Qed.

Lemma insertSorted_sorted (m : ListMemories.Memory) (l : list ListMemories.Memory) :
  ListMemories.parses m -> Forall ListMemories.parses l ->
  StronglySorted ListMemories.olderOrSameTime l ->
  StronglySorted ListMemories.olderOrSameTime (ListMemories.insertSorted m l).
Proof.
  intros Hm. induction l as [| x l IH]; intros Hall Hsorted.
  - cbn. constructor; [constructor | constructor].
  - cbn [ListMemories.insertSorted].
    inversion Hsorted as [| ? ? Hrest Hbelow]; subst.
    inversion Hall as [| ? ? Hx Hl]; subst.
    rewrite (sortCompare_parsed m x Hm Hx). unfold gtb.
    destruct (Qle_bool (ListMemories.timeOf x - ListMemories.timeOf m) 0) eqn:Hcmp;
      cbn [negb].
    + apply Qle_bool_iff in Hcmp.
      constructor; [exact Hsorted |].
      constructor; [unfold ListMemories.olderOrSameTime; lra |].
      apply Forall_forall. intros y Hy.
      rewrite Forall_forall in Hbelow. specialize (Hbelow y Hy).
      unfold ListMemories.olderOrSameTime in *. lra.
    + assert (ListMemories.olderOrSameTime x m) as Hxm.
      { unfold ListMemories.olderOrSameTime.
        destruct (Qlt_le_dec 0 (ListMemories.timeOf x - ListMemories.timeOf m))
          as [Hlt | Hle]; [lra |].
        apply Qle_bool_iff in Hle. congruence. }
      constructor; [apply IH; assumption |].
      apply Forall_forall. intros y Hy.
      apply (Permutation_in _ (Permutation_sym (insertSorted_perm m l))) in Hy.
      destruct Hy as [<- | Hy]; [exact Hxm |].
      rewrite Forall_forall in Hbelow. exact (Hbelow y Hy).
Qed.

Lemma sortMemories_sorted (memories : list ListMemories.Memory) :
  Forall ListMemories.parses memories ->
  StronglySorted ListMemories.olderOrSameTime (ListMemories.sortMemories memories).
Proof.
  induction memories as [| m l IH]; intros Hall; [constructor |].
  inversion Hall as [| ? ? Hm Hl]; subst.
  cbn [ListMemories.sortMemories fold_right].
  fold (ListMemories.sortMemories l).
  apply insertSorted_sorted; [exact Hm | | apply IH; exact Hl].
  apply (Permutation_Forall (sortMemories_perm l)). exact Hl.
Qed.

Lemma insertSorted_stable (t : number) (m : ListMemories.Memory)
    (l : list ListMemories.Memory) :
  ListMemories.parses m -> Forall ListMemories.parses l ->
  filter (ListMemories.sameTime t) (ListMemories.insertSorted m l) = filter (ListMemories.sameTime t) (m :: l).
Proof.
  intros Hm. induction l as [| x l IH]; intros Hall; [reflexivity |].
  inversion Hall as [| ? ? Hx Hl]; subst.
  cbn [ListMemories.insertSorted].
  rewrite (sortCompare_parsed m x Hm Hx). unfold gtb.
  destruct (Qle_bool (ListMemories.timeOf x - ListMemories.timeOf m) 0) eqn:Hcmp;
    cbn [negb]; [reflexivity |].
  cbn [filter] in *. rewrite (IH Hl).
  destruct (ListMemories.sameTime t x) eqn:Ex; [| reflexivity].
  destruct (ListMemories.sameTime t m) eqn:Em; [| reflexivity].
  exfalso. unfold ListMemories.sameTime in Ex, Em.
  apply Qeq_bool_eq in Ex. apply Qeq_bool_eq in Em.
  assert (Qle_bool (ListMemories.timeOf x - ListMemories.timeOf m) 0 = true) as Hle.
  { apply Qle_bool_iff. lra. }
  congruence.
Qed.

Lemma sortMemories_stable (t : number) (memories : list ListMemories.Memory) :
  Forall ListMemories.parses memories ->
  filter (ListMemories.sameTime t) (ListMemories.sortMemories memories)
  = filter (ListMemories.sameTime t) memories.
Proof.
  induction memories as [| m l IH]; intros Hall; [reflexivity |].
  inversion Hall as [| ? ? Hm Hl]; subst.
  cbn [ListMemories.sortMemories fold_right].
  fold (ListMemories.sortMemories l).
  rewrite insertSorted_stable;
    [| exact Hm | apply (Permutation_Forall (sortMemories_perm l)); exact Hl].
  cbn [filter]. rewrite (IH Hl). reflexivity.
Qed.

(** Two lists with the same elements, both newest first and with the same
    order among the memories of each time, are equal. *)
Lemma stable_sorted_unique (l1 l2 : list ListMemories.Memory) :
  Permutation l1 l2 ->
  StronglySorted ListMemories.olderOrSameTime l1 ->
  StronglySorted ListMemories.olderOrSameTime l2 ->
  (forall t, filter (ListMemories.sameTime t) l1 = filter (ListMemories.sameTime t) l2) ->
  l1 = l2.
Proof.
  revert l2. induction l1 as [| a l1 IH]; intros l2 Hperm Hs1 Hs2 Hties.
  - apply Permutation_nil in Hperm. symmetry. exact Hperm.
  - destruct l2 as [| b l2].
    + apply Permutation_sym, Permutation_nil in Hperm. discriminate Hperm.
    + inversion Hs1 as [| ? ? Hs1' Hbelow1]; subst.
      inversion Hs2 as [| ? ? Hs2' Hbelow2]; subst.
      rewrite Forall_forall in Hbelow1, Hbelow2.
      assert (ListMemories.timeOf b <= ListMemories.timeOf a) as Hba.
      { assert (In b (a :: l1)) as Hin
          by (apply (Permutation_in _ (Permutation_sym Hperm)); left; reflexivity).
        destruct Hin as [<- | Hin]; [apply Qle_refl | exact (Hbelow1 b Hin)]. }
      assert (ListMemories.timeOf a <= ListMemories.timeOf b) as Hab.
      { assert (In a (b :: l2)) as Hin
          by (apply (Permutation_in _ Hperm); left; reflexivity).
        destruct Hin as [<- | Hin]; [apply Qle_refl | exact (Hbelow2 a Hin)]. }
      assert (a = b) as Heq.
      { pose proof (Hties (ListMemories.timeOf a)) as Htie. cbn [filter] in Htie.
        assert (ListMemories.sameTime (ListMemories.timeOf a) a = true) as Ea
          by (unfold ListMemories.sameTime; apply Qeq_eq_bool; reflexivity).
        assert (ListMemories.sameTime (ListMemories.timeOf a) b = true) as Eb
          by (unfold ListMemories.sameTime; apply Qeq_eq_bool; lra).
        rewrite Ea, Eb in Htie. injection Htie as Hhead _. exact Hhead. }
      subst b. f_equal. apply IH.
      * exact (Permutation_cons_inv Hperm).
      * exact Hs1'.
      * exact Hs2'.
      * intros t. pose proof (Hties t) as Htie. cbn [filter] in Htie.
        destruct (ListMemories.sameTime t a); [injection Htie as Htie |]; exact Htie.
Qed.

Lemma sorted_by_time_is_newest_first (l : list ListMemories.Memory) :
  Forall ListMemories.parses l ->
  (StronglySorted ListMemories.olderOrSameTime l <-> StronglySorted ListMemories.newerOrSame l).
Proof.
  intros Hall. induction l as [| a l IH]; [split; constructor |].
  inversion Hall as [| ? ? Ha Hl]; subst. specialize (IH Hl).
  rewrite Forall_forall in Hl.
  split; intros Hsorted; inversion Hsorted as [| ? ? Hrest Hbelow]; subst;
    (constructor; [apply IH; exact Hrest |]);
    apply Forall_forall; intros y Hy; rewrite Forall_forall in Hbelow;
    specialize (Hbelow y Hy).
  - apply newerOrSame_timeOf. split; [exact Ha |]. split; [exact (Hl y Hy) |].
    exact Hbelow.
  - apply newerOrSame_timeOf in Hbelow. exact (proj2 (proj2 Hbelow)).
Qed.

(** The facts about the sort, for memories whose dates all parse. *)
Lemma sort_facts (memories : list ListMemories.Memory) :
  (forall m, In m memories ->
             ListMemories.getTime (ListMemories.createdAt m) <> None) ->
  Permutation memories (ListMemories.sortMemories memories)
  /\ StronglySorted ListMemories.newerOrSame (ListMemories.sortMemories memories)
  /\ (forall t,
        filter (ListMemories.createdAtTime t) (ListMemories.sortMemories memories)
        = filter (ListMemories.createdAtTime t) memories)
  /\ (forall l',
        Permutation memories l' ->
        StronglySorted ListMemories.newerOrSame l' ->
        (forall t, filter (ListMemories.createdAtTime t) l'
                   = filter (ListMemories.createdAtTime t) memories) ->
        l' = ListMemories.sortMemories memories).
Proof.
  intros Hparse.
  assert (Forall ListMemories.parses memories) as Hall by (apply Forall_forall; exact Hparse).
  assert (Forall ListMemories.parses (ListMemories.sortMemories memories)) as Hall'
    by (apply (Permutation_Forall (sortMemories_perm memories)); exact Hall).
  split; [apply sortMemories_perm |]. split; [| split].
  - apply (sorted_by_time_is_newest_first _ Hall'). apply sortMemories_sorted, Hall.
  - intros t. rewrite (createdAtTime_parsed t _ Hall'), (createdAtTime_parsed t _ Hall).
    apply sortMemories_stable, Hall.
  - intros l' Hperm Hsorted Hties.
    assert (Forall ListMemories.parses l') as Hl' by (apply (Permutation_Forall Hperm); exact Hall).
    apply stable_sorted_unique.
    + apply perm_trans with memories;
        [apply Permutation_sym; exact Hperm | apply sortMemories_perm].
    + apply (sorted_by_time_is_newest_first _ Hl'). exact Hsorted.
    + apply sortMemories_sorted, Hall.
    + intros t. rewrite <- (createdAtTime_parsed t _ Hl'), (Hties t),
        (createdAtTime_parsed t _ Hall).
      symmetry. apply sortMemories_stable, Hall.
Qed.

End SortFacts.

(** X26: when every createdAt parses as a date, the sort of the listing
    puts the newest memory first.  The sorted list holds exactly the
    memories storage returned, each entry is at least as new as every entry
    after it, and memories created at the same time keep the order in which
    storage returned them; these three facts determine the list, so every
    stable sort under the code's comparator returns it.  Nothing is stated
    for a createdAt that does not parse, where the comparator gives NaN. *)
Theorem memories_are_sorted_newest_first {dates : ListMemories.Dates}
    (memories : list ListMemories.Memory) :
  (forall m, In m memories ->
             ListMemories.getTime (ListMemories.createdAt m) <> None) ->
  Permutation memories (ListMemories.sortMemories memories)
  /\ List.length (ListMemories.sortMemories memories) = List.length memories
  /\ StronglySorted ListMemories.newerOrSame (ListMemories.sortMemories memories)
  /\ (forall t,
        filter (ListMemories.createdAtTime t) (ListMemories.sortMemories memories)
        = filter (ListMemories.createdAtTime t) memories)
  /\ (forall l',
        Permutation memories l' ->
        StronglySorted ListMemories.newerOrSame l' ->
        (forall t, filter (ListMemories.createdAtTime t) l'
                   = filter (ListMemories.createdAtTime t) memories) ->
        l' = ListMemories.sortMemories memories).
Proof.
  intros Hparse.
  destruct (sort_facts memories Hparse) as (Hperm & Hsorted & Hties & Hunique).
  split; [exact Hperm |].
  split; [symmetry; apply Permutation_length, Hperm |].
  split; [exact Hsorted |]. split; [exact Hties | exact Hunique].
Qed.

Lemma sampleMemories_parse (m : ListMemories.Memory) :
  In m ListMemories.sampleMemories ->
  ListMemories.getTime (Dates := ListMemories.dayDates) (ListMemories.createdAt m)
  <> None.
Proof.
  intros [<- | [<- | [<- | [<- | []]]]]; discriminate.
Qed.

Lemma memories_are_sorted_newest_first_witness :
  Permutation ListMemories.sampleMemories
    (ListMemories.sortMemories (dates := ListMemories.dayDates)
       ListMemories.sampleMemories)
  /\ StronglySorted (ListMemories.newerOrSame (dates := ListMemories.dayDates))
       (ListMemories.sortMemories (dates := ListMemories.dayDates)
          ListMemories.sampleMemories).
Proof.
  destruct (memories_are_sorted_newest_first (dates := ListMemories.dayDates)
              ListMemories.sampleMemories sampleMemories_parse)
    as (Hperm & _ & Hsorted & _).
  split; [exact Hperm | exact Hsorted].
Defined.

(** Days 3, 7, 3, 5 are listed as 7, 5, 3, 3 with the two of day 3 in the
    order of storage. *)
Example sorted_sample :
  map ListMemories.memId
    (ListMemories.sortMemories (dates := ListMemories.dayDates)
       ListMemories.sampleMemories)
  = ["m2"; "m4"; "m1"; "m3"].
Proof. vm_compute. reflexivity. Qed.

Lemma mapWithIndex_nth {fmt : NumberFormat} {dates : ListMemories.Dates}
    (index k : nat) (memories : list ListMemories.Memory) (m : ListMemories.Memory) :
  nth_error memories k = Some m ->
  nth_error (ListMemories.mapWithIndex index memories) k
  = Some (ListMemories.memoryEntry (index + k) m).
Proof.
  revert index k. induction memories as [| x l IH]; intros index k Hnth.
  - destruct k; discriminate Hnth.
  - destruct k as [| k]; cbn [nth_error ListMemories.mapWithIndex] in *.
    + injection Hnth as ->. rewrite Nat.add_0_r. reflexivity.
    + rewrite (IH (S index) k Hnth).
      replace (S index + k)%nat with (index + S k)%nat by lia. reflexivity.
Qed.

Lemma mapWithIndex_length {fmt : NumberFormat} {dates : ListMemories.Dates}
    (index : nat) (memories : list ListMemories.Memory) :
  List.length (ListMemories.mapWithIndex index memories) = List.length memories.
Proof.
  revert index. induction memories as [| x l IH]; intros index; [reflexivity |].
  cbn [ListMemories.mapWithIndex List.length]. rewrite IH. reflexivity.
Qed.

(** X27: when every createdAt parses as a date, storage returns memories
    and then the statistics, the tool answers after exactly the two requests
    getMemories and getStatistics with a text that lists the returned
    memories newest first: its entries, joined by blank lines between the
    heading and the statistics, are one per returned memory, the entry at
    position k being the one of the k-th memory of the list sorted newest
    first (ties in storage order), headed by number k + 1; the response
    recommends get_memory and raises no error flag. *)
Theorem list_memories_lists_what_storage_returns {fmt : NumberFormat}
    {dates : ListMemories.Dates} {St : Type} (w : ListMemories.World St) (s : St)
    (input : ListMemories.Input) (memories : list ListMemories.Memory)
    (stats : ListMemories.Statistics) :
  let limit := match ListMemories.inLimit input with Some l => l | None => 50 end in
  let category := ListMemories.inCategory input in
  let lookup :=
    ListMemories.GetMemories None (option_map ListMemories.trim category) limit in
  1 <= limit -> limit <= 1000 ->
  ListMemories.categoryTooLong category = false ->
  fst (ListMemories.answer w lookup s) = inr memories ->
  memories <> [] ->
  (forall m, In m memories ->
             ListMemories.getTime (ListMemories.createdAt m) <> None) ->
  fst (ListMemories.answer w ListMemories.GetStatistics
         (snd (ListMemories.answer w lookup s))) = inr stats ->
  exists sorted entries,
    Permutation memories sorted
    /\ StronglySorted ListMemories.newerOrSame sorted
    /\ (forall t, filter (ListMemories.createdAtTime t) sorted
                  = filter (ListMemories.createdAtTime t) memories)
    /\ List.length entries = List.length memories
    /\ (forall k m, nth_error sorted k = Some m ->
                    nth_error entries k = Some (ListMemories.memoryEntry k m))
    /\ ListMemories.result (ListMemories.run w (ListMemories.handler input) s)
       = inr
           {| ListMemories.responseContent :=
                [ {| type_ := "text";
                     text :=
                       "📝 Found " ++ Js.natToString (List.length memories)
                         ++ " memory(ies):" ++ Js.nl ++ Js.nl
                         ++ "**Filters:** " ++ ListMemories.filtersText category ++ Js.nl
                         ++ "**Limit:** " ++ numberToString limit ++ Js.nl ++ Js.nl
                         ++ Js.join (Js.nl ++ Js.nl) entries ++ Js.nl ++ Js.nl
                         ++ "---" ++ Js.nl ++ Js.nl
                         ++ "**📊 Overall Statistics:**" ++ Js.nl
                         ++ "• Total memories: "
                         ++ numberToString (ListMemories.totalMemories stats) ++ Js.nl
                         ++ "• Categories: "
                         ++ Js.natToString
                              (List.length (ListMemories.memoriesByCategory stats))
                         ++ Js.nl
                         ++ "• Oldest memory: "
                         ++ ListMemories.dateOrNone (ListMemories.oldestMemory stats)
                         ++ Js.nl
                         ++ "• Newest memory: "
                         ++ ListMemories.dateOrNone (ListMemories.newestMemory stats)
                         ++ Js.nl ++ Js.nl
                         ++ "Use get_memory with a specific ID to see full details, or search_memories for text-based search." |} ];
              ListMemories.responseIsError := None;
              ListMemories.recommendedNextStep := Some "get_memory" |}
    /\ ListMemories.trace (ListMemories.run w (ListMemories.handler input) s)
       = [ListMemories.request lookup; ListMemories.request ListMemories.GetStatistics].
Proof.
  cbn zeta. intros Hlow Hhigh Hcat Hfound Hsome Hparse Hstats.
  destruct (sort_facts memories Hparse) as (Hperm & Hsorted & Hties & _).
  exists (ListMemories.sortMemories memories),
         (ListMemories.mapWithIndex 0 (ListMemories.sortMemories memories)).
  split; [exact Hperm |]. split; [exact Hsorted |]. split; [exact Hties |].
  split.
  { rewrite mapWithIndex_length. symmetry. apply Permutation_length, Hperm. }
  split.
  { intros k m Hnth. apply (mapWithIndex_nth 0 k _ m Hnth). }
  rewrite listMemories_handler_run, (listMemories_body_run w input s). cbn zeta.
  rewrite (valid_limit_passes _ Hlow Hhigh), Hcat.
  destruct (ListMemories.answer w _ s) as [r s1]. cbn [fst snd] in Hfound, Hstats.
  subst r.
  destruct memories as [| m0 rest]; [contradiction |].
  cbn [Nat.eqb List.length].
  destruct (ListMemories.answer w ListMemories.GetStatistics s1) as [r2 s2].
  cbn [fst] in Hstats. subst r2.
  cbn [ListMemories.result ListMemories.trace].
  split; reflexivity.
Qed.

Lemma list_memories_lists_what_storage_returns_witness :
  exists sorted entries,
    map ListMemories.memId sorted = ["m2"; "m4"; "m1"; "m3"]
    /\ List.length entries = 4%nat
    /\ (forall k m, nth_error sorted k = Some m ->
                    nth_error entries k
                    = Some (ListMemories.memoryEntry
                              (dates := ListMemories.dayDates) k m))
    /\ ListMemories.trace
         (ListMemories.run ListMemories.memoryStore
            (ListMemories.handler (fmt := integerFormat)
               (dates := ListMemories.dayDates)
               {| ListMemories.inCategory := None; ListMemories.inLimit := Some 10 |})
            ListMemories.sampleMemories)
       = [ ListMemories.request (ListMemories.GetMemories None None 10);
           ListMemories.request ListMemories.GetStatistics ].
Proof.
  destruct (list_memories_lists_what_storage_returns (fmt := integerFormat)
              (dates := ListMemories.dayDates) ListMemories.memoryStore
              ListMemories.sampleMemories
              {| ListMemories.inCategory := None; ListMemories.inLimit := Some 10 |}
              ListMemories.sampleMemories
              {| ListMemories.totalMemories := 4;
                 ListMemories.memoriesByCategory := [];
                 ListMemories.oldestMemory := None;
                 ListMemories.newestMemory := None |})
    as (sorted & entries & Hperm & Hsorted & Hties & Hlen & Hnth & _ & Htrace).
  - discriminate.
  - discriminate.
  - reflexivity.
  - reflexivity.
  - discriminate.
  - exact sampleMemories_parse.
  - reflexivity.
  - exists sorted, entries.
    split; [| split; [exact Hlen | split; [exact Hnth | exact Htrace]]].
    assert (sorted = ListMemories.sortMemories (dates := ListMemories.dayDates)
                       ListMemories.sampleMemories) as ->.
    { apply (proj2 (proj2 (proj2 (sort_facts (dates := ListMemories.dayDates)
                                     ListMemories.sampleMemories
                                     sampleMemories_parse))));
        assumption. }
    vm_compute. reflexivity.
Defined.

(** A category of white space only is accepted and reaches storage as the
    empty string, while the report shows it as typed. *)
Example blank_category_sample :
  ListMemories.trace
    (ListMemories.run ListMemories.memoryStore
       (ListMemories.handler (fmt := integerFormat) (dates := ListMemories.dayDates)
          {| ListMemories.inCategory := Some "   "; ListMemories.inLimit := None |})
       ListMemories.sampleMemories)
  = [ListMemories.request (ListMemories.GetMemories None (Some EmptyString) 50)]
  /\ ListMemories.filtersText (Some "   ") = "Category:    ".
Proof. split; reflexivity. Qed.
